(** * Gig Worker Analytics Hub: validation, sample data and aggregation

    A shallow embedding of [src/app.py] and [src/granite_helper.py].

    The program is a Streamlit page over pandas.  What is embedded here:
    - [validate_data] (app.py 77-90), with the in-place updates it makes to
      the table it is handed, the exception handler around its body and the
      message it sends to the page, for labels of any text;
    - [load_sample_data] (app.py 66-75) as a function of the random draws;
    - the summary metrics, the weekly resample and the per-platform
      breakdown of [main] (app.py 136-165);
    - the two interaction handlers of [main] (app.py 167-181) together with
      the class [GigAI] of granite_helper.py;
    - the handler of "Load Data" (app.py 110-125) and the sample download
      (app.py 127-134), with [to_csv] and [read_csv] down to the text.

    Conventions of the embedding.
    - A DataFrame is a list of column labels and a list of columns of cells.
      DataFrames are Python objects: they live in a heap and are handled
      through references, so that in-place updates are visible to every
      holder of the reference.
    - Text is a string of bytes (UTF-8).  [strip], [lower] and
      [normalize_column] are Python's methods on ASCII text; where a
      statement is about labels of any text, [str.strip] and [str.lower] are
      parameters ([validate_data_with]).
    - int64 cells are integers of [Z] (no overflow is modelled); float64
      cells are rationals of [Q], with NaN as a cell of its own.  Numbers
      are compared with [Qeq].  [series_sum] and [bin_sum] add exactly: on
      int64 columns that is what the code computes, on float64 columns it
      is the code's result up to rounding.  Statements that equate sums
      taken in different orders are therefore made for int64 columns, and
      the sums of float64 columns as the machine takes them are
      [f64_series_sum] and [f64_weekly_trend].
    - A Timestamp is the number of days since 1970-01-01; the time of day,
      which none of the embedded operations looks at, is left out.
    - Python exceptions are values of [exn]; code that can raise returns a
      [result]. *)

From Stdlib Require Import PrimFloat.
From Stdlib Require Import ZArith QArith Qround Lia Lqa Ascii String List.
From Stdlib Require DecimalString.
From stdpp Require Import base strings gmap list.

Local Open Scope string_scope.
Local Open Scope Z_scope.

#[local] Set Warnings "-inexact-float".

(** ** Exceptions and results *)

Inductive exn_class :=
  | ValueError
  | TypeError
  | KeyError
  | AttributeError
  | ZeroDivisionError
  | RuntimeError
  | RemoteError.

(** An exception is its class and its message, [str(e)]. *)
Record exn := Exn { exn_cls : exn_class; exn_msg : string }.

Definition str (e : exn) : string := exn_msg e.

Inductive result (A : Type) :=
  | Ok (a : A)
  | Raise (e : exn).
Arguments Ok {A} a.
Arguments Raise {A} e.

Definition result_bind {A B} (r : result A) (k : A -> result B) : result B :=
  match r with
  | Ok a => k a
  | Raise e => Raise e
  end.

(** ** Cells and tables *)

Inductive value :=
  | VStr (s : string)     (* object: text *)
  | VInt (z : Z)          (* int64 *)
  | VFloat (q : Q)        (* float64, finite *)
  | VNaN                  (* float64 NaN: a missing number or an empty field *)
  | VDate (d : Z)         (* Timestamp, in days since 1970-01-01 *)
  | VNaT.                 (* the invalid-date sentinel *)

Definition Series := list value.

Record DataFrame := Frame {
  columns : list string;
  data : list Series
}.

(** [len(df)]: the number of rows. *)
Definition nrows (df : DataFrame) : nat :=
  match data df with
  | [] => O
  | c :: _ => List.length c
  end.

(** What [df[name]] evaluates to. *)
Inductive item :=
  | ISeries (s : Series)
  | IFrame (f : DataFrame).

Fixpoint select (name : string) (cols : list string) (cs : list Series)
  : list Series :=
  match cols, cs with
  | c :: cols', s :: cs' =>
      if String.eqb c name then s :: select name cols' cs'
      else select name cols' cs'
  | _, _ => []
  end.

(** [df[name]]: a KeyError when no column has the label, the column when
    exactly one has it, and the sub-frame of all of them when the label is
    repeated. *)
Definition getitem (df : DataFrame) (name : string) : result item :=
  match select name (columns df) (data df) with
  | [] => Raise (Exn KeyError ("'" ++ name ++ "'"))
  | [s] => Ok (ISeries s)
  | ss => Ok (IFrame (Frame (List.map (fun _ => name) ss) ss))
  end.

Fixpoint assign (name : string) (s : Series) (cols : list string)
  (cs : list Series) : list Series :=
  match cols, cs with
  | c :: cols', old :: cs' =>
      (if String.eqb c name then s else old) :: assign name s cols' cs'
  | _, _ => cs
  end.

(** [df[name] = s]: overwrites the column(s) labelled [name], or appends a
    new column when there is none. *)
Definition setitem (df : DataFrame) (name : string) (s : Series) : DataFrame :=
  if existsb (String.eqb name) (columns df)
  then Frame (columns df) (assign name s (columns df) (data df))
  else Frame (columns df ++ [name]) (data df ++ [s]).

(** [name in df.columns] *)
Definition has_column (df : DataFrame) (name : string) : bool :=
  existsb (String.eqb name) (columns df).

(** ** Python's [str] methods used on column labels *)

(** Python's ASCII whitespace: TAB..CR, FS..US and the space. *)
Definition is_space (c : ascii) : bool :=
  let n := nat_of_ascii c in
  ((9 <=? n)%nat && (n <=? 13)%nat) || ((28 <=? n)%nat && (n <=? 32)%nat).

Fixpoint lstrip (s : string) : string :=
  match s with
  | String c s' => if is_space c then lstrip s' else s
  | EmptyString => EmptyString
  end.

Fixpoint string_rev_app (s acc : string) : string :=
  match s with
  | EmptyString => acc
  | String c s' => string_rev_app s' (String c acc)
  end.

Definition string_rev (s : string) : string := string_rev_app s EmptyString.

Definition rstrip (s : string) : string := string_rev (lstrip (string_rev s)).

(** [s.strip()] on ASCII text. *)
Definition strip (s : string) : string := rstrip (lstrip s).

Fixpoint string_map (f : ascii -> ascii) (s : string) : string :=
  match s with
  | EmptyString => EmptyString
  | String c s' => String (f c) (string_map f s')
  end.

Definition lower_char (c : ascii) : ascii :=
  let n := nat_of_ascii c in
  if ((65 <=? n)%nat && (n <=? 90)%nat)%bool then ascii_of_nat (n + 32) else c.

(** [s.lower()], on ASCII letters; other characters are left as they are. *)
Definition lower (s : string) : string := string_map lower_char s.

Fixpoint skip (n : nat) (s : string) : string :=
  match n, s with
  | S n', String _ s' => skip n' s'
  | _, _ => s
  end.

(** Left to right, without overlaps; [fuel] bounds the positions visited. *)
Fixpoint replace_from (fuel : nat) (old new s : string) : string :=
  match fuel, s with
  | S fuel', String c s' =>
      if String.prefix old s
      then new ++ replace_from fuel' old new (skip (String.length old) s)
      else String c (replace_from fuel' old new s')
  | _, _ => s
  end.

(** [s.replace(old, new)] for a non-empty [old]; every position of [s] is
    visited, since each step moves on by at least one character. *)
Definition replace (old new s : string) : string :=
  replace_from (String.length s) old new s.

(** [s.startswith(p)] *)
Definition startswith (s p : string) : bool := String.prefix p s.

(** app.py 79, [col.strip().lower().replace(' ', '_')], on a label that is
    ASCII text. *)
Definition normalize_column (col : string) : string :=
  replace " " "_" (lower (strip col)).

(** ** Calendar dates

    Timestamps are day numbers, 0 being 1970-01-01, a Thursday. *)

Definition is_leap (y : Z) : bool :=
  ((y mod 4 =? 0) && negb (y mod 100 =? 0)) || (y mod 400 =? 0).

Definition days_in_month (y m : Z) : Z :=
  if m =? 2 then (if is_leap y then 29 else 28)
  else if (m =? 4) || (m =? 6) || (m =? 9) || (m =? 11) then 30
  else 31.

(** Day number of the civil date [y]-[m]-[d] (proleptic Gregorian). *)
Definition days_from_civil (y m d : Z) : Z :=
  let y' := if m <=? 2 then y - 1 else y in
  let era := y' / 400 in
  let yoe := y' - era * 400 in
  let mp := if m >? 2 then m - 3 else m + 9 in
  let doy := (153 * mp + 2) / 5 + d - 1 in
  let doe := yoe * 365 + yoe / 4 - yoe / 100 + doy in
  era * 146097 + doe - 719468.

(** Civil date (year, month, day) of a day number. *)
Definition civil_from_days (z : Z) : Z * Z * Z :=
  let z' := z + 719468 in
  let era := z' / 146097 in
  let doe := z' - era * 146097 in
  let yoe := (doe - doe / 1460 + doe / 36524 - doe / 146096) / 365 in
  let doy := doe - (365 * yoe + yoe / 4 - yoe / 100) in
  let mp := (5 * doy + 2) / 153 in
  let d := doy - (153 * mp + 2) / 5 + 1 in
  let m := if mp <? 10 then mp + 3 else mp - 9 in
  ((if m <=? 2 then yoe + era * 400 + 1 else yoe + era * 400), m, d).

(** The days a Timestamp (64-bit nanoseconds) can hold in full:
    1677-09-22 to 2262-04-11. *)
Definition in_bounds (d : Z) : bool := (-106751 <=? d) && (d <=? 106751).

(** [Timestamp.weekday()]: Monday is 0 and Sunday is 6. *)
Definition weekday (d : Z) : Z := (d + 3) mod 7.

Definition digit_of (c : ascii) : option Z :=
  let n := nat_of_ascii c in
  if ((48 <=? n)%nat && (n <=? 57)%nat)%bool
  then Some (Z.of_nat (n - 48)) else None.

Fixpoint number_of (s : string) (acc : Z) : option Z :=
  match s with
  | EmptyString => Some acc
  | String c s' =>
      match digit_of c with
      | Some k => number_of s' (10 * acc + k)
      | None => None
      end
  end.

(** Reads the ISO calendar form YYYY-MM-DD; [None] when the text has another
    shape, names no calendar day, or names one outside the Timestamp
    range. *)
Definition parse_iso_date (s : string) : option Z :=
  if negb (String.length s =? 10)%nat then None else
  if negb (String.eqb (substring 4 1 s) "-" && String.eqb (substring 7 1 s) "-")
  then None else
  match number_of (substring 0 4 s) 0, number_of (substring 5 2 s) 0,
        number_of (substring 8 2 s) 0 with
  | Some y, Some m, Some d =>
      if (1 <=? m) && (m <=? 12) && (1 <=? d) && (d <=? days_in_month y m)
      then let n := days_from_civil y m d in
           if in_bounds n then Some n else None
      else None
  | _, _, _ => None
  end.

Definition digit_char (n : Z) : ascii := ascii_of_nat (48 + Z.to_nat n).

Definition pad2 (n : Z) : string :=
  String (digit_char (n / 10 mod 10)) (String (digit_char (n mod 10)) "").

Definition pad4 (n : Z) : string :=
  String (digit_char (n / 1000 mod 10)) (String (digit_char (n / 100 mod 10))
    (pad2 n)).

(** [strftime("%Y-%m-%d")]: how a midnight Timestamp is written. *)
Definition strftime_date (d : Z) : string :=
  let '(y, m, dd) := civil_from_days d in
  pad4 y ++ "-" ++ pad2 m ++ "-" ++ pad2 dd.

(** ** [pd.to_datetime(..., errors='coerce')]

    On a column that already holds Timestamps the coercion changes nothing.
    On a column of text in the ISO form YYYY-MM-DD (with, possibly, missing
    cells) every cell is read as that date and a missing cell becomes NaT.
    How any other column is read (other date formats, the format pandas
    infers from the column, numbers taken as epoch offsets) is the
    library's business and is a parameter here: [coerce_other col i] is the
    date read from cell [i] of column [col], or [None] for NaT. *)

Definition is_timestamp (v : value) : bool :=
  match v with
  | VDate _ | VNaT => true
  | _ => false
  end.

Definition is_iso_cell (v : value) : bool :=
  match v with
  | VStr s => match parse_iso_date s with Some _ => true | None => false end
  | VNaN => true
  | _ => false
  end.

Definition read_iso_cell (v : value) : value :=
  match v with
  | VStr s => match parse_iso_date s with Some d => VDate d | None => VNaT end
  | _ => VNaT
  end.

Definition date_or_nat (o : option Z) : value :=
  match o with
  | Some d => VDate d
  | None => VNaT
  end.

Definition to_datetime_series (coerce_other : Series -> nat -> option Z)
  (col : Series) : Series :=
  if forallb is_timestamp col then col
  else if forallb is_iso_cell col then List.map read_iso_cell col
  else List.map (fun i => date_or_nat (coerce_other col i))
                (seq 0 (List.length col)).

(** Handed a DataFrame, [pd.to_datetime] tries to assemble dates from
    columns named year, month and day, and refuses repeated labels. *)
Definition to_datetime (coerce_other : Series -> nat -> option Z)
  (arg : item) : result Series :=
  match arg with
  | ISeries col => Ok (to_datetime_series coerce_other col)
  | IFrame f =>
      Raise (Exn ValueError "cannot assemble with duplicate keys")
  end.

(** [isnull]: NaN, NaT (and None) are null. *)
Definition isnull (v : value) : bool :=
  match v with
  | VNaN | VNaT => true
  | _ => false
  end.

(** [x.isnull().any()] as a condition: on a Series, whether some cell is
    null; on a DataFrame the result is a Series, whose truth value is
    ambiguous. *)
Definition isnull_any (arg : item) : result bool :=
  match arg with
  | ISeries col => Ok (existsb isnull col)
  | IFrame _ =>
      Raise (Exn ValueError "The truth value of a Series is ambiguous.")
  end.

(** ** The heap, the page, and the monad of Python code *)

Definition ref := positive.

(** What the script sends to the Streamlit page. *)
Inductive ui_event :=
  | st_error (msg : string)
  | st_success (msg : string)
  | st_warning (msg : string)
  | st_markdown (body : string)
  | st_rerun.

(** The state of numpy's global generator: the raw words it will deliver,
    and how many have been consumed. *)
Record RandomState := Rng {
  raw : nat -> N;
  consumed : nat
}.

Record world := World {
  heap : gmap ref DataFrame;
  page : list ui_event;               (* in the order sent *)
  messages : list (string * string);  (* st.session_state.messages *)
  rng : RandomState;                  (* np.random *)
  session_data : option ref           (* st.session_state.data *)
}.

Definition with_heap (h : gmap ref DataFrame) (w : world) : world :=
  World h (page w) (messages w) (rng w) (session_data w).

Definition with_page (p : list ui_event) (w : world) : world :=
  World (heap w) p (messages w) (rng w) (session_data w).

Definition with_messages (m : list (string * string)) (w : world) : world :=
  World (heap w) (page w) m (rng w) (session_data w).

Definition with_rng (g : RandomState) (w : world) : world :=
  World (heap w) (page w) (messages w) g (session_data w).

Definition with_session_data (d : option ref) (w : world) : world :=
  World (heap w) (page w) (messages w) (rng w) d.

(** A Python computation: it reads and updates the world, and ends by
    returning a value or by raising.  The updates made before an exception
    is raised stay. *)
Definition py (A : Type) : Type := world -> result A * world.

Definition ret {A} (a : A) : py A := fun w => (Ok a, w).

Definition raise {A} (e : exn) : py A := fun w => (Raise e, w).

Definition bind {A B} (m : py A) (k : A -> py B) : py B :=
  fun w =>
    match m w with
    | (Ok a, w') => k a w'
    | (Raise e, w') => (Raise e, w')
    end.

(** [try: m  except Exception as e: h e] *)
Definition try_except {A} (m : py A) (h : exn -> py A) : py A :=
  fun w =>
    match m w with
    | (Ok a, w') => (Ok a, w')
    | (Raise e, w') => h e w'
    end.

Definition lift {A} (r : result A) : py A := fun w => (r, w).

#[global] Instance py_ret : MRet py := @ret.
#[global] Instance py_bind : MBind py := fun A B k m => bind m k.

(** Reading through a reference.  References are never dangling in Python;
    a lookup that finds nothing is reported as a RuntimeError so that the
    definition is total. *)
Definition deref (r : ref) : py DataFrame :=
  fun w =>
    match heap w !! r with
    | Some df => (Ok df, w)
    | None => (Raise (Exn RuntimeError "dangling reference"), w)
    end.

Definition store (r : ref) (df : DataFrame) : py unit :=
  fun w => (Ok tt, with_heap (<[r := df]> (heap w)) w).

(** A new object: it gets a reference that is not in use. *)
Definition alloc (df : DataFrame) : py ref :=
  fun w =>
    let r := fresh (dom (heap w)) in
    (Ok r, with_heap (<[r := df]> (heap w)) w).

Definition emit (e : ui_event) : py unit :=
  fun w => (Ok tt, with_page (page w ++ [e]) w).

(** [df.columns] *)
Definition get_columns (r : ref) : py (list string) :=
  df ← deref r; ret (columns df).

(** [df.columns = new]: relabels in place; pandas refuses a list of another
    length. *)
Definition set_columns (r : ref) (new : list string) : py unit :=
  df ← deref r;
  if (List.length new =? List.length (columns df))%nat
  then store r (Frame new (data df))
  else raise (Exn ValueError "Length mismatch").

(** [df[name]] *)
Definition py_getitem (r : ref) (name : string) : py item :=
  df ← deref r; lift (getitem df name).

(** [df[name] = s], in place *)
Definition py_setitem (r : ref) (name : string) (s : Series) : py unit :=
  df ← deref r; store r (setitem df name s).

(** ** The validator (app.py 77-90) *)

Definition required : gset string :=
  {[ "date"; "platform"; "hours"; "earnings" ]}.

Fixpoint join (sep : string) (l : list string) : string :=
  match l with
  | [] => ""
  | [s] => s
  | s :: l' => s ++ sep ++ join sep l'
  end.

(** [repr] of a set of plain words, for instance [{'hours', 'date'}].
    Python lists the members in the set's iteration order, which is not
    specified; here they come in the order of [elements]. *)
Definition repr_set (s : gset string) : string :=
  "{" ++ join ", " (List.map (fun x => "'" ++ x ++ "'") (elements s)) ++ "}".

Section Validator.

(** [str.strip] and [str.lower].  On ASCII text they are [strip] and [lower]
    above; on other text they do more (Unicode white space, letters outside
    ASCII, mappings that change the length of the text), and what they do
    there is Python's business: the validator is embedded for any two
    functions in their place. *)
Variable str_strip str_lower : string -> string.

(** The library's reading of date columns that are not plain ISO text. *)
Variable coerce_other : Series -> nat -> option Z.

(** Line 79, [col.strip().lower().replace(' ', '_')]. *)
Definition normalize_column_with (col : string) : string :=
  replace " " "_" (str_lower (str_strip col)).

(** Lines 79-87, the body of the [try]. *)
Definition validate_body_with (df : ref) : py (option ref) :=
  cols ← get_columns df;
  set_columns df (List.map normalize_column_with cols);;
  cols' ← get_columns df;
  let missing := required ∖ list_to_set cols' in
  if decide (missing = ∅) then
    d ← py_getitem df "date";
    coerced ← lift (to_datetime coerce_other d);
    py_setitem df "date" coerced;;
    d' ← py_getitem df "date";
    bad ← lift (isnull_any d');
    if bad : bool
    then raise (Exn ValueError "Invalid date format in date column")
    else ret (Some df)
  else raise (Exn ValueError ("Missing columns: " ++ repr_set missing)).

(** [validate_data(df)]: the table behind [df] on success, [None] after
    any exception, which is reported on the page. *)
Definition validate_data_with (df : ref) : py (option ref) :=
  try_except (validate_body_with df)
    (fun e =>
       emit (st_error ("Data validation error: " ++ str e));;
       ret None).

End Validator.

(** The validator on tables whose labels are ASCII text, where [str.strip]
    and [str.lower] are [strip] and [lower]. *)
Definition validate_body : (Series -> nat -> option Z) -> ref -> py (option ref) :=
  validate_body_with strip lower.

Definition validate_data : (Series -> nat -> option Z) -> ref -> py (option ref) :=
  validate_data_with strip lower.

(** ** numpy's random draws and the sample data (app.py 66-75)

    The generator is a source of raw words.  How numpy turns words into
    draws is reduced to what fixes the set of possible outcomes:
    [randint(low, high)] delivers an integer from [low] up to, but not
    including, [high]; [random_sample] delivers a multiple of 2^-53 in
    [0, 1). *)

Definition next_raw : py N :=
  fun w =>
    let g := rng w in
    (Ok (raw g (consumed g)), with_rng (Rng (raw g) (S (consumed g))) w).

(** [size=n]: [n] draws, one after the other. *)
Fixpoint draws {A} (m : py A) (n : nat) : py (list A) :=
  match n with
  | O => ret []
  | S n' => x ← m; xs ← draws m n'; ret (x :: xs)
  end.

(** [np.random.randint(low, high)] *)
Definition randint1 (low high : Z) : py Z :=
  if low <? high
  then x ← next_raw; ret (low + Z.of_N x mod (high - low))
  else raise (Exn ValueError "low >= high").

Definition randint (low high : Z) (size : nat) : py (list Z) :=
  draws (randint1 low high) size.

(** [np.random.choice(a)]: a member of [a] at a random index. *)
Definition choice1 (a : list string) : py string :=
  match a with
  | [] => raise (Exn ValueError "'a' cannot be empty")
  | _ => i ← randint1 0 (Z.of_nat (List.length a));
         ret (nth (Z.to_nat i) a "")
  end.

Definition choice (a : list string) (size : nat) : py (list string) :=
  draws (choice1 a) size.

Definition random_sample : py Q :=
  x ← next_raw; ret (Z.of_N (x mod 2 ^ 53) # 2 ^ 53).

(** [np.random.uniform(low, high)]: [low + (high - low) * random_sample()] *)
Definition uniform1 (low high : Q) : py Q :=
  u ← random_sample; ret (low + (high - low) * u)%Q.

Definition uniform (low high : Q) (size : nat) : py (list Q) :=
  draws (uniform1 low high) size.

(** [np.rint]: to the nearest integer, halves to the even one. *)
Definition rint (q : Q) : Z :=
  let f := Qfloor q in
  match (q - inject_Z f ?= 1 # 2)%Q with
  | Lt => f
  | Gt => f + 1
  | Eq => if Z.even f then f else f + 1
  end.

(** [x.round(1)]: [rint(x * 10) / 10] *)
Definition round1 (q : Q) : Q := (inject_Z (rint (q * (10 # 1))) / (10 # 1))%Q.

(** [pd.date_range(start, periods=n)]: [n] days, one per day from [start]. *)
Definition date_range (start : string) (periods : nat) : result (list Z) :=
  match parse_iso_date start with
  | Some d => Ok (List.map (fun i => d + Z.of_nat i) (seq 0 periods))
  | None => Raise (Exn ValueError ("Unknown datetime string format: " ++ start))
  end.

Definition platforms : list string := ["Uber"; "DoorDash"; "Lyft"].

(** The body of [load_sample_data]; the decorator [st.cache_data], which
    keeps the table of the first call for the later ones, is left out. *)
Definition load_sample_data : py ref :=
  dates ← lift (date_range "2023-01-01" 90);
  earnings ← randint 50 200 90;
  hours ← randint 2 8 90;
  platform ← choice platforms 90;
  miles ← uniform (5 # 1) (50 # 1) 90;
  alloc (Frame ["date"; "earnings"; "hours"; "platform"; "miles"]
               [ List.map VDate dates;
                 List.map VInt earnings;
                 List.map VInt hours;
                 List.map VStr platform;
                 List.map (fun x => VFloat (round1 x)) miles ]).

(** ** The aggregations of [main] (app.py 136-165) *)

#[global] Instance result_ret : MRet result := @Ok.
#[global] Instance result_mbind : MBind result :=
  fun A B k r => result_bind r k.

Definition is_number (v : value) : bool :=
  match v with
  | VInt _ | VFloat _ | VNaN => true
  | _ => false
  end.

(** A column of dtype int64 or float64. *)
Definition is_numeric (s : Series) : bool := forallb is_number s.

(** What a cell adds to a sum; NaN is skipped.  The additions are exact: see
    [f64_series_sum] for the rounded sum of a float64 column. *)
Definition number (v : value) : Q :=
  match v with
  | VInt z => inject_Z z
  | VFloat q => q
  | _ => 0
  end.

(** [Series.sum()] of a numeric column. *)
Definition series_sum (s : Series) : Q :=
  fold_right (fun v acc => (number v + acc)%Q) 0%Q s.

(** [Series.count()]: the cells that are not null. *)
Definition series_count (s : Series) : nat :=
  List.length (List.filter (fun v => negb (isnull v)) s).

(** [Series.mean()]: NaN ([None]) when every cell is null. *)
Definition series_mean (s : Series) : option Q :=
  match series_count s with
  | O => None
  | S n => Some (series_sum s / inject_Z (Z.of_nat (S n)))%Q
  end.

(** [data[name].sum()] as a number.  The sum of a text column is text and
    that of a repeated label is a Series; lines 140-146 then fail on
    formatting or dividing it, which is reported here at the sum. *)
Definition column_sum (df : DataFrame) (name : string) : result Q :=
  it ← getitem df name;
  match it with
  | ISeries s =>
      if is_numeric s then Ok (series_sum s)
      else Raise (Exn TypeError ("unsupported operand for " ++ name))
  | IFrame _ => Raise (Exn TypeError ("unsupported operand for " ++ name))
  end.

(** Python's [max(a, b)]: [b] only when it is greater than [a]. *)
Definition py_max (a b : Q) : Q := if Qlt_le_dec a b then b else a.

(** [a / b] *)
Definition true_div (a b : Q) : result Q :=
  if Qeq_bool b 0 then Raise (Exn ZeroDivisionError "division by zero")
  else Ok (a / b)%Q.

(** Line 142 *)
Definition hourly_rate (df : DataFrame) : result Q :=
  e ← column_sum df "earnings";
  h ← column_sum df "hours";
  true_div e (py_max 1 h).

(** Line 145 *)
Definition mile_rate (df : DataFrame) : result Q :=
  e ← column_sum df "earnings";
  m ← column_sum df "miles";
  true_div e (py_max 1 m).

Record summary := Summary {
  total_earnings : Q;
  total_hours : Q;
  avg_hourly_rate : Q;
  fourth_metric : Q + nat     (* Earnings/Mile, or else Total Jobs *)
}.

(** Lines 140-148 *)
Definition performance_summary (df : DataFrame) : result summary :=
  e ← column_sum df "earnings";
  h ← column_sum df "hours";
  hourly ← hourly_rate df;
  if has_column df "miles"
  then r ← mile_rate df; Ok (Summary e h hourly (inl r))
  else Ok (Summary e h hourly (inr (nrows df))).

(** *** The weekly resample (lines 152-153)

    ['W'] is weekly with weeks ending on Sunday: a row belongs to the week
    that ends on the first Sunday on or after its date, and the result has
    one entry for every such week from the first row's to the last row's,
    also for weeks without rows. *)

Definition week_end (d : Z) : Z := d + (6 - weekday d).

Definition date_of (v : value) : option Z :=
  match v with
  | VDate d => Some d
  | _ => None
  end.

(** The dates of a column; NaT rows are left out of every bin. *)
Definition valid_dates (ds : Series) : list Z := omap date_of ds.

Definition week_bins (ds : list Z) : list Z :=
  match ds with
  | [] => []
  | d :: ds' =>
      let lo := week_end (fold_right Z.min d ds') in
      let hi := week_end (fold_right Z.max d ds') in
      List.map (fun k => lo + 7 * Z.of_nat k)
               (seq 0 (S (Z.to_nat ((hi - lo) / 7))))
  end.

(** The sum of the cells of [s] whose row falls in the week ending [b]. *)
Fixpoint bin_sum (b : Z) (ds s : Series) : Q :=
  match ds, s with
  | d :: ds', v :: s' =>
      match date_of d with
      | Some n => if week_end n =? b then (number v + bin_sum b ds' s')%Q
                  else bin_sum b ds' s'
      | None => bin_sum b ds' s'
      end
  | _, _ => 0%Q
  end.

Record Resampled := Weekly {
  week_index : list Z;           (* the Sundays, in order *)
  week_columns : list string;
  week_sums : list (list Q)      (* per column, one sum per week *)
}.

Fixpoint numeric_but (on : string) (cols : list string) (cs : list Series)
  : list (string * Series) :=
  match cols, cs with
  | c :: cols', s :: cs' =>
      if negb (String.eqb c on) && is_numeric s
      then (c, s) :: numeric_but on cols' cs'
      else numeric_but on cols' cs'
  | _, _ => []
  end.

(** [data.resample('W', on=on).sum(numeric_only=True)] *)
Definition resample_W_sum (df : DataFrame) (on : string) : result Resampled :=
  it ← getitem df on;
  match it with
  | ISeries ds =>
      if forallb is_timestamp ds then
        let bins := week_bins (valid_dates ds) in
        let kept := numeric_but on (columns df) (data df) in
        Ok (Weekly bins (List.map fst kept)
              (List.map (fun cs => List.map (fun b => bin_sum b ds (snd cs)) bins)
                        kept))
      else Raise (Exn TypeError "Only valid with DatetimeIndex")
  | IFrame _ => Raise (Exn ValueError "Grouper for 'date' not 1-dimensional")
  end.

Fixpoint week_column (name : string) (cols : list string) (cs : list (list Q))
  : option (list Q) :=
  match cols, cs with
  | c :: cols', s :: cs' =>
      if String.eqb c name then Some s else week_column name cols' cs'
  | _, _ => None
  end.

(** Lines 152-153: the points of the weekly earnings line. *)
Definition weekly_trend (df : DataFrame) : result (list (Z * Q)) :=
  weekly ← resample_W_sum df "date";
  match week_column "earnings" (week_columns weekly) (week_sums weekly) with
  | Some totals => Ok (combine (week_index weekly) totals)
  | None => Raise (Exn ValueError "Value of 'y' is not the name of a column")
  end.

(** *** Sums of float64 columns, with their rounding

    [series_sum] and [bin_sum] add exactly.  That is what the code computes
    on an int64 column.  On a float64 column every addition rounds to the
    nearest float64, so that a sum depends on the order in which it is
    taken.  The sums below are taken as the libraries take them, on the
    machine's own float64 numbers. *)





(** *** The per-platform breakdown (lines 156-159)

    A group key is a text label, a number or a date; null keys form no
    group.  Equal numbers are one key, whether int or float. *)

Abbreviation group_key := (string + Z * positive + Z)%type.

Definition key_of (v : value) : option group_key :=
  match v with
  | VStr s => Some (inl (inl s))
  | VInt z => Some (inl (inr (z, 1%positive)))
  | VFloat q => Some (inl (inr (Qnum (Qred q), Qden (Qred q))))
  | VDate d => Some (inr d)
  | VNaN | VNaT => None
  end.

(** [groupby]: the rows of each key, in their order. *)
Fixpoint groupby {A} (keys : Series) (rows : list A) : gmap group_key (list A) :=
  match keys, rows with
  | k :: keys', x :: rows' =>
      let g := groupby keys' rows' in
      match key_of k with
      | Some k' => <[k' := x :: default [] (g !! k')]> g
      | None => g
      end
  | _, _ => ∅
  end.

Record stats := Stats {
  earnings_sum : Q;
  earnings_mean : option Q;
  hours_sum : Q;
  hours_mean : option Q
}.

(** [agg({"earnings": ["sum", "mean"], "hours": ["sum", "mean"]})] on the
    rows of one group. *)
Definition agg (rows : list (value * value)) : stats :=
  let e := List.map fst rows in
  let h := List.map snd rows in
  Stats (series_sum e) (series_mean e) (series_sum h) (series_mean h).

Definition numeric_column (df : DataFrame) (name : string) : result Series :=
  it ← getitem df name;
  match it with
  | ISeries s =>
      if is_numeric s then Ok s
      else Raise (Exn TypeError ("agg function failed for " ++ name))
  | IFrame _ => Raise (Exn TypeError ("agg function failed for " ++ name))
  end.

Definition platform_stats (df : DataFrame) : result (gmap group_key stats) :=
  it ← getitem df "platform";
  match it with
  | ISeries keys =>
      e ← numeric_column df "earnings";
      h ← numeric_column df "hours";
      Ok (agg <$> groupby keys (combine e h))
  | IFrame _ => Raise (Exn ValueError "Grouper for 'platform' not 1-dimensional")
  end.

(** ** The advisor: class [GigAI] (granite_helper.py) and its use in [main] *)

(** [html.escape(s)], quotes included. *)
Fixpoint html_escape (s : string) : string :=
  match s with
  | EmptyString => EmptyString
  | String c s' =>
      (if Ascii.eqb c "&" then "&amp;"
       else if Ascii.eqb c "<" then "&lt;"
       else if Ascii.eqb c ">" then "&gt;"
       else if Ascii.eqb c (ascii_of_nat 34) then "&quot;"
       else if Ascii.eqb c "'" then "&#x27;"
       else String c EmptyString) ++ html_escape s'
  end.

Definition newline : string := String (ascii_of_nat 10) EmptyString.

(** app.py 48-60 *)
Definition display_recommendations (advice : string) : py unit :=
  if startswith advice "Error" then emit (st_error advice)
  else
    let formatted_advice :=
      replace newline "<br>"
        (replace (newline ++ "- ") "<br>• " (html_escape advice)) in
    emit (st_markdown
      ("<div class='recommendation-box'>" ++
       "<h3 class='recommendation-header'>📊 Your Personalized Recommendations</h3>" ++
       "<div class='recommendation-content'>" ++ formatted_advice ++ "</div>" ++
       "</div>")).

(** What a method of [GigAI] is called with in [main]. *)
Inductive argument :=
  | AFrame (r : ref)
  | AText (s : string).

(** What a name on a [GigAI] object stands for. *)
Inductive attribute :=
  | Method (call : argument -> py string)
  | Constructor
  | Field.

Section Advisor.

(** [self.model.generate_text]: the remote call.  It returns the text of
    the model or raises. *)
Variable generate_text : string -> result string.

(** The prompt of lines 39-79, built from the clock, the first rows of the
    table and the quotient of its two sums; building it can raise. *)
Variable report_prompt : DataFrame -> result string.

(** The prompt of lines 88-111 for a question. *)
Variable question_prompt : string -> string.

(** [str(df)] *)
Variable frame_text : DataFrame -> string.

(** granite_helper.py 36-83 *)
Definition generate_judge_ready_recommendations (data : argument)
  : py string :=
  try_except
    (match data with
     | AFrame r =>
         df ← deref r;
         prompt ← lift (report_prompt df);
         text ← lift (generate_text prompt);
         ret (strip text)
     | AText _ =>
         raise (Exn AttributeError "'str' object has no attribute 'head'")
     end)
    (fun e => ret ("Error generating report: " ++ str e)).

(** granite_helper.py 85-115 *)
Definition answer_question (question : argument) : py string :=
  try_except
    (shown ← match question with
             | AText s => ret s
             | AFrame r => df ← deref r; ret (frame_text df)
             end;
     text ← lift (generate_text (question_prompt shown));
     ret (strip text))
    (fun e => ret ("Error generating response: " ++ str e)).

(** The names a [GigAI] object answers to: the three functions of the
    class body and the three fields set by [__init__].  (The names that
    every Python object inherits all begin with two underscores.) *)
Definition GigAI_attributes : list (string * attribute) :=
  [ ("__init__", Constructor);
    ("generate_judge_ready_recommendations",
       Method generate_judge_ready_recommendations);
    ("answer_question", Method answer_question);
    ("credentials", Field);
    ("project_id", Field);
    ("model", Field) ].

Fixpoint lookup_attribute (name : string) (l : list (string * attribute))
  : option attribute :=
  match l with
  | [] => None
  | (n, a) :: l' => if String.eqb n name then Some a else lookup_attribute name l'
  end.

(** [gig_ai.name(arg)]: the attribute is looked up, then called. *)
Definition call_method (name : string) (arg : argument) : py string :=
  match lookup_attribute name GigAI_attributes with
  | Some (Method call) => call arg
  | Some _ => raise (Exn TypeError "object is not callable")
  | None =>
      raise (Exn AttributeError
               ("'GigAI' object has no attribute '" ++ name ++ "'"))
  end.

(** app.py 168-171: the button "Get Personalized Advice" was pressed. *)
Definition on_get_advice (data : ref) : py unit :=
  advice ← call_method "predict_schedule" (AFrame data);
  display_recommendations advice.

Definition append_message (role content : string) : py unit :=
  fun w => (Ok tt, with_messages (messages w ++ [(role, content)]) w).

(** app.py 176-181: a question was submitted in the chat box. *)
Definition on_chat_input (prompt : string) : py unit :=
  append_message "user" prompt;;
  response ← call_method "ask_question" (AText prompt);
  append_message "assistant" response;;
  emit st_rerun.

End Advisor.

(** ** The sample download (app.py 127-134) and reading it back

    [to_csv] and [read_csv] follow the comma-separated format of pandas:
    records end with a line feed, fields are separated by commas, a field
    that holds a comma, a double quote or a line break is written between
    double quotes with its double quotes doubled. *)

Definition comma : ascii := ","%char.
Definition dquote : ascii := ascii_of_nat 34.
Definition lf : ascii := ascii_of_nat 10.
Definition cr : ascii := ascii_of_nat 13.

Definition special (c : ascii) : bool :=
  Ascii.eqb c comma || Ascii.eqb c dquote || Ascii.eqb c lf || Ascii.eqb c cr.

Fixpoint any_char (p : ascii -> bool) (s : string) : bool :=
  match s with
  | EmptyString => false
  | String c s' => p c || any_char p s'
  end.

Fixpoint double_quotes (s : string) : string :=
  match s with
  | EmptyString => EmptyString
  | String c s' =>
      if Ascii.eqb c dquote then String dquote (String dquote (double_quotes s'))
      else String c (double_quotes s')
  end.

Definition quoted (f : string) : string :=
  String dquote (double_quotes f ++ String dquote EmptyString).

Definition write_field (f : string) : string :=
  if any_char special f then quoted f else f.

(** A record; one that consists of a single empty field is written as a
    pair of quotes, so that it is not taken for a blank line. *)
Definition write_row (fs : list string) : string :=
  match fs with
  | [EmptyString] => quoted EmptyString ++ newline
  | _ => join "," (List.map write_field fs) ++ newline
  end.

(** The texts of a list, one after the other. *)
Fixpoint concat_all (l : list string) : string :=
  match l with
  | [] => EmptyString
  | s :: l' => s ++ concat_all l'
  end.

Definition string_of_Z (z : Z) : string :=
  DecimalString.NilZero.string_of_int (Z.to_int z).

Section Download.

(** [repr] of a float, the shortest decimal text that reads back as the
    same float. *)
Variable float_repr : Q -> string.

(** How [to_csv] writes a cell: dates without a time as YYYY-MM-DD, null
    cells as nothing. *)
Definition render (v : value) : string :=
  match v with
  | VStr s => s
  | VInt z => string_of_Z z
  | VFloat q => float_repr q
  | VDate d => strftime_date d
  | VNaN | VNaT => EmptyString
  end.

(** Row [i] of the table, as text. *)
Definition record_of (cs : list Series) (i : nat) : list string :=
  List.map (fun c => render (nth i c VNaN)) cs.

(** [df.to_csv(index=False)]: the column labels, then the rows. *)
Definition to_csv (df : DataFrame) : string :=
write_row (columns df) ++
concat_all (List.map (fun i => write_row (record_of (data df) i))
                     (seq 0 (nrows df))).

End Download.

Inductive tok_state :=
  | StartField       (* at the start of a field *)
  | InField          (* inside a field written without quotes *)
  | InQuoted         (* inside a quoted field *)
  | QuoteInQuoted    (* after a double quote inside a quoted field *)
  | EatLF.           (* after a carriage return that ended a record *)

(** The records of a text.  [fld] is the field read so far and [row] the
    fields of the record before it.  Blank lines are skipped; a text that
    ends inside a quoted field is refused. *)
Fixpoint tokenize (s : string) (st : tok_state) (fld : string)
  (row : list string) : result (list (list string)) :=
  match s with
  | EmptyString =>
      match st with
      | StartField =>
          match row with
          | [] => Ok []
          | _ => Ok [(row ++ [EmptyString])%list]
          end
      | EatLF => Ok []
      | InQuoted => Raise (Exn ValueError "EOF inside string")
      | _ => Ok [(row ++ [fld])%list]
      end
  | String c s' =>
      let end_record r st' :=
        match tokenize s' st' EmptyString [] with
        | Ok rs => Ok (r :: rs)
        | Raise e => Raise e
        end in
      let start row :=
        if Ascii.eqb c dquote then tokenize s' InQuoted EmptyString row
        else if Ascii.eqb c comma
        then tokenize s' StartField EmptyString (row ++ [EmptyString])%list
        else if Ascii.eqb c lf then
          match row with
          | [] => tokenize s' StartField EmptyString []
          | _ => end_record (row ++ [EmptyString])%list StartField
          end
        else if Ascii.eqb c cr then
          match row with
          | [] => tokenize s' EatLF EmptyString []
          | _ => end_record (row ++ [EmptyString])%list EatLF
          end
        else tokenize s' InField (String c EmptyString) row in
      let unquoted fld :=
        if Ascii.eqb c comma
        then tokenize s' StartField EmptyString (row ++ [fld])%list
        else if Ascii.eqb c lf then end_record (row ++ [fld])%list StartField
        else if Ascii.eqb c cr then end_record (row ++ [fld])%list EatLF
        else tokenize s' InField (fld ++ String c EmptyString) row in
      match st with
      | StartField => start row
      | EatLF =>
          if Ascii.eqb c lf then tokenize s' StartField EmptyString []
          else start []
      | InField => unquoted fld
      | InQuoted =>
          if Ascii.eqb c dquote then tokenize s' QuoteInQuoted fld row
          else tokenize s' InQuoted (fld ++ String c EmptyString) row
      | QuoteInQuoted =>
          if Ascii.eqb c dquote
          then tokenize s' InQuoted (fld ++ String dquote EmptyString) row
          else unquoted fld
      end
  end.

(** The texts that stand for a missing value. *)
Definition na_values : list string :=
  [ ""; "#N/A"; "#N/A N/A"; "#NA"; "-1.#IND"; "-1.#QNAN"; "-NaN"; "-nan";
    "1.#IND"; "1.#QNAN"; "<NA>"; "N/A"; "NA"; "NULL"; "NaN"; "None"; "n/a";
    "nan"; "null" ].

Definition is_na (f : string) : bool := existsb (String.eqb f) na_values.

Definition digits_of (s : string) : option Z :=
  match s with
  | EmptyString => None
  | _ => number_of s 0
  end.

Definition signed {A} (read : string -> option A) (neg : A -> A) (s : string)
  : option A :=
  match s with
  | String "-" s' => neg <$> read s'
  | String "+" s' => read s'
  | _ => read s
  end.

(** An integer field: an optional sign and digits. *)
Definition int_of_field (f : string) : option Z := signed digits_of Z.opp f.

(** [s] up to the first character that satisfies [p], and what follows that
    character, if there is one. *)
Fixpoint split_on (p : ascii -> bool) (s : string) : string * option string :=
  match s with
  | EmptyString => (EmptyString, None)
  | String c s' =>
      if p c then (EmptyString, Some s')
      else let '(a, b) := split_on p s' in (String c a, b)
  end.

Definition decimal_of (s : string) : option Q :=
  match split_on (Ascii.eqb ".") s with
  | (ip, None) => inject_Z <$> digits_of ip
  | (ip, Some fp) =>
      match ip, fp with
      | EmptyString, EmptyString => None
      | _, _ =>
          a ← number_of ip 0;
          b ← number_of fp 0;
          Some (inject_Z a + inject_Z b / inject_Z (10 ^ Z.of_nat (String.length fp)))%Q
      end
  end.

(** A float field: sign, digits with an optional fraction, and an optional
    power of ten.  (The spellings of infinity are not read as numbers
    here.) *)
Definition float_of_field (f : string) : option Q :=
  match split_on (fun c => Ascii.eqb c "e" || Ascii.eqb c "E") f with
  | (m, None) => signed decimal_of Qopp m
  | (m, Some e) =>
      q ← signed decimal_of Qopp m;
      k ← int_of_field e;
      Some (q * Qpower (10 # 1) k)%Q
  end.

(** The dtype [read_csv] gives a column: int64 when every field is an
    integer, float64 when every field is a number or missing, text
    otherwise.  (Columns of booleans are not modelled.) *)
Definition infer_column (fields : list string) : Series :=
  let present := List.filter (fun f => negb (is_na f)) fields in
  if forallb (fun f => bool_decide (is_Some (int_of_field f))) present then
    if forallb (fun f => negb (is_na f)) fields
    then List.map (fun f => VInt (default 0 (int_of_field f))) fields
    else List.map (fun f => if is_na f then VNaN
                            else VFloat (inject_Z (default 0 (int_of_field f))))
                  fields
  else if forallb (fun f => bool_decide (is_Some (float_of_field f))) present
  then List.map (fun f => if is_na f then VNaN
                          else VFloat (default 0%Q (float_of_field f))) fields
  else List.map (fun f => if is_na f then VNaN else VStr f) fields.

(** Repeated labels of the header are told apart by a count: x, x.1, x.2. *)
Fixpoint mangle (seen labels : list string) : list string :=
  match labels with
  | [] => []
  | l :: labels' =>
      let k := List.length (List.filter (String.eqb l) seen) in
      (match k with
       | O => l
       | _ => l ++ "." ++ string_of_Z (Z.of_nat k)
       end) :: mangle (seen ++ [l]) labels'
  end.

(** [pd.read_csv(text)]: the first record gives the labels; a record with
    fewer fields than labels is filled up with missing values, one with
    more is an error. *)
Definition read_csv (text : string) : result DataFrame :=
  records ← tokenize text StartField EmptyString [];
  match records with
  | [] => Raise (Exn ValueError "No columns to parse from file")
  | header :: rows =>
      let width := List.length header in
      if forallb (fun r => (List.length r <=? width)%nat) rows then
        Ok (Frame (mangle [] header)
              (List.map (fun j => infer_column
                                    (List.map (fun r => nth j r EmptyString) rows))
                        (seq 0 width)))
      else Raise (Exn ValueError "Error tokenizing data")
  end.

Section Session.

Variable coerce_other : Series -> nat -> option Z.
Variable float_repr : Q -> string.

Definition set_session_data (d : option ref) : py unit :=
  fun w => (Ok tt, with_session_data d w).

(** app.py 110-125: "Load Data" was pressed, with the box "Use sample data"
    ticked or not and with or without an uploaded file, given by its
    text. *)
Definition on_load_data (use_sample : bool) (uploaded_file : option string)
  : py unit :=
  try_except
    (if use_sample then
       sample ← load_sample_data;
       set_session_data (Some sample);;
       emit (st_success "Sample data loaded!")
     else
       match uploaded_file with
       | Some text =>
           table ← lift (read_csv text);
           df ← alloc table;
           checked ← validate_data coerce_other df;
           match checked with
           | Some df' =>
               set_session_data (Some df');;
               emit (st_success "Data loaded successfully!")
           | None => ret tt
           end
       | None => emit (st_warning "Please upload a file or use sample data")
       end)
    (fun e => emit (st_error ("Error loading data: " ++ str e))).

(** app.py 128-131: the text offered as "Download sample data". *)
Definition download_sample : py string :=
  sample ← load_sample_data;
  sample_df ← deref sample;
  ret (to_csv float_repr sample_df).

(** The download is taken and then uploaded through "Load Data". *)
Definition sample_round_trip : py unit :=
  text ← download_sample;
  on_load_data false (Some text).

End Session.

(** ** Tables used as examples *)

(** Hours and miles that sum to zero. *)
Definition zero_hours_example : DataFrame :=
  Frame ["date"; "platform"; "hours"; "earnings"; "miles"]
        [ [VDate 19358; VDate 19359];
          [VStr "Uber"; VStr "Lyft"];
          [VInt 0; VNaN];
          [VInt 10; VInt 20];
          [VFloat 0; VFloat 0] ].

(** A quarter of an hour and half a mile. *)
Definition quarter_hour_example : DataFrame :=
  Frame ["date"; "platform"; "hours"; "earnings"; "miles"]
        [ [VDate 19358];
          [VStr "Uber"];
          [VFloat (1 # 4)];
          [VInt 12];
          [VFloat (1 # 2)] ].

(** Platforms A, A, B with earnings 10, 20, 5. *)
Definition breakdown_example : DataFrame :=
  Frame ["date"; "platform"; "hours"; "earnings"]
        [ [VDate 19358; VDate 19359; VDate 19360];
          [VStr "A"; VStr "A"; VStr "B"];
          [VInt 1; VInt 2; VInt 3];
          [VInt 10; VInt 20; VInt 5] ].

(** ** Reference definitions for the statements *)

(** The rows that carry the key [k]: "that platform's rows". *)
Definition rows_with_key {A} (k : group_key) (keys : Series) (rows : list A)
  : list A :=
  List.map snd
    (List.filter (fun p => bool_decide (key_of (fst p) = Some k))
                 (combine keys rows)).

(** The table [load_sample_data] builds when the generator is in state [g],
    cell by cell: the draw for row [i] of the k-th random column is the raw
    word number [90 * k + i] from where the generator stands. *)
Definition sample_frame (g : RandomState) : DataFrame :=
  let word k i := raw g (consumed g + (90 * k + i))%nat in
  Frame ["date"; "earnings"; "hours"; "platform"; "miles"]
        [ List.map (fun i => VDate (19358 + Z.of_nat i)) (seq 0 90);
          List.map (fun i => VInt (50 + Z.of_N (word 0%nat i) mod 150)%Z) (seq 0 90);
          List.map (fun i => VInt (2 + Z.of_N (word 1%nat i) mod 6)%Z) (seq 0 90);
          List.map (fun i => VStr (nth (Z.to_nat (Z.of_N (word 2%nat i) mod 3))
                                       platforms "")) (seq 0 90);
          List.map (fun i => VFloat (round1 ((5 # 1) + ((50 # 1) - (5 # 1))
                               * (Z.of_N (word 3%nat i mod 2 ^ 53) # 2 ^ 53))%Q))
                   (seq 0 90) ].

(** A generator whose words are 0, 149, 298, ... *)
Definition stride_rng : RandomState := Rng (fun n => N.of_nat n * 149)%N 0.

(** An int64 cell between [lo] and [hi], both included. *)
Definition is_int_in (lo hi : Z) (v : value) : Prop :=
  exists z, v = VInt z /\ lo <= z <= hi.

(** A text cell that holds one of the three platform labels. *)
Definition is_label (v : value) : Prop :=
  exists s, v = VStr s /\ In s platforms.

(** A float64 cell between [lo] and [hi] that is a whole number of
    tenths. *)
Definition is_tenths_in (lo hi : Q) (v : value) : Prop :=
  exists (q : Q) (t : Z), v = VFloat q /\ (lo <= q)%Q /\ (q <= hi)%Q /\ (q == t # 10)%Q.

Definition empty_world (g : RandomState) : world := World ∅ [] [] g None.

(** How a call of [validate_data] ends, seen from outside: the table is
    accepted or rejected with a message, and in both cases the object behind
    the reference is left in some state. *)
Inductive verdict :=
  | Accepted (left_as : DataFrame)
  | Rejected (left_as : DataFrame) (msg : string).

(** The labels of [df] normalised by [normalize], the cells untouched. *)
Definition relabelled_with (normalize : string -> string) (df : DataFrame)
  : DataFrame :=
  Frame (List.map normalize (columns df)) (data df).

(** The required fields that the normalised labels do not provide. *)
Definition missing_fields_with (normalize : string -> string) (df : DataFrame)
  : gset string :=
  required ∖ list_to_set (columns (relabelled_with normalize df)).

Definition verdict_of_with (normalize : string -> string)
  (coerce_other : Series -> nat -> option Z) (df : DataFrame) : verdict :=
  let df1 := relabelled_with normalize df in
  if decide (missing_fields_with normalize df = ∅) then
    match getitem df1 "date" with
    | Raise e => Rejected df1 (str e)
    | Ok (IFrame _) => Rejected df1 "cannot assemble with duplicate keys"
    | Ok (ISeries col) =>
        let coerced := to_datetime_series coerce_other col in
        if existsb isnull coerced
        then Rejected (setitem df1 "date" coerced)
                      "Invalid date format in date column"
        else Accepted (setitem df1 "date" coerced)
    end
  else Rejected df1 ("Missing columns: "
                     ++ repr_set (missing_fields_with normalize df)).

(** The same for labels that are ASCII text. *)
Definition relabelled : DataFrame -> DataFrame :=
  relabelled_with normalize_column.

Definition missing_fields : DataFrame -> gset string :=
  missing_fields_with normalize_column.

Definition verdict_of : (Series -> nat -> option Z) -> DataFrame -> verdict :=
  verdict_of_with normalize_column.

(** The world after a call that ends with verdict [v] on the table at [r]. *)
Definition world_after (r : ref) (v : verdict) (w : world) : world :=
  match v with
  | Accepted df' => with_heap (<[r := df']> (heap w)) w
  | Rejected df' msg =>
      with_page (page w ++ [st_error ("Data validation error: " ++ msg)])
                (with_heap (<[r := df']> (heap w)) w)
  end.

Definition returned (r : ref) (v : verdict) : option ref :=
  match v with
  | Accepted _ => Some r
  | Rejected _ _ => None
  end.

(** A table without platform and earnings, and one with a date that is no
    date. *)
Definition two_column_upload : DataFrame :=
  Frame [" Date "; "Hours"] [ [VStr "2023-01-01"]; [VInt 3] ].

Definition bad_date_upload : DataFrame :=
  Frame ["Date"; "Platform"; "Hours"; "Earnings"]
        [ [VStr "2023-01-01"; VStr "soon"];
          [VStr "Uber"; VStr "Lyft"];
          [VInt 3; VInt 4];
          [VInt 30; VInt 40] ].

Definition good_upload : DataFrame :=
  Frame ["Date"; "Platform"; "Hours Worked"; "Hours"; "Earnings"]
        [ [VStr "2023-01-01"; VStr "2023-01-09"];
          [VStr "Uber"; VStr "Lyft"];
          [VStr "3h"; VStr "4h"];
          [VInt 3; VInt 4];
          [VInt 30; VInt 40] ].

(** A reading of dates that knows no format but the ISO one and reads
    every cell by itself: a text cell of the form YYYY-MM-DD is its date,
    any other cell is no date.  It serves in the examples, on columns on
    which [pd.to_datetime(..., errors='coerce')] does the same: text cells
    that are ISO dates or no dates at all. *)
Definition iso_only : Series -> nat -> option Z :=
  fun col i =>
    match nth_error col i with
    | Some (VStr s) => parse_iso_date s
    | _ => None
    end.

Definition world_with (df : DataFrame) : world :=
  World {[ 1%positive := df ]} [] [] stride_rng None.

(** The sum of a list of numbers: "summing the weekly totals". *)
Definition total (l : list Q) : Q := fold_right Qplus 0%Q l.


(** A column of dtype int64: a whole number in every cell. *)
Definition int64_column (s : Series) : Prop :=
  Forall (fun v => exists z, v = VInt z) s.

(** A table proper: every column has as many cells as the table has rows. *)
Definition rectangular (df : DataFrame) : Prop :=
  forall c, In c (data df) -> List.length c = nrows df.

(** The date column of the sample as the download spells it. *)
Definition sample_dates_text : Series :=
  List.map (fun i => VStr (strftime_date (19358 + Z.of_nat i))) (seq 0 90).

(** The records of a text that begins with the record [r]. *)
Definition prepend (r : list string) (rest : result (list (list string)))
  : result (list (list string)) :=
  match rest with
  | Ok rs => Ok (r :: rs)
  | Raise e => Raise e
  end.

(** ** The construction of the advisor (granite_helper.py 10-34)

    [os.getenv] and the constructor of the library's [Model] are the
    environment of [GigAI.__init__]; a model is what answers
    [generate_text]. *)

(** Python's truth value of what [os.getenv] returns: [None] and the empty
    text are false. *)
Definition truthy (o : option string) : bool :=
  match o with
  | Some (String _ _) => true
  | _ => false
  end.

(** The fields of a [GigAI] object. *)
Record GigAI := MakeGigAI {
  credentials : list (string * option string);
  project_id : option string;
  model : string -> result string
}.

Section Construction.

Variable getenv : string -> option string.

(** [Model(model_id=..., credentials=..., project_id=..., params=...)] *)
Variable Model : list (string * option string) -> option string
                 -> result (string -> result string).

(** [os.getenv(name, default)] *)
Definition getenv_default (name default : string) : option string :=
  match getenv name with
  | Some v => Some v
  | None => Some default
  end.

(** Lines 12-32, the body of the [try]. *)
Definition GigAI_init_body : result GigAI :=
  let creds :=
    [ ("apikey", getenv "IBM_GRANITE_API_KEY");
      ("url", getenv_default "IBM_GRANITE_URL"
                             "https://us-south.ml.cloud.ibm.com") ] in
  let project := getenv "IBM_GRANITE_PROJECT_ID" in
  if negb (forallb truthy (List.map snd creds)) || negb (truthy project)
  then Raise (Exn ValueError "Missing IBM credentials in .env")
  else m ← Model creds project; Ok (MakeGigAI creds project m).

(** [GigAI()]: every exception of the body is raised again as a
    RuntimeError. *)
Definition GigAI_init : result GigAI :=
  match GigAI_init_body with
  | Ok gig_ai => Ok gig_ai
  | Raise e =>
      Raise (Exn RuntimeError ("IBM Granite initialization failed: " ++ str e))
  end.

End Construction.

(** ** Shapes of labels, for the statements about [normalize_column] *)

(** The string does not begin with white space. *)
Definition head_kept (s : string) : Prop :=
  match s with
  | String c _ => is_space c = false
  | EmptyString => True
  end.

(** No white space at either end. *)
Definition trimmed (s : string) : Prop :=
  head_kept s /\ head_kept (string_rev s).

(** What [replace(' ', '_')] does to one character. *)
Definition underscore (c : ascii) : ascii :=
  if Ascii.eqb c " " then "_"%char else c.

Definition is_upper (c : ascii) : bool :=
  let n := nat_of_ascii c in ((65 <=? n)%nat && (n <=? 90)%nat)%bool.

(** ** What the charts rely on *)

(** The four required labels are there, and the one date column holds
    dates only. *)
Definition chartable (df : DataFrame) : Prop :=
  (forall f, f ∈ required -> In f (columns df))
  /\ exists ds, getitem df "date" = Ok (ISeries ds)
                /\ Forall (fun v => exists d, v = VDate d) ds.

(** [st.session_state.data] is [None] or a table the charts can take. *)
Definition session_ok (w : world) : Prop :=
  match session_data w with
  | None => True
  | Some r => exists df, heap w !! r = Some df /\ chartable df
  end.

(** ** Text that the browser takes as text *)

(** A character that neither opens nor closes a tag or a quoted attribute,
    and is no line feed. *)
Definition inert (c : ascii) : bool :=
  negb (Ascii.eqb c "<" || Ascii.eqb c ">" || Ascii.eqb c (ascii_of_nat 34)
        || Ascii.eqb c "'" || Ascii.eqb c (ascii_of_nat 10)).

(** One of the two line breaks that [display_recommendations] writes, or
    one inert character. *)
Definition break_or_inert (p : string) : Prop :=
  p = "<br>" \/ p = "<br>• " \/ exists c, p = String c "" /\ inert c = true.

(** ** The rows that a breakdown counts *)

(** The rows whose key is not null; [groupby] leaves the others out. *)
Definition keyed_rows {A} (keys : Series) (rows : list A) : list A :=
  List.map snd
    (List.filter (fun p => bool_decide (is_Some (key_of (fst p))))
                 (combine keys rows)).

(** One statistic added up over the groups of a breakdown. *)
Definition over_groups {K : Type} `{Countable K} {S : Type} (f : S -> Q)
  (m : gmap K S) : Q :=
  total (List.map (fun p => f (snd p)) (map_to_list m)).

(** * Properties *)

(** ** The advisor *)

Section AdvisorFacts.

Variable generate_text : string -> result string.
Variable report_prompt : DataFrame -> result string.
Variable question_prompt : string -> string.
Variable frame_text : DataFrame -> string.

Let report := generate_judge_ready_recommendations generate_text report_prompt.
Let answer := answer_question generate_text question_prompt frame_text.

(** The two methods of [GigAI] end by returning text, whatever happens
    inside them. *)
Lemma report_returns arg w : exists s, fst (report arg w) = Ok s.
Proof.
  unfold report, generate_judge_ready_recommendations, try_except.
  match goal with |- context [match ?m with _ => _ end] => destruct m as [[s|e] w'] end;
    eauto.
Qed.

Lemma answer_returns arg w : exists s, fst (answer arg w) = Ok s.
Proof.
  unfold answer, answer_question, try_except.
  match goal with |- context [match ?m with _ => _ end] => destruct m as [[s|e] w'] end;
    eauto.
Qed.

(** A failure of the remote call comes back as text that begins with
    "Error", which [display_recommendations] shows as an error. *)
Lemma report_remote_failure r df w prompt e :
  heap w !! r = Some df ->
  report_prompt df = Ok prompt ->
  generate_text prompt = Raise e ->
  report (AFrame r) w = (Ok ("Error generating report: " ++ str e), w).
Proof.
  intros Hr Hp Hg.
  unfold report, generate_judge_ready_recommendations, try_except.
  unfold mbind, py_bind, bind, deref, lift. cbn.
  rewrite Hr, Hp. cbn. rewrite Hg. reflexivity.
Qed.

Lemma answer_remote_failure q w e :
  generate_text (question_prompt q) = Raise e ->
  answer (AText q) w = (Ok ("Error generating response: " ++ str e), w).
Proof.
  intros Hg.
  unfold answer, answer_question, try_except.
  unfold mbind, py_bind, bind, lift, mret, py_ret, ret. cbn.
  rewrite Hg. reflexivity.
Qed.

Lemma error_text_is_shown_as_error e w :
  display_recommendations ("Error generating report: " ++ str e) w
  = (Ok tt, with_page (page w ++ [st_error ("Error generating report: " ++ str e)]) w).
Proof. reflexivity. Qed.

(** C1 (as the code runs).  [main] asks the advisor for [predict_schedule]
    and [ask_question]; the class defines neither name, so both handlers
    end with an AttributeError that nothing catches, whatever the table,
    the question and the remote service are.  Nothing is shown for the
    advice, and the chat keeps the question without an answer. *)
Theorem C1_handlers_raise_AttributeError (data : ref) (prompt : string) (w : world) :
  on_get_advice generate_text report_prompt question_prompt frame_text data w
  = (Raise (Exn AttributeError
             "'GigAI' object has no attribute 'predict_schedule'"), w)
  /\ on_chat_input generate_text report_prompt question_prompt frame_text prompt w
     = (Raise (Exn AttributeError
                "'GigAI' object has no attribute 'ask_question'"),
        with_messages (messages w ++ [("user", prompt)]) w).
Proof. split; reflexivity. Qed.

End AdvisorFacts.

(** ** The summary metrics *)

Lemma py_max_guard (s : Q) : (s <= 1)%Q -> py_max 1 s = 1%Q.
Proof.
  intros Hs. unfold py_max. destruct (Qlt_le_dec 1 s) as [Hlt|Hle]; [|reflexivity].
  exfalso. apply (Qlt_not_le _ _ Hlt Hs).
Qed.

Lemma py_max_above (s : Q) : (1 < s)%Q -> py_max 1 s = s.
Proof.
  intros Hs. unfold py_max. destruct (Qlt_le_dec 1 s) as [Hlt|Hle]; [reflexivity|].
  exfalso. apply (Qlt_not_le _ _ Hs Hle).
Qed.

(** The divisor of lines 142 and 145 is at least one, never zero. *)
Lemma py_max_positive (s : Q) : (1 <= py_max 1 s)%Q.
Proof.
  unfold py_max. destruct (Qlt_le_dec 1 s) as [Hlt|Hle].
  - apply Qlt_le_weak, Hlt.
  - apply Qle_refl.
Qed.

Lemma true_div_guarded (e s : Q) :
  true_div e (py_max 1 s) = Ok (e / py_max 1 s)%Q.
Proof.
  unfold true_div. destruct (Qeq_bool (py_max 1 s) 0) eqn:Hz; [|reflexivity].
  apply Qeq_bool_eq in Hz. pose proof (py_max_positive s) as Hpos.
  rewrite Hz in Hpos. exfalso. revert Hpos. apply Qlt_not_le. reflexivity.
Qed.

Lemma hourly_rate_value df e h :
  column_sum df "earnings" = Ok e ->
  column_sum df "hours" = Ok h ->
  hourly_rate df = Ok (e / py_max 1 h)%Q.
Proof.
  intros He Hh. unfold hourly_rate. rewrite He, Hh. cbn. apply true_div_guarded.
Qed.

Lemma mile_rate_value df e m :
  column_sum df "earnings" = Ok e ->
  column_sum df "miles" = Ok m ->
  mile_rate df = Ok (e / py_max 1 m)%Q.
Proof.
  intros He Hm. unfold mile_rate. rewrite He, Hm. cbn. apply true_div_guarded.
Qed.

Lemma column_sum_raises df name x :
  column_sum df name = Raise x -> exn_cls x <> ZeroDivisionError.
Proof.
  unfold column_sum, getitem.
  destruct (select name (columns df) (data df)) as [|s [|s' ss]]; cbn.
  - intros [= <-]. discriminate.
  - destruct (is_numeric s); [discriminate|]. intros [= <-]. discriminate.
  - intros [= <-]. discriminate.
Qed.

(** Neither rate can end in a division by zero. *)
Lemma rates_never_divide_by_zero df x :
  (hourly_rate df = Raise x -> exn_cls x <> ZeroDivisionError)
  /\ (mile_rate df = Raise x -> exn_cls x <> ZeroDivisionError).
Proof.
  unfold hourly_rate, mile_rate.
  destruct (column_sum df "earnings") as [e|y] eqn:He; cbn;
    [|split; intros [= <-]; apply (column_sum_raises _ _ _ He)].
  split.
  - destruct (column_sum df "hours") as [h|y] eqn:Hh; cbn.
    + rewrite true_div_guarded. discriminate.
    + intros [= <-]. apply (column_sum_raises _ _ _ Hh).
  - destruct (column_sum df "miles") as [m|y] eqn:Hm; cbn.
    + rewrite true_div_guarded. discriminate.
    + intros [= <-]. apply (column_sum_raises _ _ _ Hm).
Qed.

(** C8.  When the hours of a table sum to zero, line 142 does not fail and
    the hourly rate it computes equals the total earnings; the same holds
    for the rate per mile of line 145 when the table has miles that sum to
    zero. *)
Theorem C8_zero_total_guard (df : DataFrame) (e : Q) :
  column_sum df "earnings" = Ok e ->
  (forall h, column_sum df "hours" = Ok h -> (h == 0)%Q ->
     exists r, hourly_rate df = Ok r /\ (r == e)%Q)
  /\ (forall m, has_column df "miles" = true ->
        column_sum df "miles" = Ok m -> (m == 0)%Q ->
        exists r, mile_rate df = Ok r /\ (r == e)%Q).
Proof.
  intros He. split.
  - intros h Hh Hz. eexists. split; [apply (hourly_rate_value _ _ _ He Hh)|].
    rewrite py_max_guard by (rewrite Hz; discriminate). field.
  - intros m _ Hm Hz. eexists. split; [apply (mile_rate_value _ _ _ He Hm)|].
    rewrite py_max_guard by (rewrite Hz; discriminate). field.
Qed.

Lemma C8_zero_total_guard_witness :
  column_sum zero_hours_example "earnings" = Ok 30%Q
  /\ (exists r, hourly_rate zero_hours_example = Ok r /\ (r == 30)%Q)
  /\ (exists r, mile_rate zero_hours_example = Ok r /\ (r == 30)%Q).
Proof.
  split; [reflexivity|].
  destruct (C8_zero_total_guard zero_hours_example 30%Q eq_refl) as [Hh Hm].
  split.
  - apply (Hh 0%Q); reflexivity.
  - apply (Hm 0%Q); reflexivity.
Defined.

(** C10.  The guard replaces every divisor below one, not only zero: when
    the hours (or the miles) sum to [s] with 0 < s < 1, the rate is the total
    earnings divided by 1, which differs from the earnings divided by [s]
    unless the earnings are zero. *)
Theorem C10_guard_fires_below_one (df : DataFrame) (e s : Q) :
  column_sum df "earnings" = Ok e ->
  (0 < s)%Q -> (s < 1)%Q ->
  (column_sum df "hours" = Ok s ->
     exists r, hourly_rate df = Ok r /\ (r == e / 1)%Q
               /\ (~ (e == 0)%Q -> ~ (r == e / s)%Q))
  /\ (column_sum df "miles" = Ok s ->
        exists r, mile_rate df = Ok r /\ (r == e / 1)%Q
                  /\ (~ (e == 0)%Q -> ~ (r == e / s)%Q)).
Proof.
  intros He Hpos Hlt.
  assert (Hne : forall r, (r == e / 1)%Q -> ~ (e == 0)%Q -> ~ (r == e / s)%Q).
  { intros r Hr He0 Hrs. rewrite Hr in Hrs.
    assert (Hs0 : ~ (s == 0)%Q) by (intros E; rewrite E in Hpos; discriminate).
    assert (Hes : (e * s == e)%Q).
    { transitivity (e / 1 * s)%Q; [field|]. rewrite Hrs. field. exact Hs0. }
    assert (Hprod : (e * (s - 1) == 0)%Q).
    { transitivity (e * s - e)%Q; [ring|]. rewrite Hes. ring. }
    apply Qmult_integral in Hprod. destruct Hprod as [H0|H1]; [exact (He0 H0)|].
    assert (s == 1)%Q as Hs1 by (rewrite <- (Qplus_0_r 1), <- H1; ring).
    rewrite Hs1 in Hlt. discriminate. }
  split; intros Hs; eexists.
  - split; [apply (hourly_rate_value _ _ _ He Hs)|].
    rewrite py_max_guard by (apply Qlt_le_weak, Hlt).
    split; [reflexivity|]. apply Hne. reflexivity.
  - split; [apply (mile_rate_value _ _ _ He Hs)|].
    rewrite py_max_guard by (apply Qlt_le_weak, Hlt).
    split; [reflexivity|]. apply Hne. reflexivity.
Qed.

Lemma C10_guard_fires_below_one_witness :
  column_sum quarter_hour_example "earnings" = Ok 12%Q
  /\ column_sum quarter_hour_example "hours" = Ok (1 # 4)%Q
  /\ exists r, hourly_rate quarter_hour_example = Ok r
               /\ (r == 12)%Q /\ ~ (r == 48)%Q.
Proof.
  split; [reflexivity|]. split; [reflexivity|].
  destruct (C10_guard_fires_below_one quarter_hour_example 12%Q (1 # 4)%Q
              eq_refl eq_refl eq_refl) as [Hh _].
  destruct (Hh eq_refl) as (r & Hr & H1 & H2).
  exists r. split; [exact Hr|]. split.
  - rewrite H1. reflexivity.
  - intros H48. apply H2; [discriminate|]. rewrite H48. reflexivity.
Defined.

(** ** The per-platform breakdown *)

Lemma groupby_lookup {A} (keys : Series) (rows : list A) (k : group_key) :
  groupby keys rows !! k
  = match rows_with_key k keys rows with
    | [] => None
    | l => Some l
    end.
Proof.
  revert rows. induction keys as [|key keys IH]; intros [|x rows]; try reflexivity.
  cbn [groupby]. unfold rows_with_key. cbn [combine List.filter fst].
  specialize (IH rows). unfold rows_with_key in IH.
  destruct (key_of key) as [k'|] eqn:Hk.
  - destruct (decide (k' = k)) as [->|Hne].
    + rewrite lookup_insert_eq, bool_decide_eq_true_2 by reflexivity.
      cbn [List.map snd]. rewrite IH.
      destruct (List.map snd _); reflexivity.
    + rewrite lookup_insert_ne by exact Hne.
      rewrite bool_decide_eq_false_2 by congruence. exact IH.
  - rewrite bool_decide_eq_false_2 by congruence. exact IH.
Qed.

(** C7.  The breakdown has one entry per platform label that occurs, and the
    entry of a label holds the sum and the mean of the earnings and of the
    hours of the rows with that label.  For platforms A, A, B with earnings
    10, 20, 5: A has sum 30 and mean 15, B has sum 5 and mean 5. *)
Theorem C7_platform_breakdown :
  (forall (df : DataFrame) (keys es hs : Series),
     getitem df "platform" = Ok (ISeries keys) ->
     numeric_column df "earnings" = Ok es ->
     numeric_column df "hours" = Ok hs ->
     exists m : gmap group_key stats,
       platform_stats df = Ok m
       /\ forall k : group_key,
            m !! k
            = match rows_with_key k keys (combine es hs) with
              | [] => None
              | rows =>
                  Some (Stats (series_sum (List.map fst rows))
                              (series_mean (List.map fst rows))
                              (series_sum (List.map snd rows))
                              (series_mean (List.map snd rows)))
              end)
  /\ (exists (m : gmap group_key stats) (a b : stats) (mean_a mean_b : Q),
        platform_stats breakdown_example = Ok m
        /\ m !! (inl (inl "A") : group_key) = Some a
        /\ (earnings_sum a == 30)%Q
        /\ earnings_mean a = Some mean_a /\ (mean_a == 15)%Q
        /\ m !! (inl (inl "B") : group_key) = Some b
        /\ (earnings_sum b == 5)%Q
        /\ earnings_mean b = Some mean_b /\ (mean_b == 5)%Q).
Proof.
  assert (General : forall (df : DataFrame) (keys es hs : Series),
     getitem df "platform" = Ok (ISeries keys) ->
     numeric_column df "earnings" = Ok es ->
     numeric_column df "hours" = Ok hs ->
     exists m : gmap group_key stats,
       platform_stats df = Ok m
       /\ forall k : group_key,
            m !! k
            = match rows_with_key k keys (combine es hs) with
              | [] => None
              | rows =>
                  Some (Stats (series_sum (List.map fst rows))
                              (series_mean (List.map fst rows))
                              (series_sum (List.map snd rows))
                              (series_mean (List.map snd rows)))
              end).
  { intros df keys es hs Hk He Hh. eexists. split.
    - unfold platform_stats. rewrite Hk. cbn. rewrite He. cbn. rewrite Hh.
      reflexivity.
    - intros k. rewrite lookup_fmap, groupby_lookup.
      destruct (rows_with_key k keys (combine es hs)); reflexivity. }
  split; [exact General|].
  destruct (General breakdown_example
              [VStr "A"; VStr "A"; VStr "B"]
              [VInt 10; VInt 20; VInt 5] [VInt 1; VInt 2; VInt 3]
              eq_refl eq_refl eq_refl) as (m & Hm & Hlookup).
  exists m. do 2 eexists. exists (30 # 2)%Q, 5%Q.
  split; [exact Hm|].
  split; [rewrite Hlookup; reflexivity|].
  split; [reflexivity|]. split; [reflexivity|]. split; [reflexivity|].
  split; [rewrite Hlookup; reflexivity|].
  split; [reflexivity|]. split; reflexivity.
Qed.

Lemma C7_platform_breakdown_witness :
  getitem breakdown_example "platform" = Ok (ISeries [VStr "A"; VStr "A"; VStr "B"])
  /\ exists m : gmap group_key stats,
       platform_stats breakdown_example = Ok m
       /\ m !! (inr 19358 : group_key) = None
       /\ exists b, m !! (inl (inl "B") : group_key) = Some b
                    /\ hours_sum b = 3%Q.
Proof.
  split; [reflexivity|].
  destruct (proj1 C7_platform_breakdown breakdown_example
              [VStr "A"; VStr "A"; VStr "B"]
              [VInt 10; VInt 20; VInt 5] [VInt 1; VInt 2; VInt 3]
              eq_refl eq_refl eq_refl) as (m & Hm & Hlookup).
  exists m. split; [exact Hm|]. split; [rewrite Hlookup; reflexivity|].
  eexists. split; [rewrite Hlookup; reflexivity|]. reflexivity.
Defined.

(** ** The sample data *)

Lemma world_eta (w : world) :
  World (heap w) (page w) (messages w) (rng w) (session_data w) = w.
Proof. destruct w; reflexivity. Qed.

Lemma draws_ext {A} (m m' : py A) (n : nat) (w : world) :
  (forall w0, m w0 = m' w0) -> draws m n w = draws m' n w.
Proof.
  intros Hext. revert w. induction n as [|n IH]; intros w; [reflexivity|].
  cbn [draws]. unfold mbind, py_bind, bind. rewrite Hext.
  destruct (m' w) as [[a|e] w']; [|reflexivity].
  rewrite IH. reflexivity.
Qed.

Lemma draws_S {A} (m : py A) (n : nat) (w : world) :
  draws m (S n) w
  = match m w with
    | (Ok a, w') =>
        match draws m n w' with
        | (Ok l, w'') => (Ok (a :: l), w'')
        | (Raise e, w'') => (Raise e, w'')
        end
    | (Raise e, w') => (Raise e, w')
    end.
Proof. reflexivity. Qed.

(** [n] draws that each turn one raw word into a value. *)
Lemma draws_of_words {A} (f : N -> A) (n : nat) (w : world) :
  draws (x ← next_raw; ret (f x)) n w
  = (Ok (List.map (fun i => f (raw (rng w) (consumed (rng w) + i)%nat)) (seq 0 n)),
     with_rng (Rng (raw (rng w)) (consumed (rng w) + n)%nat) w).
Proof.
  revert w. induction n as [|n IH]; intros w.
  - cbn. unfold ret, with_rng. rewrite Nat.add_0_r.
    destruct w as [h p m [r c] d]; reflexivity.
  - rewrite draws_S.
    change ((x ← next_raw; ret (f x)) w)
      with (@Ok A (f (raw (rng w) (consumed (rng w)))),
            with_rng (Rng (raw (rng w)) (S (consumed (rng w)))) w).
    cbv iota. rewrite IH.
    cbn [rng with_rng raw consumed heap page messages].
    f_equal.
    + f_equal. cbn [seq List.map]. rewrite Nat.add_0_r. f_equal.
      rewrite <- seq_shift, List.map_map.
      apply List.map_ext. intros i. f_equal. f_equal. lia.
    + unfold with_rng. cbn. do 2 f_equal. lia.
Qed.

Lemma sample_dates :
  date_range "2023-01-01" 90
  = Ok (List.map (fun i => 19358 + Z.of_nat i) (seq 0 90)).
Proof. vm_compute. reflexivity. Qed.

Lemma load_sample_data_eq (w : world) :
  load_sample_data w
  = (Ok (fresh (dom (heap w))),
     with_heap (<[fresh (dom (heap w)) := sample_frame (rng w)]> (heap w))
       (with_rng (Rng (raw (rng w)) (consumed (rng w) + 360)%nat) w)).
Proof.
  unfold load_sample_data. rewrite sample_dates.
  unfold mbind, py_bind. unfold bind at 1. unfold lift. cbv iota beta.
  unfold randint, choice, uniform.
  unfold bind at 1.
  rewrite (draws_ext _ (x ← next_raw; ret (50 + Z.of_N x mod 150)) 90 w)
    by reflexivity.
  rewrite draws_of_words.
  unfold bind at 1.
  rewrite (draws_ext _ (x ← next_raw; ret (2 + Z.of_N x mod 6)) 90)
    by reflexivity.
  rewrite draws_of_words.
  unfold bind at 1.
  rewrite (draws_ext _
    (x ← next_raw; ret (nth (Z.to_nat (Z.of_N x mod 3)) platforms "")) 90)
    by reflexivity.
  rewrite draws_of_words.
  unfold bind at 1.
  rewrite (draws_ext _
    (x ← next_raw; ret ((5 # 1) + ((50 # 1) - (5 # 1))
                          * (Z.of_N (x mod 2 ^ 53) # 2 ^ 53))%Q) 90)
    by reflexivity.
  rewrite draws_of_words.
  unfold alloc, with_heap, with_rng, sample_frame.
  cbn [heap page messages rng raw consumed].
  f_equal. f_equal; [|f_equal; lia].
  f_equal. f_equal. repeat rewrite List.map_map.
  repeat match goal with |- _ :: _ = _ :: _ => f_equal end.
  all: apply List.map_ext; intros i.
  - replace (consumed (rng w) + (90 * 1 + i))%nat
      with (consumed (rng w) + 90 + i)%nat by lia. reflexivity.
  - replace (consumed (rng w) + (90 * 2 + i))%nat
      with (consumed (rng w) + 90 + 90 + i)%nat by lia. reflexivity.
  - replace (consumed (rng w) + (90 * 3 + i))%nat
      with (consumed (rng w) + 90 + 90 + 90 + i)%nat by lia. reflexivity.
Qed.

Lemma rint_bounds (q : Q) (a b : Z) :
  (inject_Z a <= q)%Q -> (q <= inject_Z b)%Q -> a <= rint q <= b.
Proof.
  intros Ha Hb.
  assert (Hfa : a <= Qfloor q).
  { rewrite <- (Qfloor_Z a). apply Qfloor_resp_le, Ha. }
  assert (Hfb : Qfloor q <= b).
  { rewrite <- (Qfloor_Z b). apply Qfloor_resp_le, Hb. }
  unfold rint.
  destruct (Qcompare_spec (q - inject_Z (Qfloor q)) (1 # 2)) as [He|Hl|Hg].
  - destruct (Z.even (Qfloor q)); [lia|].
    destruct (Z.eq_dec (Qfloor q) b) as [E|]; [|lia].
    exfalso. rewrite E in He. lra.
  - lia.
  - destruct (Z.eq_dec (Qfloor q) b) as [E|]; [|lia].
    exfalso. rewrite E in Hg. lra.
Qed.

Lemma random_fraction_bounds (x : N) :
  (0 <= Z.of_N (x mod 2 ^ 53) # 2 ^ 53)%Q /\ (Z.of_N (x mod 2 ^ 53) # 2 ^ 53 < 1)%Q.
Proof.
  assert (Hlt : (x mod 2 ^ 53 < 2 ^ 53)%N) by (apply N.mod_lt; discriminate).
  apply N2Z.inj_lt in Hlt.
  change (Z.of_N (2 ^ 53)) with (Z.pos (2 ^ 53)) in Hlt.
  pose proof (N2Z.is_nonneg (x mod 2 ^ 53)) as Hge.
  unfold Qle, Qlt. cbn [Qnum Qden]. lia.
Qed.

Lemma miles_cell (x : N) :
  is_tenths_in (5 # 1) (50 # 1)
    (VFloat (round1 ((5 # 1) + ((50 # 1) - (5 # 1)) * (Z.of_N (x mod 2 ^ 53) # 2 ^ 53))%Q)).
Proof.
  destruct (random_fraction_bounds x) as [H0 H1].
  set (u := (Z.of_N (x mod 2 ^ 53) # 2 ^ 53)%Q) in *. clearbody u.
  set (y := ((5 # 1) + ((50 # 1) - (5 # 1)) * u)%Q).
  assert (Hb : 50 <= rint (y * (10 # 1)) <= 500).
  { apply rint_bounds; unfold y, inject_Z; lra. }
  exists (round1 y), (rint (y * (10 # 1))).
  split; [reflexivity|]. unfold round1.
  set (t := rint (y * (10 # 1))) in *.
  assert (Ht : (inject_Z t / (10 # 1) == t # 10)%Q).
  { unfold Qeq, Qdiv, Qmult, Qinv, inject_Z. cbn. lia. }
  rewrite Ht. repeat split; try reflexivity.
  - unfold Qle. cbn. lia.
  - unfold Qle. cbn. lia.
Qed.

(** What the cells of a generated table are, whatever the generator
    delivers. *)
Lemma sample_frame_cells (g : RandomState) :
  exists dates earnings hours platform miles,
    data (sample_frame g) = [dates; earnings; hours; platform; miles]
    /\ dates = List.map (fun i => VDate (19358 + Z.of_nat i)) (seq 0 90)
    /\ (List.length earnings = 90%nat /\ Forall (is_int_in 50 199) earnings)
    /\ (List.length hours = 90%nat /\ Forall (is_int_in 2 7) hours)
    /\ (List.length platform = 90%nat /\ Forall is_label platform)
    /\ (List.length miles = 90%nat /\ Forall (is_tenths_in (5 # 1) (50 # 1)) miles).
Proof.
  unfold sample_frame. do 5 eexists. split; [reflexivity|].
  split; [reflexivity|].
  repeat split; try (rewrite List.length_map, List.length_seq; reflexivity).
  - apply List.Forall_forall. intros v Hv. apply List.in_map_iff in Hv.
    destruct Hv as (i & <- & _). eexists. split; [reflexivity|].
    pose proof (Z.mod_pos_bound (Z.of_N (raw g (consumed g + (90 * 0 + i)))) 150).
    lia.
  - apply List.Forall_forall. intros v Hv. apply List.in_map_iff in Hv.
    destruct Hv as (i & <- & _). eexists. split; [reflexivity|].
    pose proof (Z.mod_pos_bound (Z.of_N (raw g (consumed g + (90 * 1 + i)))) 6).
    lia.
  - apply List.Forall_forall. intros v Hv. apply List.in_map_iff in Hv.
    destruct Hv as (i & <- & _). eexists. split; [reflexivity|].
    pose proof (Z.mod_pos_bound (Z.of_N (raw g (consumed g + (90 * 2 + i)))) 3) as Hm.
    set (k := Z.of_N (raw g (consumed g + (90 * 2 + i))) mod 3) in *.
    assert (Hk : k = 0 \/ k = 1 \/ k = 2) by lia.
    destruct Hk as [-> | [-> | ->]]; cbn; auto.
  - apply List.Forall_forall. intros v Hv. apply List.in_map_iff in Hv.
    destruct Hv as (i & <- & _). apply miles_cell.
Qed.

Lemma sample_lookup (w : world) :
  heap (snd (load_sample_data w)) !! fresh (dom (heap w))
  = Some (sample_frame (rng w)).
Proof.
  rewrite load_sample_data_eq. cbn [snd with_heap heap].
  apply lookup_insert_eq.
Qed.

Lemma sample_run (w w' : world) (r : ref) (df : DataFrame) :
  load_sample_data w = (Ok r, w') ->
  heap w' !! r = Some df ->
  df = sample_frame (rng w).
Proof.
  rewrite load_sample_data_eq. intros [= <- <-]. cbn [with_heap heap].
  rewrite lookup_insert_eq. congruence.
Qed.

(** C2 (amended).  A generated table has the five columns date, earnings,
    hours, platform, miles with 90 rows; the dates are the 90 consecutive
    days from 2023-01-01 to 2023-03-31; earnings are integers from 50 to
    199, hours integers from 2 to 7, platforms among the three labels, miles
    between 5 and 50 in whole tenths.  The least and greatest integers, 50
    and 199 for earnings and 2 and 7 for hours, do occur for some draws. *)
Theorem C2_sample_data_ranges :
  (forall w : world,
     exists (r : ref) (w' : world) (df : DataFrame),
       load_sample_data w = (Ok r, w')
       /\ heap w' !! r = Some df
       /\ columns df = ["date"; "earnings"; "hours"; "platform"; "miles"]
       /\ exists dates earnings hours platform miles,
            data df = [dates; earnings; hours; platform; miles]
            /\ dates = List.map (fun i => VDate (19358 + Z.of_nat i)) (seq 0 90)
            /\ (List.length earnings = 90%nat /\ Forall (is_int_in 50 199) earnings)
            /\ (List.length hours = 90%nat /\ Forall (is_int_in 2 7) hours)
            /\ (List.length platform = 90%nat /\ Forall is_label platform)
            /\ (List.length miles = 90%nat
                /\ Forall (is_tenths_in (5 # 1) (50 # 1)) miles))
  /\ (days_from_civil 2023 1 1 = 19358
      /\ civil_from_days 19358 = (2023, 1, 1)
      /\ civil_from_days (19358 + 89) = (2023, 3, 31))
  /\ (exists (r : ref) (w' : world) (df : DataFrame) dates earnings hours platform miles,
        load_sample_data (empty_world stride_rng) = (Ok r, w')
        /\ heap w' !! r = Some df
        /\ data df = [dates; earnings; hours; platform; miles]
        /\ In (VInt 50) earnings /\ In (VInt 199) earnings
        /\ In (VInt 2) hours /\ In (VInt 7) hours).
Proof.
  split; [|split].
  - intros w. eexists _, _, (sample_frame (rng w)).
    split; [apply load_sample_data_eq|].
    split; [cbn [with_heap heap]; apply lookup_insert_eq|].
    split; [reflexivity|]. apply sample_frame_cells.
  - repeat split; reflexivity.
  - eexists _, _, (sample_frame stride_rng). do 5 eexists.
    split; [apply load_sample_data_eq|].
    split; [cbn [with_heap heap]; apply lookup_insert_eq|].
    split; [reflexivity|].
    repeat split; apply List.in_map_iff.
    + exists 0%nat. split; [reflexivity|]. apply List.in_seq. lia.
    + exists 1%nat. split; [reflexivity|]. apply List.in_seq. lia.
    + exists 0%nat. split; [reflexivity|]. apply List.in_seq. lia.
    + exists 1%nat. split; [reflexivity|]. apply List.in_seq. lia.
Qed.

(** C2 as stated fails at the upper ends of the two integer ranges: no draw
    makes the earnings 200 or the hours 8. *)
Lemma C2_upper_endpoints_not_attained :
  ~ (exists (w w' : world) (r : ref) (df : DataFrame) dates earnings hours platform miles,
       load_sample_data w = (Ok r, w')
       /\ heap w' !! r = Some df
       /\ data df = [dates; earnings; hours; platform; miles]
       /\ (In (VInt 200) earnings \/ In (VInt 8) hours)).
Proof.
  intros (w & w' & r & df & dates & earnings & hours & platform & miles
          & Hrun & Hdf & Hdata & Hin).
  rewrite (sample_run _ _ _ _ Hrun Hdf) in Hdata.
  destruct (sample_frame_cells (rng w))
    as (d0 & e0 & h0 & p0 & m0 & Hcells & _ & [_ He] & [_ Hh] & _).
  rewrite Hcells in Hdata. injection Hdata as _ <- <- _ _.
  destruct Hin as [Hin|Hin].
  - apply (proj1 (List.Forall_forall _ _) He) in Hin.
    destruct Hin as (z & [= <-] & Hz). lia.
  - apply (proj1 (List.Forall_forall _ _) Hh) in Hin.
    destruct Hin as (z & [= <-] & Hz). lia.
Qed.

(** ** The validator *)

Lemma bind_ok {A B} (m : py A) (k : A -> py B) (w w' : world) (a : A) :
  m w = (Ok a, w') -> (m ≫= k) w = k a w'.
Proof. intros H. unfold mbind, py_bind, bind. rewrite H. reflexivity. Qed.

Lemma bind_raise {A B} (m : py A) (k : A -> py B) (w w' : world) (e : exn) :
  m w = (Raise e, w') -> (m ≫= k) w = (Raise e, w').
Proof. intros H. unfold mbind, py_bind, bind. rewrite H. reflexivity. Qed.

Lemma deref_ok r df w : heap w !! r = Some df -> deref r w = (Ok df, w).
Proof. intros H. unfold deref. rewrite H. reflexivity. Qed.

Lemma get_columns_ok r df w :
  heap w !! r = Some df -> get_columns r w = (Ok (columns df), w).
Proof.
  intros H. unfold get_columns. rewrite (bind_ok _ _ _ _ _ (deref_ok _ _ _ H)).
  reflexivity.
Qed.

Lemma set_columns_ok r df new w :
  heap w !! r = Some df ->
  List.length new = List.length (columns df) ->
  set_columns r new w
  = (Ok tt, with_heap (<[r := Frame new (data df)]> (heap w)) w).
Proof.
  intros H Hlen. unfold set_columns.
  rewrite (bind_ok _ _ _ _ _ (deref_ok _ _ _ H)).
  rewrite Hlen, Nat.eqb_refl. reflexivity.
Qed.

Lemma py_getitem_run r df name w :
  heap w !! r = Some df -> py_getitem r name w = (getitem df name, w).
Proof.
  intros H. unfold py_getitem.
  rewrite (bind_ok _ _ _ _ _ (deref_ok _ _ _ H)). reflexivity.
Qed.

Lemma py_setitem_run r df name s w :
  heap w !! r = Some df ->
  py_setitem r name s w
  = (Ok tt, with_heap (<[r := setitem df name s]> (heap w)) w).
Proof.
  intros H. unfold py_setitem.
  rewrite (bind_ok _ _ _ _ _ (deref_ok _ _ _ H)). reflexivity.
Qed.

Lemma select_assign name s cols cs :
  select name cols (assign name s cols cs)
  = List.map (fun _ => s) (select name cols cs).
Proof.
  revert cs. induction cols as [|c cols IH]; intros [|old cs]; try reflexivity.
  cbn [assign select]. destruct (String.eqb c name); cbn [List.map]; rewrite IH;
    reflexivity.
Qed.

Lemma select_nonempty name cols cs s ss :
  select name cols cs = s :: ss -> existsb (String.eqb name) cols = true.
Proof.
  revert cs. induction cols as [|c cols IH]; intros [|old cs]; try discriminate.
  cbn [select existsb]. rewrite (String.eqb_sym name c).
  destruct (String.eqb c name); [reflexivity|]. cbn. apply IH.
Qed.

(** Reading back a column that was just assigned. *)
Lemma getitem_setitem df name col s :
  getitem df name = Ok (ISeries col) ->
  getitem (setitem df name s) name = Ok (ISeries s).
Proof.
  unfold getitem, setitem.
  destruct (select name (columns df) (data df)) as [|c [|c' cs]] eqn:Hsel;
    try discriminate.
  intros _. rewrite (select_nonempty _ _ _ _ _ Hsel). cbn [columns data].
  rewrite select_assign, Hsel. reflexivity.
Qed.

(** [validate_data] does what [verdict_of_with] says, on the heap and on
    the page, whatever [str.strip] and [str.lower] do. *)
Lemma validate_data_with_run (ss sl : string -> string) co r df w :
  heap w !! r = Some df ->
  validate_data_with ss sl co r w
  = (Ok (returned r (verdict_of_with (normalize_column_with ss sl) co df)),
     world_after r (verdict_of_with (normalize_column_with ss sl) co df) w).
Proof.
  intros Hr.
  set (N := normalize_column_with ss sl).
  set (w1 := with_heap (<[r := relabelled_with N df]> (heap w)) w).
  assert (H1 : heap w1 !! r = Some (relabelled_with N df)) by apply lookup_insert_eq.
  assert (Hfail : forall e df',
    validate_body_with ss sl co r w = (Raise e, with_heap (<[r := df']> (heap w)) w) ->
    validate_data_with ss sl co r w
    = (Ok None, world_after r (Rejected df' (str e)) w)).
  { intros e df' Hb. unfold validate_data_with, try_except. rewrite Hb. reflexivity. }
  assert (Hbody : validate_body_with ss sl co r w
    = (cols' ← get_columns r;
       let missing := required ∖ list_to_set cols' in
       if decide (missing = ∅) then
         d ← py_getitem r "date";
         coerced ← lift (to_datetime co d);
         py_setitem r "date" coerced;;
         d' ← py_getitem r "date";
         bad ← lift (isnull_any d');
         if bad : bool
         then raise (Exn ValueError "Invalid date format in date column")
         else ret (Some r)
       else raise (Exn ValueError ("Missing columns: " ++ repr_set missing))) w1).
  { unfold validate_body_with.
    rewrite (bind_ok _ _ _ _ _ (get_columns_ok _ _ _ Hr)).
    rewrite (bind_ok _ _ _ _ _ (set_columns_ok _ _ _ _ Hr
               (List.length_map _ _))).
    reflexivity. }
  rewrite (bind_ok _ _ _ _ _ (get_columns_ok _ _ _ H1)) in Hbody.
  cbv zeta in Hbody.
  change (required ∖ list_to_set (columns (relabelled_with N df)))
    with (missing_fields_with N df) in Hbody.
  unfold verdict_of_with.
  destruct (decide (missing_fields_with N df = ∅)) as [Hm|Hm].
  2:{ apply (Hfail _ _ Hbody). }
  pose proof (py_getitem_run r _ "date" w1 H1) as Hget.
  destruct (getitem (relabelled_with N df) "date") as [[col|f]|e] eqn:Hdate.
  - rewrite (bind_ok _ _ _ _ _ Hget) in Hbody.
    unfold to_datetime, lift in Hbody.
    rewrite (bind_ok _ _ w1 w1 (to_datetime_series co col) eq_refl) in Hbody.
    set (coerced := to_datetime_series co col) in *.
    set (df2 := setitem (relabelled_with N df) "date" coerced).
    set (w2 := with_heap (<[r := df2]> (heap w1)) w1).
    rewrite (bind_ok _ _ _ _ _ (py_setitem_run r _ "date" coerced w1 H1)) in Hbody.
    assert (H2 : heap w2 !! r = Some df2) by apply lookup_insert_eq.
    pose proof (py_getitem_run r _ "date" w2 H2) as Hget2.
    unfold df2 in Hget2 at 1.
    rewrite (getitem_setitem _ _ _ coerced Hdate) in Hget2.
    fold w2 in Hbody.
    rewrite (bind_ok _ _ _ _ _ Hget2) in Hbody.
    unfold isnull_any in Hbody.
    rewrite (bind_ok _ _ w2 w2 (existsb isnull coerced) eq_refl) in Hbody.
    assert (Hw2 : w2 = with_heap (<[r := df2]> (heap w)) w).
    { unfold w2, w1, with_heap. cbn [heap page messages rng].
      rewrite insert_insert_eq. reflexivity. }
    rewrite Hw2 in Hbody.
    destruct (existsb isnull coerced).
    + apply (Hfail _ _ Hbody).
    + unfold validate_data_with, try_except. rewrite Hbody. reflexivity.
  - rewrite (bind_ok _ _ _ _ _ Hget) in Hbody.
    unfold to_datetime, lift in Hbody.
    rewrite (bind_raise _ _ w1 w1
               (Exn ValueError "cannot assemble with duplicate keys") eq_refl)
      in Hbody.
    apply (Hfail _ _ Hbody).
  - rewrite (bind_raise _ _ _ _ _ Hget) in Hbody.
    apply (Hfail _ _ Hbody).
Qed.

Lemma missing_fields_with_spec (N : string -> string) df f :
  f ∈ missing_fields_with N df
  <-> f ∈ required /\ ~ In f (List.map N (columns df)).
Proof.
  unfold missing_fields_with, relabelled_with. cbn [columns].
  rewrite elem_of_difference, elem_of_list_to_set, list_elem_of_In.
  reflexivity.
Qed.

Lemma missing_fields_with_empty (N : string -> string) df :
  missing_fields_with N df = ∅
  <-> forall f, f ∈ required -> In f (List.map N (columns df)).
Proof.
  split.
  - intros He f Hf.
    destruct (List.in_dec string_dec f (List.map N (columns df)))
      as [Hin|Hnin]; [exact Hin|].
    exfalso. apply (not_elem_of_empty (C:=gset string) f).
    rewrite <- He. apply missing_fields_with_spec. split; assumption.
  - intros Hall. apply set_eq. intros f. rewrite missing_fields_with_spec.
    split; [intros [Hf Hn]; destruct (Hn (Hall f Hf))|].
    intros H. destruct (not_elem_of_empty f H).
Qed.

(** The same on labels that are ASCII text. *)
Lemma validate_data_run co r df w :
  heap w !! r = Some df ->
  validate_data co r w
  = (Ok (returned r (verdict_of co df)), world_after r (verdict_of co df) w).
Proof. exact (validate_data_with_run strip lower co r df w). Qed.

Lemma missing_fields_spec df f :
  f ∈ missing_fields df
  <-> f ∈ required /\ ~ In f (List.map normalize_column (columns df)).
Proof. exact (missing_fields_with_spec normalize_column df f). Qed.

Lemma missing_fields_empty df :
  missing_fields df = ∅
  <-> forall f, f ∈ required -> In f (List.map normalize_column (columns df)).
Proof. exact (missing_fields_with_empty normalize_column df). Qed.

Lemma getitem_raises df name e :
  getitem df name = Raise e -> e = Exn KeyError ("'" ++ name ++ "'").
Proof.
  unfold getitem. destruct (select name (columns df) (data df)) as [|s [|s' ss]];
    congruence.
Qed.

(** The coercion keeps every row and leaves dates and NaT only. *)
Lemma to_datetime_series_length co col :
  List.length (to_datetime_series co col) = List.length col.
Proof.
  unfold to_datetime_series.
  destruct (forallb is_timestamp col); [reflexivity|].
  destruct (forallb is_iso_cell col);
    rewrite List.length_map; [reflexivity|apply List.length_seq].
Qed.

Lemma to_datetime_series_cells co col :
  Forall (fun v => (exists d, v = VDate d) \/ v = VNaT) (to_datetime_series co col).
Proof.
  unfold to_datetime_series.
  destruct (forallb is_timestamp col) eqn:Ht.
  - apply List.Forall_forall. intros v Hv.
    pose proof (proj1 (List.forallb_forall _ _) Ht v Hv) as Hc.
    destruct v; try discriminate; eauto.
  - destruct (forallb is_iso_cell col).
    + apply List.Forall_forall. intros v Hv. apply List.in_map_iff in Hv.
      destruct Hv as (c & <- & _). unfold read_iso_cell.
      destruct c; eauto. destruct (parse_iso_date s); eauto.
    + apply List.Forall_forall. intros v Hv. apply List.in_map_iff in Hv.
      destruct Hv as (i & <- & _). destruct (co col i); cbn; eauto.
Qed.

Lemma null_date_is_NaT co col :
  existsb isnull (to_datetime_series co col) = true
  <-> In VNaT (to_datetime_series co col).
Proof.
  rewrite List.existsb_exists. split.
  - intros (v & Hv & Hn).
    pose proof (proj1 (List.Forall_forall _ _) (to_datetime_series_cells co col) v Hv)
      as [[d ->]| ->]; [discriminate|exact Hv].
  - intros H. exists VNaT. split; [exact H|reflexivity].
Qed.

Lemma no_null_all_dates co col :
  existsb isnull (to_datetime_series co col) = false ->
  Forall (fun v => exists d, v = VDate d) (to_datetime_series co col).
Proof.
  intros Hn. apply List.Forall_forall. intros v Hv.
  pose proof (proj1 (List.Forall_forall _ _) (to_datetime_series_cells co col) v Hv)
    as [Hd| ->]; [exact Hd|].
  exfalso. apply Bool.not_true_iff_false in Hn. apply Hn.
  apply null_date_is_NaT. exact Hv.
Qed.

(** C4.  When the normalised labels of a table lack some required field,
    validation returns no table and reports "Missing columns:" followed by
    the set of exactly the required fields that are lacking.  When no
    required field is lacking, no such report is made.  This holds
    whatever [str.strip] and [str.lower] do to the labels, hence for labels
    of any text. *)
Theorem C4_missing_columns (str_strip str_lower : string -> string)
  (co : Series -> nat -> option Z) (r : ref) (df : DataFrame) (w : world) :
  heap w !! r = Some df ->
  ((exists f, f ∈ required /\ ~ In f (List.map (normalize_column_with str_strip str_lower) (columns df))) ->
     exists (names : list string) (w' : world),
       validate_data_with str_strip str_lower co r w = (Ok None, w')
       /\ page w' = app (page w)
            [st_error ("Data validation error: Missing columns: {"
                       ++ join ", " (List.map (fun x => "'" ++ x ++ "'") names)
                       ++ "}")]
       /\ List.NoDup names
       /\ forall f, In f names
                    <-> f ∈ required
                        /\ ~ In f (List.map (normalize_column_with str_strip str_lower) (columns df)))
  /\ ((forall f, f ∈ required -> In f (List.map (normalize_column_with str_strip str_lower) (columns df))) ->
      exists (res : option ref) (w' : world) (new : list ui_event),
        validate_data_with str_strip str_lower co r w = (Ok res, w')
        /\ page w' = app (page w) new
        /\ forall s, ~ In (st_error ("Data validation error: Missing columns: " ++ s)) new).
Proof.
  intros Hr. rewrite (validate_data_with_run str_strip str_lower co r df w Hr). split.
  - intros (f & Hf & Hn).
    assert (Hm : missing_fields_with (normalize_column_with str_strip str_lower) df <> ∅).
    { intros He. apply (not_elem_of_empty (C:=gset string) f). rewrite <- He.
      apply missing_fields_with_spec. split; assumption. }
    unfold verdict_of_with. destruct (decide (missing_fields_with (normalize_column_with str_strip str_lower) df = ∅)) as [Hm'|_]; [contradiction|].
    exists (elements (missing_fields_with (normalize_column_with str_strip str_lower) df)). eexists.
    split; [reflexivity|]. split; [reflexivity|].
    split; [apply NoDup_ListNoDup, NoDup_elements|].
    intros g. rewrite <- list_elem_of_In, elem_of_elements.
    apply missing_fields_with_spec.
  - intros Hall. apply missing_fields_with_empty in Hall.
    unfold verdict_of_with. destruct (decide (missing_fields_with (normalize_column_with str_strip str_lower) df = ∅)) as [_|Hm']; [|contradiction].
    destruct (getitem (relabelled_with (normalize_column_with str_strip str_lower) df) "date") as [[col|fr]|e] eqn:Hd.
    + destruct (existsb isnull (to_datetime_series co col)).
      * do 3 eexists. split; [reflexivity|]. split; [reflexivity|].
        intros s [H|[]]. discriminate H.
      * exists (Some r). eexists. exists []. split; [reflexivity|].
        split; [cbn; rewrite List.app_nil_r; reflexivity|]. intros s [].
    + do 3 eexists. split; [reflexivity|]. split; [reflexivity|].
      intros s [H|[]]. discriminate H.
    + do 3 eexists. split; [reflexivity|]. split; [reflexivity|].
      rewrite (getitem_raises _ _ _ Hd). intros s [H|[]]. discriminate H.
Qed.

Lemma C4_missing_columns_witness :
  heap (world_with two_column_upload) !! 1%positive = Some two_column_upload
  /\ exists w',
       validate_data_with strip lower iso_only 1%positive
         (world_with two_column_upload) = (Ok None, w')
       /\ page w' = [st_error "Data validation error: Missing columns: {'earnings', 'platform'}"].
Proof.
  split; [reflexivity|].
  destruct (C4_missing_columns strip lower iso_only 1%positive two_column_upload
              (world_with two_column_upload) eq_refl) as [Hmiss _].
  destruct Hmiss as (names & w' & Hrun & Hpage & _ & _).
  - exists "platform". split.
    + refine (bool_decide_unpack _ _). vm_compute. exact I.
    + vm_compute. intros [H|[H|[]]]; discriminate H.
  - exists w'. split; [exact Hrun|].
    rewrite (validate_data_with_run strip lower iso_only 1%positive
               two_column_upload (world_with two_column_upload) eq_refl) in Hrun.
    injection Hrun as <-. vm_compute. reflexivity.
Defined.

(** C5.  A table that has every required field is rejected as a whole as
    soon as one of the cells of its date column coerces to NaT: the
    validator returns no table and reports the invalid date format, and the
    rows with good dates are not returned either.  When every date cell
    coerces to a date the table is accepted, with all its rows.  (A table in
    which the label date is repeated is rejected before its cells are
    looked at.)  This holds whatever [str.strip] and [str.lower] do to the
    labels, hence for labels of any text. *)
Theorem C5_invalid_dates (str_strip str_lower : string -> string)
  (co : Series -> nat -> option Z) (r : ref) (df : DataFrame) (w : world) :
  heap w !! r = Some df ->
  (forall f, f ∈ required -> In f (List.map (normalize_column_with str_strip str_lower) (columns df))) ->
  (forall col : Series,
     getitem (relabelled_with (normalize_column_with str_strip str_lower) df) "date" = Ok (ISeries col) ->
     In VNaT (to_datetime_series co col) ->
     exists w' : world,
       validate_data_with str_strip str_lower co r w = (Ok None, w')
       /\ page w' = app (page w)
            [st_error "Data validation error: Invalid date format in date column"])
  /\ (forall col : Series,
        getitem (relabelled_with (normalize_column_with str_strip str_lower) df) "date" = Ok (ISeries col) ->
        ~ In VNaT (to_datetime_series co col) ->
        exists (w' : world) (df' : DataFrame),
          validate_data_with str_strip str_lower co r w = (Ok (Some r), w')
          /\ page w' = page w
          /\ heap w' !! r = Some df'
          /\ getitem df' "date" = Ok (ISeries (to_datetime_series co col))
          /\ List.length (to_datetime_series co col) = List.length col
          /\ Forall (fun v => exists d, v = VDate d) (to_datetime_series co col))
  /\ (forall twice : DataFrame,
        getitem (relabelled_with (normalize_column_with str_strip str_lower) df) "date" = Ok (IFrame twice) ->
        exists w' : world,
          validate_data_with str_strip str_lower co r w = (Ok None, w')
          /\ page w' = app (page w)
               [st_error "Data validation error: cannot assemble with duplicate keys"]).
Proof.
  intros Hr Hall. apply missing_fields_with_empty in Hall.
  rewrite (validate_data_with_run str_strip str_lower co r df w Hr). unfold verdict_of_with.
  destruct (decide (missing_fields_with (normalize_column_with str_strip str_lower) df = ∅)) as [_|Hm]; [|contradiction].
  split; [|split].
  - intros col Hdate Hnat. rewrite Hdate.
    apply null_date_is_NaT in Hnat. rewrite Hnat.
    eexists. split; reflexivity.
  - intros col Hdate Hnat. rewrite Hdate.
    destruct (existsb isnull (to_datetime_series co col)) eqn:Hnull.
    + destruct Hnat. apply null_date_is_NaT. exact Hnull.
    + do 2 eexists. split; [reflexivity|]. split; [reflexivity|].
      split; [cbn [world_after with_heap heap]; apply lookup_insert_eq|].
      split; [apply (getitem_setitem _ _ _ _ Hdate)|].
      split; [apply to_datetime_series_length|].
      apply no_null_all_dates, Hnull.
  - intros twice Hdate. rewrite Hdate. eexists. split; reflexivity.
Qed.

Lemma C5_invalid_dates_witness :
  getitem (relabelled_with (normalize_column_with strip lower) bad_date_upload) "date"
  = Ok (ISeries [VStr "2023-01-01"; VStr "soon"])
  /\ to_datetime_series iso_only [VStr "2023-01-01"; VStr "soon"]
     = [VDate 19358; VNaT]
  /\ exists w',
       validate_data_with strip lower iso_only 1%positive
         (world_with bad_date_upload) = (Ok None, w')
       /\ page w' = [st_error "Data validation error: Invalid date format in date column"].
Proof.
  split; [reflexivity|]. split; [vm_compute; reflexivity|].
  assert (Hall : forall f, f ∈ required ->
            In f (List.map (normalize_column_with strip lower)
                           (columns bad_date_upload))).
  { intros f Hf. unfold required in Hf.
    rewrite !elem_of_union, !elem_of_singleton in Hf.
    destruct Hf as [[[->| ->]| ->]| ->]; vm_compute; auto. }
  destruct (C5_invalid_dates strip lower iso_only 1%positive bad_date_upload
              (world_with bad_date_upload) eq_refl Hall) as [Hbad _].
  apply (Hbad [VStr "2023-01-01"; VStr "soon"] eq_refl).
  vm_compute. right. left. reflexivity.
Defined.

Lemma assign_length name s cols cs :
  List.length (assign name s cols cs) = List.length cs.
Proof.
  revert cs. induction cols as [|c cols IH]; intros [|old cs]; try reflexivity.
  cbn [assign List.length]. rewrite IH. reflexivity.
Qed.

Lemma assign_lookup_other name s cols cs (j : nat) c :
  cols !! j = Some c -> c <> name -> assign name s cols cs !! j = cs !! j.
Proof.
  revert cs j. induction cols as [|c0 cols IH]; intros [|old cs] [|j] Hc Hne;
    try discriminate; try reflexivity.
  - cbn in Hc. injection Hc as ->. cbn [assign].
    rewrite (proj2 (String.eqb_neq c name) Hne). reflexivity.
  - cbn [assign]. cbn. apply IH; assumption.
Qed.

Lemma assign_lookup_same name s cols cs (j : nat) old :
  cols !! j = Some name -> cs !! j = Some old ->
  assign name s cols cs !! j = Some s.
Proof.
  revert cs j. induction cols as [|c0 cols IH]; intros [|old0 cs] [|j] Hc Ho;
    try discriminate.
  - cbn in Hc. injection Hc as ->. cbn [assign]. rewrite String.eqb_refl.
    reflexivity.
  - cbn [assign]. cbn. eapply IH; eassumption.
Qed.

Lemma select_lookup name cols cs (j : nat) old :
  cols !! j = Some name -> cs !! j = Some old -> In old (select name cols cs).
Proof.
  revert cs j. induction cols as [|c0 cols IH]; intros [|old0 cs] [|j] Hc Ho;
    try discriminate.
  - cbn in Hc, Ho. injection Hc as ->. injection Ho as ->. cbn [select].
    rewrite String.eqb_refl. left. reflexivity.
  - cbn [select]. cbn in Hc, Ho.
    destruct (String.eqb c0 name); [right|]; eapply IH; eassumption.
Qed.

(** What [df["date"] = coerced] changes in a table whose only date column
    is [col]. *)
Lemma setitem_date_effect df col s :
  getitem df "date" = Ok (ISeries col) ->
  columns (setitem df "date" s) = columns df
  /\ List.length (data (setitem df "date" s)) = List.length (data df)
  /\ (forall (j : nat) c, columns df !! j = Some c -> c <> "date" ->
        data (setitem df "date" s) !! j = data df !! j)
  /\ (forall (j : nat) old, columns df !! j = Some "date" ->
        data df !! j = Some old ->
        old = col /\ data (setitem df "date" s) !! j = Some s).
Proof.
  unfold getitem, setitem.
  destruct (select "date" (columns df) (data df)) as [|c0 [|c1 cs]] eqn:Hsel;
    try discriminate.
  intros [= ->]. rewrite (select_nonempty _ _ _ _ _ Hsel). cbn [columns data].
  split; [reflexivity|]. split; [apply assign_length|].
  split; [intros j c Hc Hne; apply (assign_lookup_other _ _ _ _ _ _ Hc Hne)|].
  intros j old Hc Ho. split.
  - pose proof (select_lookup _ _ _ _ _ Hc Ho) as Hin. rewrite Hsel in Hin.
    destruct Hin as [->|[]]. reflexivity.
  - apply (assign_lookup_same _ _ _ _ _ _ Hc Ho).
Qed.

(** C3 (amended).  The validator works on the caller's table itself.  In
    every case the labels of that table end up normalised, no other column
    than date is touched, no row is added or dropped, and nothing else in
    the heap, the chat, the generator or the session changes.  On success the very same
    table is returned with its date column coerced to dates, and nothing is
    sent to the page.  On failure [None] is returned and one error message is
    sent to the page; the table keeps its normalised labels, and its date
    column holds either the old cells or the coerced ones.  This holds
    whatever [str.strip] and [str.lower] do to the labels, hence for labels
    of any text. *)
Theorem C3_validator_effects (str_strip str_lower : string -> string)
  (co : Series -> nat -> option Z) (r : ref) (df : DataFrame) (w : world) :
  heap w !! r = Some df ->
  exists (res : option ref) (w' : world) (df' : DataFrame),
    validate_data_with str_strip str_lower co r w = (Ok res, w')
    /\ (forall r', r' <> r -> heap w' !! r' = heap w !! r')
    /\ messages w' = messages w
    /\ rng w' = rng w
    /\ session_data w' = session_data w
    /\ heap w' !! r = Some df'
    /\ columns df' = List.map (normalize_column_with str_strip str_lower) (columns df)
    /\ List.length (data df') = List.length (data df)
    /\ (forall (j : nat) c, columns df' !! j = Some c -> c <> "date" ->
          data df' !! j = data df !! j)
    /\ (forall (j : nat) old, columns df' !! j = Some "date" ->
          data df !! j = Some old ->
          data df' !! j = Some old
          \/ data df' !! j = Some (to_datetime_series co old))
    /\ match res with
       | Some r' =>
           r' = r
           /\ page w' = page w
           /\ forall (j : nat) old, columns df' !! j = Some "date" ->
                data df !! j = Some old ->
                data df' !! j = Some (to_datetime_series co old)
                /\ List.length (to_datetime_series co old) = List.length old
                /\ Forall (fun v => exists d, v = VDate d)
                          (to_datetime_series co old)
       | None =>
           exists msg,
             page w' = app (page w) [st_error ("Data validation error: " ++ msg)]
       end.
Proof.
  intros Hr. rewrite (validate_data_with_run str_strip str_lower co r df w Hr).
  assert (Hrel : forall msg,
    exists (res : option ref) (w' : world) (df' : DataFrame),
      (Ok (returned r (Rejected (relabelled_with (normalize_column_with str_strip str_lower) df) msg)),
       world_after r (Rejected (relabelled_with (normalize_column_with str_strip str_lower) df) msg) w) = (Ok res, w')
      /\ (forall r', r' <> r -> heap w' !! r' = heap w !! r')
      /\ messages w' = messages w
      /\ rng w' = rng w
      /\ session_data w' = session_data w
      /\ heap w' !! r = Some df'
      /\ columns df' = List.map (normalize_column_with str_strip str_lower) (columns df)
      /\ List.length (data df') = List.length (data df)
      /\ (forall (j : nat) c, columns df' !! j = Some c -> c <> "date" ->
            data df' !! j = data df !! j)
      /\ (forall (j : nat) old, columns df' !! j = Some "date" ->
            data df !! j = Some old ->
            data df' !! j = Some old
            \/ data df' !! j = Some (to_datetime_series co old))
      /\ match res with
         | Some r' =>
             r' = r
             /\ page w' = page w
             /\ forall (j : nat) old, columns df' !! j = Some "date" ->
                  data df !! j = Some old ->
                  data df' !! j = Some (to_datetime_series co old)
                  /\ List.length (to_datetime_series co old) = List.length old
                  /\ Forall (fun v => exists d, v = VDate d)
                            (to_datetime_series co old)
         | None =>
             exists msg,
               page w' = app (page w) [st_error ("Data validation error: " ++ msg)]
         end).
  { intros msg. exists None. eexists. exists (relabelled_with (normalize_column_with str_strip str_lower) df).
    split; [reflexivity|].
    split; [intros r' Hne; cbn; apply lookup_insert_ne; congruence|].
    split; [reflexivity|]. split; [reflexivity|]. split; [reflexivity|].
    split; [cbn; apply lookup_insert_eq|].
    split; [reflexivity|]. split; [reflexivity|].
    split; [reflexivity|].
    split; [intros j old _ Ho; left; exact Ho|].
    exists msg. reflexivity. }
  unfold verdict_of_with.
  destruct (decide (missing_fields_with (normalize_column_with str_strip str_lower) df = ∅)) as [Hm|Hm]; [|apply Hrel].
  destruct (getitem (relabelled_with (normalize_column_with str_strip str_lower) df) "date") as [[col|fr]|e] eqn:Hd;
    [|apply Hrel|apply Hrel].
  set (coerced := to_datetime_series co col).
  destruct (setitem_date_effect (relabelled_with (normalize_column_with str_strip str_lower) df) col coerced Hd)
    as (Hcols & Hlen & Hother & Hsame).
  assert (Hnull : forall b,
    existsb isnull coerced = b ->
    exists (w' : world),
      world_after r (if b then Rejected (setitem (relabelled_with (normalize_column_with str_strip str_lower) df) "date" coerced)
                                  "Invalid date format in date column"
                     else Accepted (setitem (relabelled_with (normalize_column_with str_strip str_lower) df) "date" coerced)) w = w'
      /\ (forall r', r' <> r -> heap w' !! r' = heap w !! r')
      /\ messages w' = messages w /\ rng w' = rng w
      /\ session_data w' = session_data w
      /\ heap w' !! r = Some (setitem (relabelled_with (normalize_column_with str_strip str_lower) df) "date" coerced)).
  { intros b _. eexists. split; [reflexivity|].
    destruct b; cbn; (split; [intros r' Hne; apply lookup_insert_ne; congruence|]);
      (split; [reflexivity|]); (split; [reflexivity|]); (split; [reflexivity|]);
      apply lookup_insert_eq. }
  destruct (existsb isnull coerced) eqn:Hbad;
    destruct (Hnull _ eq_refl) as (w' & Hw' & Hframe & Hmsg & Hrng & Hsess & Hlook).
  - exists None, w', (setitem (relabelled_with (normalize_column_with str_strip str_lower) df) "date" coerced).
    split; [rewrite <- Hw'; reflexivity|].
    split; [exact Hframe|]. split; [exact Hmsg|]. split; [exact Hrng|].
    split; [exact Hsess|].
    split; [exact Hlook|]. split; [exact Hcols|]. split; [exact Hlen|].
    split; [intros j c Hc; rewrite Hcols in Hc; apply (Hother j c Hc)|].
    split.
    + intros j old Hc Ho. rewrite Hcols in Hc.
      destruct (Hsame j old Hc Ho) as [-> Hnew]. right. exact Hnew.
    + eexists. rewrite <- Hw'. reflexivity.
  - exists (Some r), w', (setitem (relabelled_with (normalize_column_with str_strip str_lower) df) "date" coerced).
    split; [rewrite <- Hw'; reflexivity|].
    split; [exact Hframe|]. split; [exact Hmsg|]. split; [exact Hrng|].
    split; [exact Hsess|].
    split; [exact Hlook|]. split; [exact Hcols|]. split; [exact Hlen|].
    split; [intros j c Hc; rewrite Hcols in Hc; apply (Hother j c Hc)|].
    split.
    + intros j old Hc Ho. rewrite Hcols in Hc.
      destruct (Hsame j old Hc Ho) as [-> Hnew]. right. exact Hnew.
    + split; [reflexivity|]. split; [rewrite <- Hw'; reflexivity|].
      intros j old Hc Ho. rewrite Hcols in Hc.
      destruct (Hsame j old Hc Ho) as [-> Hnew].
      split; [exact Hnew|]. split; [apply to_datetime_series_length|].
      apply no_null_all_dates, Hbad.
Qed.

Lemma C3_validator_effects_witness :
  heap (world_with good_upload) !! 1%positive = Some good_upload
  /\ exists (w' : world) (df' : DataFrame),
       validate_data_with strip lower iso_only 1%positive (world_with good_upload)
       = (Ok (Some 1%positive), w')
       /\ heap w' !! 1%positive = Some df'
       /\ columns df' = ["date"; "platform"; "hours_worked"; "hours"; "earnings"]
       /\ data df' !! 2%nat = Some [VStr "3h"; VStr "4h"].
Proof.
  split; [reflexivity|].
  destruct (C3_validator_effects strip lower iso_only 1%positive good_upload
              (world_with good_upload) eq_refl)
    as (res & w' & df' & Hrun & _ & _ & _ & _ & Hlook & Hcols & _ & Hother & _ & _).
  exists w', df'.
  assert (Hres : res = Some 1%positive).
  { rewrite (validate_data_with_run strip lower iso_only 1%positive good_upload
               (world_with good_upload) eq_refl) in Hrun.
    injection Hrun as <- _. reflexivity. }
  rewrite Hres in Hrun.
  assert (Hlabels : columns df'
                    = ["date"; "platform"; "hours_worked"; "hours"; "earnings"])
    by (rewrite Hcols; vm_compute; reflexivity).
  split; [exact Hrun|]. split; [exact Hlook|]. split; [exact Hlabels|].
  refine (eq_trans (Hother 2%nat "hours_worked" _ _) _);
    [rewrite Hlabels; reflexivity|discriminate|reflexivity].
Defined.

(** C3 as stated fails: after a rejection the caller's table is not what it
    was.  A table without platform and earnings is rejected with its labels
    rewritten; and a table with one bad date is rejected with its labels
    rewritten and its date column overwritten, the good date by a Timestamp
    and the bad one by the invalid-date sentinel. *)
Lemma C3_rejection_leaves_changes :
  (exists w' : world,
     heap (world_with two_column_upload) !! 1%positive
     = Some (Frame [" Date "; "Hours"] [ [VStr "2023-01-01"]; [VInt 3] ])
     /\ validate_data_with strip lower iso_only 1%positive
          (world_with two_column_upload)
        = (Ok None, w')
     /\ heap w' !! 1%positive
        = Some (Frame ["date"; "hours"] [ [VStr "2023-01-01"]; [VInt 3] ])
     /\ heap w' !! 1%positive <> heap (world_with two_column_upload) !! 1%positive
     /\ page w' <> page (world_with two_column_upload))
  /\ (exists w' : world,
        heap (world_with bad_date_upload) !! 1%positive
        = Some (Frame ["Date"; "Platform"; "Hours"; "Earnings"]
                      [ [VStr "2023-01-01"; VStr "soon"];
                        [VStr "Uber"; VStr "Lyft"];
                        [VInt 3; VInt 4];
                        [VInt 30; VInt 40] ])
        /\ validate_data_with strip lower iso_only 1%positive
             (world_with bad_date_upload)
           = (Ok None, w')
        /\ heap w' !! 1%positive
           = Some (Frame ["date"; "platform"; "hours"; "earnings"]
                         [ [VDate 19358; VNaT];
                           [VStr "Uber"; VStr "Lyft"];
                           [VInt 3; VInt 4];
                           [VInt 30; VInt 40] ])
        /\ heap w' !! 1%positive <> heap (world_with bad_date_upload) !! 1%positive).
Proof.
  split.
  - eexists. split; [reflexivity|].
    split; [apply (validate_data_with_run strip lower iso_only 1%positive
                     two_column_upload (world_with two_column_upload) eq_refl)|].
    split; [vm_compute; reflexivity|].
    split; [vm_compute; discriminate|]. vm_compute. discriminate.
  - eexists. split; [reflexivity|].
    split; [apply (validate_data_with_run strip lower iso_only 1%positive
                     bad_date_upload (world_with bad_date_upload) eq_refl)|].
    split; [vm_compute; reflexivity|]. vm_compute. discriminate.
Qed.

(** ** The weekly resample *)

(** The week of a day ends on the Sunday on or after it. *)
Lemma week_end_eq (d : Z) : week_end d = 7 * ((d + 3) / 7) + 3.
Proof.
  unfold week_end, weekday.
  pose proof (Z.div_mod (d + 3) 7 ltac:(lia)). lia.
Qed.

Lemma week_end_is_sunday (d : Z) : weekday (week_end d) = 6 /\ d <= week_end d < d + 7.
Proof.
  split.
  - rewrite week_end_eq. unfold weekday.
    replace (7 * ((d + 3) / 7) + 3 + 3) with (6 + ((d + 3) / 7) * 7) by lia.
    rewrite Z.mod_add by lia. reflexivity.
  - unfold week_end, weekday. pose proof (Z.mod_pos_bound (d + 3) 7 ltac:(lia)). lia.
Qed.

Lemma week_end_mono (a b : Z) : a <= b -> week_end a <= week_end b.
Proof.
  intros H. rewrite !week_end_eq.
  pose proof (Z.div_le_mono (a + 3) (b + 3) 7 ltac:(lia) ltac:(lia)). lia.
Qed.

Lemma fold_min_le (d : Z) (ds : list Z) (n : Z) :
  In n (d :: ds) -> fold_right Z.min d ds <= n.
Proof.
  induction ds as [|x ds IH]; cbn [fold_right].
  - intros [->|[]]. lia.
  - intros [->|[->|Hin]].
    + specialize (IH (or_introl eq_refl)). lia.
    + lia.
    + specialize (IH (or_intror Hin)). lia.
Qed.

Lemma fold_max_ge (d : Z) (ds : list Z) (n : Z) :
  In n (d :: ds) -> n <= fold_right Z.max d ds.
Proof.
  induction ds as [|x ds IH]; cbn [fold_right].
  - intros [->|[]]. lia.
  - intros [->|[->|Hin]].
    + specialize (IH (or_introl eq_refl)). lia.
    + lia.
    + specialize (IH (or_intror Hin)). lia.
Qed.

(** Every row's week is one of the weeks of the result. *)
Lemma week_bins_cover (ds : list Z) (n : Z) :
  In n ds -> In (week_end n) (week_bins ds).
Proof.
  destruct ds as [|d ds]; [intros []|]. intros Hin. unfold week_bins.
  pose proof (week_end_mono _ _ (fold_min_le d ds n Hin)) as Hlo.
  pose proof (week_end_mono _ _ (fold_max_ge d ds n Hin)) as Hhi.
  set (lo := week_end (fold_right Z.min d ds)) in *.
  set (hi := week_end (fold_right Z.max d ds)) in *.
  assert (Hk : week_end n = lo + 7 * ((week_end n - lo) / 7)).
  { unfold lo. rewrite !week_end_eq.
    replace (7 * ((n + 3) / 7) + 3 - (7 * ((fold_right Z.min d ds + 3) / 7) + 3))
      with (((n + 3) / 7 - (fold_right Z.min d ds + 3) / 7) * 7) by lia.
    rewrite Z.div_mul by lia. lia. }
  apply List.in_map_iff. exists (Z.to_nat ((week_end n - lo) / 7)).
  assert (H0 : 0 <= (week_end n - lo) / 7) by (apply Z.div_pos; lia).
  split; [rewrite Z2Nat.id by exact H0; symmetry; exact Hk|].
  apply List.in_seq.
  pose proof (Z.div_le_mono (week_end n - lo) (hi - lo) 7 ltac:(lia) ltac:(lia)).
  lia.
Qed.

(** No week occurs twice, and the weeks are Sundays in increasing order. *)
Lemma week_bins_NoDup (ds : list Z) : List.NoDup (week_bins ds).
Proof.
  destruct ds as [|d ds]; [constructor|]. unfold week_bins.
  apply Finite.Injective_map_NoDup; [|apply List.seq_NoDup].
  intros a b Hab. lia.
Qed.

Lemma total_zeros {A} (l : list A) : (total (List.map (fun _ => 0%Q) l) == 0)%Q.
Proof.
  induction l as [|x l IH]; [reflexivity|].
  cbn [List.map total fold_right]. fold (total (List.map (fun _ => 0%Q) l)).
  rewrite IH. reflexivity.
Qed.

Lemma total_cons (q : Q) (l : list Q) : total (q :: l) = (q + total l)%Q.
Proof. reflexivity. Qed.

(** Adding [a] to the entry of the one week [x] adds [a] to the total. *)
Lemma total_one_week (bins : list Z) (x : Z) (a : Q) (f : Z -> Q) :
  List.NoDup bins -> In x bins ->
  (total (List.map (fun b => if x =? b then (a + f b)%Q else f b) bins)
   == a + total (List.map f bins))%Q.
Proof.
  intros Hnd. induction Hnd as [|b bins Hnotin Hnd IH]; [intros []|].
  intros Hin. cbn [List.map]. rewrite !total_cons.
  destruct (Z.eqb_spec x b) as [->|Hne].
  - assert (Hrest : (total (List.map (fun b0 => if b =? b0 then (a + f b0)%Q else f b0) bins)
                     == total (List.map f bins))%Q).
    { clear IH Hin Hnd. induction bins as [|c bins IHb]; [reflexivity|].
      cbn [List.map]. rewrite !total_cons.
      destruct (Z.eqb_spec b c) as [->|_]; [destruct Hnotin; left; reflexivity|].
      rewrite IHb; [reflexivity|]. intros Hc. apply Hnotin. right. exact Hc. }
    rewrite Hrest. ring.
  - destruct Hin as [->|Hin]; [contradiction|].
    rewrite (IH Hin). ring.
Qed.

(** The weekly sums of a column add up to the sum of the column. *)
Lemma bin_sums_total (bins : list Z) (ds es : Series) :
  List.NoDup bins ->
  List.length ds = List.length es ->
  (forall v, In v ds -> exists d, v = VDate d /\ In (week_end d) bins) ->
  (total (List.map (fun b => bin_sum b ds es) bins) == series_sum es)%Q.
Proof.
  intros Hnd. revert es. induction ds as [|d ds IH]; intros [|v es] Hlen Hall;
    try discriminate.
  - cbn [bin_sum]. apply total_zeros.
  - destruct (Hall d (or_introl eq_refl)) as (n & -> & Hn).
    cbn [bin_sum date_of].
    rewrite (total_one_week bins (week_end n) (number v)
               (fun b => bin_sum b ds es) Hnd Hn).
    rewrite IH.
    + reflexivity.
    + cbn in Hlen. lia.
    + intros v' Hv'. apply Hall. right. exact Hv'.
Qed.




(** The weekly sums of a column that is numeric and has one label. *)
Lemma week_column_found (F : string * Series -> list Q) name on cols cs es :
  select name cols cs = [es] -> name <> on -> is_numeric es = true ->
  week_column name (List.map fst (numeric_but on cols cs))
                   (List.map F (numeric_but on cols cs))
  = Some (F (name, es)).
Proof.
  intros Hsel Hne Hnum. revert cs Hsel.
  induction cols as [|c cols IH]; intros [|s cs] Hsel; try discriminate.
  cbn [select] in Hsel. cbn [numeric_but].
  destruct (String.eqb_spec c name) as [->|Hc].
  - injection Hsel as -> _.
    rewrite (proj2 (String.eqb_neq name on) Hne), Hnum. cbn [negb andb List.map fst].
    cbn [week_column]. rewrite String.eqb_refl. reflexivity.
  - destruct (negb (String.eqb c on) && is_numeric s).
    + cbn [List.map fst week_column].
      rewrite (proj2 (String.eqb_neq c name) Hc). apply IH, Hsel.
    + apply IH, Hsel.
Qed.

Lemma combine_map_fst {A B} (f : A -> B) (l : list A) :
  List.map fst (combine l (List.map f l)) = l.
Proof. induction l as [|x l IH]; [reflexivity|]. cbn. rewrite IH. reflexivity. Qed.

Lemma combine_map_snd {A B} (f : A -> B) (l : list A) :
  List.map snd (combine l (List.map f l)) = List.map f l.
Proof. induction l as [|x l IH]; [reflexivity|]. cbn. rewrite IH. reflexivity. Qed.

Lemma combine_map_in {A B} (f : A -> B) (l : list A) x y :
  In (x, y) (combine l (List.map f l)) -> y = f x.
Proof.
  induction l as [|a l IH]; [intros []|]. cbn.
  intros [[= -> ->]|Hin]; [reflexivity|apply IH, Hin].
Qed.

Lemma all_dates_timestamps ds :
  Forall (fun v => exists d, v = VDate d) ds -> forallb is_timestamp ds = true.
Proof.
  intros H. apply List.forallb_forall. intros v Hv.
  destruct (proj1 (List.Forall_forall _ _) H v Hv) as [d ->]. reflexivity.
Qed.

Lemma valid_dates_in ds d : In (VDate d) ds -> In d (valid_dates ds).
Proof.
  intros H. apply list_elem_of_In. unfold valid_dates.
  apply list_elem_of_omap. exists (VDate d).
  split; [apply list_elem_of_In, H|reflexivity].
Qed.

Lemma int64_is_numeric (s : Series) : int64_column s -> is_numeric s = true.
Proof.
  intros H. apply List.forallb_forall. intros v Hv.
  destruct (proj1 (List.Forall_forall _ _) H v Hv) as [z ->]. reflexivity.
Qed.





(** ** The download read back *)

Lemma app_String (c : ascii) (s t : string) : String c s ++ t = String c (s ++ t).
Proof. reflexivity. Qed.

Lemma string_app_assoc (a b c : string) : (a ++ b) ++ c = a ++ (b ++ c).
Proof.
  induction a as [|x a IH]; [reflexivity|]. rewrite !app_String, IH. reflexivity.
Qed.

Lemma string_app_nil_r (a : string) : a ++ "" = a.
Proof.
  induction a as [|x a IH]; [reflexivity|]. rewrite app_String, IH. reflexivity.
Qed.

Lemma special_false (c : ascii) :
  special c = false ->
  Ascii.eqb c comma = false /\ Ascii.eqb c dquote = false
  /\ Ascii.eqb c lf = false /\ Ascii.eqb c cr = false.
Proof.
  unfold special. intros H.
  destruct (Ascii.eqb c comma), (Ascii.eqb c dquote), (Ascii.eqb c lf),
    (Ascii.eqb c cr); try discriminate; auto.
Qed.

(** One step of the tokenizer, by state and kind of character. *)
Lemma tok_start_plain c s fld row :
  special c = false ->
  tokenize (String c s) StartField fld row = tokenize s InField (String c "") row.
Proof.
  intros H. destruct (special_false c H) as (Hc & Hq & Hl & Hr).
  cbn [tokenize]. rewrite Hc, Hq, Hl, Hr. reflexivity.
Qed.

Lemma tok_field_plain c s fld row :
  special c = false ->
  tokenize (String c s) InField fld row
  = tokenize s InField (fld ++ String c "") row.
Proof.
  intros H. destruct (special_false c H) as (Hc & Hq & Hl & Hr).
  cbn [tokenize]. rewrite Hc, Hl, Hr. reflexivity.
Qed.

Lemma tok_quoted_plain c s fld row :
  Ascii.eqb c dquote = false ->
  tokenize (String c s) InQuoted fld row
  = tokenize s InQuoted (fld ++ String c "") row.
Proof. intros H. cbn [tokenize]. rewrite H. reflexivity. Qed.

(** An unquoted field is read as it stands. *)
Lemma tok_plain_run f s fld row :
  any_char special f = false ->
  tokenize (f ++ s) InField fld row = tokenize s InField (fld ++ f) row.
Proof.
  revert fld. induction f as [|c f IH]; intros fld Hf.
  - rewrite string_app_nil_r. reflexivity.
  - cbn [any_char] in Hf. apply Bool.orb_false_iff in Hf. destruct Hf as [Hc Hf].
    rewrite !app_String. rewrite (tok_field_plain _ _ _ _ Hc), (IH _ Hf).
    rewrite string_app_assoc. reflexivity.
Qed.

(** Inside quotes, doubled quotes are read as one and all else as it
    stands. *)
Lemma tok_quoted_run f s fld row :
  tokenize (double_quotes f ++ s) InQuoted fld row
  = tokenize s InQuoted (fld ++ f) row.
Proof.
  revert fld. induction f as [|c f IH]; intros fld.
  - rewrite string_app_nil_r. reflexivity.
  - cbn [double_quotes]. destruct (Ascii.eqb_spec c dquote) as [->|Hne].
    + rewrite !app_String. cbn [tokenize]. rewrite Ascii.eqb_refl.
      change (tokenize (double_quotes f ++ s) InQuoted
                (fld ++ String dquote "") row
              = tokenize s InQuoted (fld ++ String dquote f) row).
      rewrite IH, string_app_assoc. reflexivity.
    + rewrite !app_String. rewrite tok_quoted_plain
        by (apply Ascii.eqb_neq; exact Hne).
      rewrite IH, string_app_assoc. reflexivity.
Qed.

Lemma write_field_cases f :
  (any_char special f = false /\ write_field f = f)
  \/ write_field f = quoted f.
Proof.
  unfold write_field. destruct (any_char special f); [right|left]; auto.
Qed.

(** A field that was written is read back, up to the comma after it. *)
Lemma tok_field_comma f s row :
  tokenize (write_field f ++ String comma s) StartField "" row
  = tokenize s StartField "" (row ++ [f])%list.
Proof.
  destruct (write_field_cases f) as [[Hf ->]| ->].
  - destruct f as [|a f]; [reflexivity|].
    cbn [any_char] in Hf. apply Bool.orb_false_iff in Hf. destruct Hf as [Ha Hf].
    rewrite app_String, (tok_start_plain _ _ _ _ Ha), (tok_plain_run _ _ _ _ Hf).
    reflexivity.
  - unfold quoted. rewrite app_String, string_app_assoc, app_String.
    change (tokenize (String dquote (double_quotes f ++ String dquote ("" ++ String comma s)))
              StartField "" row)
      with (tokenize (double_quotes f ++ String dquote (String comma s))
              InQuoted "" row).
    rewrite tok_quoted_run. reflexivity.
Qed.

(** The last field of a record is read back up to the line feed, which
    ends the record. *)
Lemma tok_field_lf f s row :
  row <> [] \/ f <> "" ->
  tokenize (write_field f ++ String lf s) StartField "" row
  = prepend (row ++ [f])%list (tokenize s StartField "" []).
Proof.
  intros Hne. destruct (write_field_cases f) as [[Hf ->]| ->].
  - destruct f as [|a f].
    + destruct row as [|x row]; [destruct Hne as [H|H]; destruct (H eq_refl)|].
      reflexivity.
    + cbn [any_char] in Hf. apply Bool.orb_false_iff in Hf. destruct Hf as [Ha Hf].
      rewrite app_String, (tok_start_plain _ _ _ _ Ha), (tok_plain_run _ _ _ _ Hf).
      reflexivity.
  - unfold quoted. rewrite app_String, string_app_assoc, app_String.
    change (tokenize (String dquote (double_quotes f ++ String dquote ("" ++ String lf s)))
              StartField "" row)
      with (tokenize (double_quotes f ++ String dquote (String lf s))
              InQuoted "" row).
    rewrite tok_quoted_run. reflexivity.
Qed.

Lemma join_cons sep a b l : join sep (a :: b :: l) = a ++ sep ++ join sep (b :: l).
Proof. reflexivity. Qed.

(** The fields of a record are read back one after the other. *)
Lemma tok_fields fs s row :
  fs <> [] -> row <> [] \/ fs <> [""] ->
  tokenize (join "," (List.map write_field fs) ++ String lf s) StartField "" row
  = prepend (row ++ fs)%list (tokenize s StartField "" []).
Proof.
  revert row. induction fs as [|f fs IH]; intros row Hfs Hne; [destruct (Hfs eq_refl)|].
  destruct fs as [|g fs].
  - cbn [List.map join]. apply tok_field_lf.
    destruct Hne as [H|H]; [left; exact H|right; congruence].
  - cbn [List.map]. rewrite join_cons, !string_app_assoc.
    change ("," ++ join "," (write_field g :: List.map write_field fs) ++ String lf s)
      with (String comma (join "," (List.map write_field (g :: fs)) ++ String lf s)).
    rewrite tok_field_comma, IH.
    + rewrite <- List.app_assoc. reflexivity.
    + discriminate.
    + left. destruct row; discriminate.
Qed.

(** A record that was written is read back. *)
Lemma tok_row fs s :
  fs <> [] ->
  tokenize (write_row fs ++ s) StartField "" []
  = prepend fs (tokenize s StartField "" []).
Proof.
  intros Hfs.
  assert (Hgen : fs <> [""] ->
    tokenize ((join "," (List.map write_field fs) ++ newline) ++ s) StartField "" []
    = prepend fs (tokenize s StartField "" [])).
  { intros Hne. rewrite string_app_assoc.
    change (newline ++ s) with (String lf s).
    apply (tok_fields fs s [] Hfs). right. exact Hne. }
  destruct fs as [|[|c f] [|g fs]]; try (apply Hgen; discriminate).
  reflexivity.
Qed.

(** Records that were written are read back, all of them. *)
Lemma tok_rows rows :
  Forall (fun fs => fs <> []) rows ->
  tokenize (concat_all (List.map write_row rows)) StartField "" [] = Ok rows.
Proof.
  induction 1 as [|fs rows Hfs _ IH]; [reflexivity|].
  cbn [List.map concat_all]. rewrite (tok_row _ _ Hfs), IH. reflexivity.
Qed.

(** The download of a table is read back record by record. *)
Lemma tokenize_to_csv fr df :
  columns df <> [] -> data df <> [] ->
  tokenize (to_csv fr df) StartField "" []
  = Ok (columns df :: List.map (record_of fr (data df)) (seq 0 (nrows df))).
Proof.
  intros Hc Hd. unfold to_csv.
  rewrite <- (List.map_map (record_of fr (data df)) write_row).
  change (write_row (columns df)
          ++ concat_all (List.map write_row
                           (List.map (record_of fr (data df)) (seq 0 (nrows df)))))
    with (concat_all (List.map write_row
            (columns df :: List.map (record_of fr (data df)) (seq 0 (nrows df))))).
  apply tok_rows. constructor; [exact Hc|].
  apply List.Forall_forall. intros fs Hin. apply List.in_map_iff in Hin.
  destruct Hin as (i & <- & _). unfold record_of.
  destruct (data df); [destruct (Hd eq_refl)|discriminate].
Qed.

(** The dates of the sample, written and read back, are ISO text. *)
Lemma sample_csv_dates fr :
  infer_column
    (List.map (fun i => render fr
                 (nth i (List.map (fun i => VDate (19358 + Z.of_nat i)) (seq 0 90)) VNaN))
              (seq 0 90))
  = sample_dates_text.
Proof. vm_compute. reflexivity. Qed.

Lemma read_sample_csv fr g :
  exists e h p m,
    read_csv (to_csv fr (sample_frame g))
    = Ok (Frame ["date"; "earnings"; "hours"; "platform"; "miles"]
                [sample_dates_text; e; h; p; m]).
Proof.
  unfold read_csv.
  rewrite (tokenize_to_csv fr (sample_frame g)) by discriminate.
  cbn [mbind result_mbind result_bind].
  replace (nrows (sample_frame g)) with 90%nat
    by (unfold nrows, sample_frame; cbn [data];
        rewrite List.length_map, List.length_seq; reflexivity).
  set (rows := List.map (record_of fr (data (sample_frame g))) (seq 0 90)).
  assert (Hw : forallb (fun r => (List.length r <=? 5)%nat) rows = true).
  { apply List.forallb_forall. intros r Hr. apply List.in_map_iff in Hr.
    destruct Hr as (i & <- & _). reflexivity. }
  change (List.length (columns (sample_frame g))) with 5%nat.
  rewrite Hw.
  assert (Hcols : mangle [] (columns (sample_frame g))
                  = ["date"; "earnings"; "hours"; "platform"; "miles"])
    by reflexivity.
  assert (Hdate : infer_column (List.map (fun r => nth 0 r "") rows)
                  = sample_dates_text).
  { unfold rows. rewrite List.map_map.
    etransitivity; [|apply (sample_csv_dates fr)]. f_equal. }
  clearbody rows. rewrite Hcols.
  change (seq 0 5) with [0; 1; 2; 3; 4]%nat. cbn [List.map]. rewrite Hdate.
  do 4 eexists. reflexivity.
Qed.

(** A table whose date column is the ISO text of the sample dates, with any
    four columns under the other sample labels, is accepted. *)
Lemma sample_text_accepted co (e h p m : Series) :
  verdict_of co (Frame ["date"; "earnings"; "hours"; "platform"; "miles"]
                       [sample_dates_text; e; h; p; m])
  = Accepted (Frame ["date"; "earnings"; "hours"; "platform"; "miles"]
                    [ List.map (fun i => VDate (19358 + Z.of_nat i)) (seq 0 90);
                      e; h; p; m ]).
Proof. vm_compute. reflexivity. Qed.

Lemma lift_bind {A B} (a : A) (k : A -> py B) (w : world) :
  (lift (Ok a) ≫= k) w = k a w.
Proof. reflexivity. Qed.

Lemma alloc_bind {B} (df : DataFrame) (k : ref -> py B) (w : world) :
  (alloc df ≫= k) w
  = k (fresh (dom (heap w)))
      (with_heap (<[fresh (dom (heap w)) := df]> (heap w)) w).
Proof. reflexivity. Qed.

(** C9.  Whatever the generator delivers, the sample written as the
    download and loaded again is accepted by the validator: the page gets
    the success message and no error, the session holds the table, the five
    columns are there under their names, and the dates read back are the 90
    dates that were generated. *)
Theorem C9_sample_round_trip (co : Series -> nat -> option Z) (fr : Q -> string)
  (w : world) :
  exists (r' : ref) (w' : world) (df' : DataFrame),
    sample_round_trip co fr w = (Ok tt, w')
    /\ page w' = app (page w) [st_success "Data loaded successfully!"]
    /\ session_data w' = Some r'
    /\ heap w' !! r' = Some df'
    /\ columns df' = ["date"; "earnings"; "hours"; "platform"; "miles"]
    /\ (forall f, f ∈ required -> In f (columns df'))
    /\ getitem df' "date"
       = Ok (ISeries (List.map (fun i => VDate (19358 + Z.of_nat i)) (seq 0 90))).
Proof.
  destruct (read_sample_csv fr (rng w)) as (e & h & p & m & Hread).
  set (table := Frame ["date"; "earnings"; "hours"; "platform"; "miles"]
                      [sample_dates_text; e; h; p; m]) in *.
  pose proof (load_sample_data_eq w) as Hload.
  set (r0 := fresh (dom (heap w))) in *.
  set (w1 := with_heap (<[r0 := sample_frame (rng w)]> (heap w))
               (with_rng (Rng (raw (rng w)) (consumed (rng w) + 360)) w)) in *.
  assert (Hsample : heap w1 !! r0 = Some (sample_frame (rng w)))
    by apply lookup_insert_eq.
  assert (Hpage : page w1 = page w) by reflexivity.
  clearbody w1 r0.
  set (r' := fresh (dom (heap w1))).
  set (w2 := with_heap (<[r' := table]> (heap w1)) w1).
  assert (Hr' : heap w2 !! r' = Some table) by apply lookup_insert_eq.
  set (accepted := Frame ["date"; "earnings"; "hours"; "platform"; "miles"]
                    [ List.map (fun i => VDate (19358 + Z.of_nat i)) (seq 0 90);
                      e; h; p; m ]).
  assert (Hcheck : validate_data co r' w2
                   = (Ok (Some r'), with_heap (<[r' := accepted]> (heap w2)) w2)).
  { rewrite (validate_data_run co r' table w2 Hr').
    unfold table at 1 2. rewrite sample_text_accepted. reflexivity. }
  assert (Hdown : download_sample fr w
                  = (Ok (to_csv fr (sample_frame (rng w))), w1)).
  { unfold download_sample.
    rewrite (bind_ok _ _ _ _ _ Hload).
    rewrite (bind_ok _ _ _ _ _ (deref_ok _ _ _ Hsample)). reflexivity. }
  set (w3 := with_heap (<[r' := accepted]> (heap w2)) w2) in *.
  exists r', (with_page (page w3 ++ [st_success "Data loaded successfully!"])
                (with_session_data (Some r') w3)), accepted.
  split.
  - unfold sample_round_trip. rewrite (bind_ok _ _ _ _ _ Hdown).
    unfold on_load_data, try_except.
    rewrite Hread, lift_bind, alloc_bind.
    fold r'. fold w2. rewrite (bind_ok _ _ _ _ _ Hcheck). reflexivity.
  - split; [cbn [with_page page]; f_equal; exact Hpage|].
    split; [reflexivity|].
    split; [cbn [with_page with_session_data with_heap heap w3];
            apply lookup_insert_eq|].
    split; [reflexivity|]. split; [|reflexivity].
    intros f Hf. unfold required in Hf.
    rewrite !elem_of_union, !elem_of_singleton in Hf. cbn [columns accepted].
    destruct Hf as [[[->| ->]| ->]| ->]; cbn; auto.
Qed.

(** * Further properties of the code *)

(** ** The advisor's methods and the display of their answers *)




(** X3.  A report that failed in the remote call is displayed as an error
    and not as a recommendation: feeding the answer of
    [generate_judge_ready_recommendations] to [display_recommendations]
    sends exactly one [st.error] with the error text and no markdown. *)
Theorem X3_failed_report_is_displayed_as_error
  (generate_text : string -> result string)
  (report_prompt : DataFrame -> result string)
  (r : ref) (df : DataFrame) (prompt : string) (e : exn) (w : world) :
  heap w !! r = Some df ->
  report_prompt df = Ok prompt ->
  generate_text prompt = Raise e ->
  (advice ← generate_judge_ready_recommendations generate_text report_prompt
              (AFrame r);
   display_recommendations advice) w
  = (Ok tt,
     with_page (page w ++ [st_error ("Error generating report: " ++ str e)]) w).
Proof.
  intros Hr Hp Hg.
  assert (Hrun : generate_judge_ready_recommendations generate_text report_prompt
                   (AFrame r) w
                 = (Ok ("Error generating report: " ++ str e), w)).
  { unfold generate_judge_ready_recommendations, try_except.
    unfold mbind, py_bind, bind, deref, lift. rewrite Hr, Hp, Hg. reflexivity. }
  rewrite (bind_ok _ _ _ _ _ Hrun). reflexivity.
Qed.

Lemma X3_failed_report_is_displayed_as_error_witness :
  heap (world_with breakdown_example) !! 1%positive = Some breakdown_example
  /\ (advice ← generate_judge_ready_recommendations
                 (fun _ => Raise (Exn RemoteError "timed out"))
                 (fun _ => Ok "prompt") (AFrame 1%positive);
      display_recommendations advice) (world_with breakdown_example)
     = (Ok tt,
        with_page [st_error "Error generating report: timed out"]
                  (world_with breakdown_example)).
Proof.
  split; [reflexivity|].
  apply (X3_failed_report_is_displayed_as_error
           (fun _ => Raise (Exn RemoteError "timed out")) (fun _ => Ok "prompt")
           1%positive breakdown_example "prompt" (Exn RemoteError "timed out")
           (world_with breakdown_example) eq_refl eq_refl eq_refl).
Defined.

(** ** The construction of the advisor *)

(** X4.  [GigAI()] fails whenever the API key or the project id is unset or
    empty, or the URL is set to the empty text: the error is a RuntimeError
    with the message "IBM Granite initialization failed: Missing IBM
    credentials in .env", whatever the constructor of the model would have
    done. *)
Theorem X4_missing_credentials_abort_construction
  (getenv : string -> option string)
  (Model : list (string * option string) -> option string
           -> result (string -> result string)) :
  truthy (getenv "IBM_GRANITE_API_KEY") = false
  \/ getenv "IBM_GRANITE_URL" = Some ""
  \/ truthy (getenv "IBM_GRANITE_PROJECT_ID") = false ->
  GigAI_init getenv Model
  = Raise (Exn RuntimeError
             "IBM Granite initialization failed: Missing IBM credentials in .env").
Proof.
  intros H. unfold GigAI_init, GigAI_init_body, getenv_default.
  cbn [List.map snd forallb].
  destruct H as [H|[H|H]].
  - rewrite H. reflexivity.
  - rewrite H. cbn [truthy]. rewrite Bool.andb_false_r. reflexivity.
  - rewrite H. rewrite Bool.orb_true_r. reflexivity.
Qed.

Lemma X4_missing_credentials_abort_construction_witness :
  truthy ((fun name => if String.eqb name "IBM_GRANITE_API_KEY"
                       then Some "key" else None) "IBM_GRANITE_PROJECT_ID")
  = false
  /\ GigAI_init (fun name => if String.eqb name "IBM_GRANITE_API_KEY"
                             then Some "key" else None)
                (fun _ _ => Ok (fun _ => Ok "text"))
     = Raise (Exn RuntimeError
                "IBM Granite initialization failed: Missing IBM credentials in .env").
Proof.
  split; [reflexivity|].
  apply X4_missing_credentials_abort_construction. right. right. reflexivity.
Defined.

(** X5.  [GigAI()] raises nothing but RuntimeErrors that begin with "IBM
    Granite initialization failed: "; when the key and the project id are
    set and not empty and the URL is unset or not empty, it fails exactly
    when the constructor of the model fails, with that failure's message
    after the prefix, and otherwise yields an object that holds the model,
    the URL being the default when it is unset. *)
Theorem X5_construction_outcomes
  (getenv : string -> option string)
  (Model : list (string * option string) -> option string
           -> result (string -> result string)) :
  (forall e, GigAI_init getenv Model = Raise e ->
     exn_cls e = RuntimeError
     /\ startswith (str e) "IBM Granite initialization failed: " = true)
  /\ (forall key project,
        getenv "IBM_GRANITE_API_KEY" = Some key -> key <> "" ->
        getenv "IBM_GRANITE_PROJECT_ID" = Some project -> project <> "" ->
        getenv "IBM_GRANITE_URL" <> Some "" ->
        let url := match getenv "IBM_GRANITE_URL" with
                   | Some u => u
                   | None => "https://us-south.ml.cloud.ibm.com"
                   end in
        let creds := [("apikey", Some key); ("url", Some url)] in
        GigAI_init getenv Model
        = match Model creds (Some project) with
          | Ok m => Ok (MakeGigAI creds (Some project) m)
          | Raise e =>
              Raise (Exn RuntimeError
                       ("IBM Granite initialization failed: " ++ str e))
          end).
Proof.
  split.
  - intros e. unfold GigAI_init.
    destruct (GigAI_init_body getenv Model) as [g|e0]; [discriminate|].
    intros [= <-]. destruct e0 as [c [|a m]]; split; reflexivity.
  - intros key project Hk Hk0 Hp Hp0 Hu url creds.
    unfold GigAI_init, GigAI_init_body, getenv_default.
    cbn [List.map snd forallb]. rewrite Hk, Hp.
    assert (Hurl : match getenv "IBM_GRANITE_URL" with
                   | Some v => Some v
                   | None => Some "https://us-south.ml.cloud.ibm.com"
                   end = Some url).
    { unfold url. destruct (getenv "IBM_GRANITE_URL"); reflexivity. }
    rewrite Hurl.
    assert (Htu : truthy (Some url) = true).
    { unfold url. destruct (getenv "IBM_GRANITE_URL") as [[|c u]|];
        [destruct (Hu eq_refl)|reflexivity|reflexivity]. }
    rewrite Htu.
    destruct key as [|c key]; [destruct (Hk0 eq_refl)|].
    destruct project as [|c' project]; [destruct (Hp0 eq_refl)|].
    cbn [truthy andb negb orb]. fold creds.
    destruct (Model creds (Some (String c' project))); reflexivity.
Qed.

Lemma X5_construction_outcomes_witness :
  GigAI_init (fun name => if String.eqb name "IBM_GRANITE_URL" then None
                          else Some "set")
             (fun _ _ => Raise (Exn RemoteError "no route to host"))
  = Raise (Exn RuntimeError
             "IBM Granite initialization failed: no route to host").
Proof.
  apply (proj2 (X5_construction_outcomes
                  (fun name => if String.eqb name "IBM_GRANITE_URL" then None
                               else Some "set")
                  (fun _ _ => Raise (Exn RemoteError "no route to host")))
               "set" "set" eq_refl ltac:(discriminate) eq_refl
               ltac:(discriminate) ltac:(discriminate)).
Defined.

(** ** The sample data in the session *)

Lemma fresh_is_unused (h : gmap ref DataFrame) : h !! fresh (dom h) = None.
Proof. apply not_elem_of_dom, is_fresh. Qed.

Lemma sample_frame_rectangular (g : RandomState) :
  rectangular (sample_frame g) /\ nrows (sample_frame g) = 90%nat.
Proof.
  assert (Hn : nrows (sample_frame g) = 90%nat).
  { unfold nrows, sample_frame. cbn [data].
    rewrite List.length_map, List.length_seq. reflexivity. }
  split; [|exact Hn]. intros c Hc. rewrite Hn.
  unfold sample_frame in Hc. cbn [data] in Hc.
  destruct Hc as [<-|[<-|[<-|[<-|[<-|[]]]]]];
    rewrite List.length_map, List.length_seq; reflexivity.
Qed.

(** X6.  [load_sample_data] puts its table at a reference that was not in
    use and touches nothing else: the tables already in the heap, the page,
    the chat and the session are as before; the generator has moved on by
    exactly 360 words; the new table has 90 rows in each of its five
    columns. *)
Theorem X6_sample_is_a_new_table (w : world) :
  exists (r : ref) (w' : world) (df : DataFrame),
    load_sample_data w = (Ok r, w')
    /\ heap w !! r = None
    /\ heap w' !! r = Some df
    /\ (forall r0 df0, heap w !! r0 = Some df0 -> heap w' !! r0 = Some df0)
    /\ page w' = page w
    /\ messages w' = messages w
    /\ session_data w' = session_data w
    /\ raw (rng w') = raw (rng w)
    /\ consumed (rng w') = (consumed (rng w) + 360)%nat
    /\ List.length (columns df) = 5%nat
    /\ List.length (data df) = 5%nat
    /\ nrows df = 90%nat
    /\ rectangular df.
Proof.
  eexists _, _, (sample_frame (rng w)).
  split; [apply load_sample_data_eq|].
  split; [apply fresh_is_unused|].
  split; [cbn [with_heap heap]; apply lookup_insert_eq|].
  split.
  { intros r0 df0 H0. cbn [with_heap heap]. rewrite lookup_insert_ne; [exact H0|].
    intros E. rewrite <- E, fresh_is_unused in H0. discriminate. }
  repeat (split; [reflexivity|]).
  destruct (sample_frame_rectangular (rng w)) as [Hrect Hn].
  first [exact Hrect | split; [exact Hn|exact Hrect]].
Qed.

(** The sums of a column of bounded integers, and of bounded tenths. *)
Lemma int_column_sum lo hi (s : Series) :
  Forall (is_int_in lo hi) s ->
  is_numeric s = true
  /\ (inject_Z (lo * Z.of_nat (List.length s)) <= series_sum s)%Q
  /\ (series_sum s <= inject_Z (hi * Z.of_nat (List.length s)))%Q.
Proof.
  induction 1 as [|v s (z & -> & Hz) _ (IHn & IHlo & IHhi)].
  - cbn [List.length Z.of_nat]. rewrite !Z.mul_0_r.
    repeat split; apply Qle_refl.
  - split; [exact IHn|].
    cbn [series_sum fold_right number List.length]. fold (series_sum s).
    rewrite Nat2Z.inj_succ.
    replace (lo * Z.succ (Z.of_nat (List.length s)))
      with (lo + lo * Z.of_nat (List.length s)) by lia.
    replace (hi * Z.succ (Z.of_nat (List.length s)))
      with (hi + hi * Z.of_nat (List.length s)) by lia.
    rewrite !inject_Z_plus.
    assert (Hzlo : (inject_Z lo <= inject_Z z)%Q) by (rewrite <- Zle_Qle; lia).
    assert (Hzhi : (inject_Z z <= inject_Z hi)%Q) by (rewrite <- Zle_Qle; lia).
    split; lra.
Qed.

Lemma tenths_column_sum lo hi (s : Series) :
  Forall (is_tenths_in lo hi) s ->
  is_numeric s = true
  /\ (lo * inject_Z (Z.of_nat (List.length s)) <= series_sum s)%Q
  /\ (series_sum s <= hi * inject_Z (Z.of_nat (List.length s)))%Q.
Proof.
  induction 1 as [|v s (q & t & -> & Hlo & Hhi & _) _ (IHn & IHlo & IHhi)].
  - cbn [List.length series_sum fold_right]. change (Z.of_nat 0) with 0.
    unfold inject_Z. repeat split; lra.
  - split; [exact IHn|].
    cbn [series_sum fold_right number List.length]. fold (series_sum s).
    rewrite Nat2Z.inj_succ. unfold Z.succ. rewrite inject_Z_plus.
    change (inject_Z 1) with 1%Q.
    split; lra.
Qed.

Lemma getitem_numeric_sum (df : DataFrame) name (s : Series) :
  getitem df name = Ok (ISeries s) -> is_numeric s = true ->
  column_sum df name = Ok (series_sum s).
Proof. intros Hg Hn. unfold column_sum. rewrite Hg. cbn. rewrite Hn. reflexivity. Qed.

(** X7.  The summary of a freshly generated sample never fails and never
    needs the guard: total earnings lie between 4500 and 17910, total hours
    between 180 and 630, the hourly rate is the plain quotient of the two
    and lies between 50/7 and 199/2, and the fourth metric is the earnings
    per mile, earnings divided by the sum of the miles. *)
Theorem X7_summary_of_sample (w : world) :
  exists (r : ref) (w' : world) (df : DataFrame) (s : summary) (miles per_mile : Q),
    load_sample_data w = (Ok r, w')
    /\ heap w' !! r = Some df
    /\ performance_summary df = Ok s
    /\ (4500 <= total_earnings s)%Q /\ (total_earnings s <= 17910)%Q
    /\ (180 <= total_hours s)%Q /\ (total_hours s <= 630)%Q
    /\ (avg_hourly_rate s == total_earnings s / total_hours s)%Q
    /\ (50 # 7 <= avg_hourly_rate s)%Q /\ (avg_hourly_rate s <= 199 # 2)%Q
    /\ column_sum df "miles" = Ok miles
    /\ fourth_metric s = inl per_mile
    /\ (per_mile == total_earnings s / miles)%Q.
Proof.
  destruct (sample_frame_cells (rng w))
    as (ds & es & hs & ps & ms & Hdata & _ & [Hle He] & [Hlh Hh] & _ & [Hlm Hm]).
  destruct (int_column_sum _ _ _ He) as (Hne & Helo & Hehi).
  destruct (int_column_sum _ _ _ Hh) as (Hnh & Hhlo & Hhhi).
  destruct (tenths_column_sum _ _ _ Hm) as (Hnm & Hmlo & Hmhi).
  rewrite Hle in Helo, Hehi. rewrite Hlh in Hhlo, Hhhi. rewrite Hlm in Hmlo, Hmhi.
  change (inject_Z (50 * Z.of_nat 90)) with 4500%Q in Helo.
  change (inject_Z (199 * Z.of_nat 90)) with 17910%Q in Hehi.
  change (inject_Z (2 * Z.of_nat 90)) with 180%Q in Hhlo.
  change (inject_Z (7 * Z.of_nat 90)) with 630%Q in Hhhi.
  change (inject_Z (Z.of_nat 90)) with 90%Q in Hmlo, Hmhi.
  set (df := sample_frame (rng w)) in *.
  assert (Hcols : columns df = ["date"; "earnings"; "hours"; "platform"; "miles"])
    by reflexivity.
  assert (Hge : getitem df "earnings" = Ok (ISeries es))
    by (unfold getitem; rewrite Hcols, Hdata; reflexivity).
  assert (Hgh : getitem df "hours" = Ok (ISeries hs))
    by (unfold getitem; rewrite Hcols, Hdata; reflexivity).
  assert (Hgm : getitem df "miles" = Ok (ISeries ms))
    by (unfold getitem; rewrite Hcols, Hdata; reflexivity).
  pose proof (getitem_numeric_sum _ _ _ Hge Hne) as Hse.
  pose proof (getitem_numeric_sum _ _ _ Hgh Hnh) as Hsh.
  pose proof (getitem_numeric_sum _ _ _ Hgm Hnm) as Hsm.
  set (e := series_sum es) in *. set (h := series_sum hs) in *.
  set (m := series_sum ms) in *. clearbody e h m.
  assert (Hmaxh : py_max 1 h = h) by (apply py_max_above; lra).
  assert (Hmaxm : py_max 1 m = m) by (apply py_max_above; lra).
  eexists _, _, df, (Summary e h (e / h)%Q (inl (e / m)%Q)), m, (e / m)%Q.
  split; [apply load_sample_data_eq|].
  split; [cbn [with_heap heap]; apply lookup_insert_eq|].
  split.
  { unfold performance_summary.
    rewrite (hourly_rate_value _ _ _ Hse Hsh), (mile_rate_value _ _ _ Hse Hsm).
    rewrite Hse, Hsh, Hmaxh, Hmaxm. unfold has_column. rewrite Hcols. reflexivity. }
  cbn [total_earnings total_hours avg_hourly_rate fourth_metric].
  assert (Hh0 : (0 < h)%Q) by lra.
  repeat split; try assumption; try reflexivity.
  - apply Qle_shift_div_l; [exact Hh0|]. lra.
  - apply Qle_shift_div_r; [exact Hh0|]. lra.
Qed.

(** ** The weekly trend of any table with dates *)

(** The points of the trend of a table whose date column holds dates
    only, validated or not. *)
Lemma weekly_trend_points (df : DataFrame) (ds es : Series) :
  getitem df "date" = Ok (ISeries ds) ->
  Forall (fun v => exists d, v = VDate d) ds ->
  getitem df "earnings" = Ok (ISeries es) ->
  is_numeric es = true ->
  weekly_trend df
  = Ok (combine (week_bins (valid_dates ds))
                (List.map (fun b => bin_sum b ds es) (week_bins (valid_dates ds)))).
Proof.
  intros Hd Hall He Hnum.
  unfold weekly_trend, resample_W_sum. rewrite Hd.
  cbn [mbind result_mbind result_bind].
  rewrite (all_dates_timestamps _ Hall).
  cbn [mbind result_mbind result_bind week_index week_columns week_sums].
  assert (Hsel : select "earnings" (columns df) (data df) = [es]).
  { unfold getitem in He.
    destruct (select "earnings" (columns df) (data df)) as [|c [|c' cs]];
      try discriminate. injection He as ->. reflexivity. }
  rewrite (week_column_found
             (fun cs => List.map (fun b => bin_sum b ds (snd cs))
                                 (week_bins (valid_dates ds)))
             "earnings" "date" _ _ es Hsel ltac:(discriminate) Hnum).
  reflexivity.
Qed.

Lemma bin_sum_no_rows (b : Z) (ds es : Series) :
  (forall d, In (VDate d) ds -> week_end d <> b) -> bin_sum b ds es = 0%Q.
Proof.
  revert es. induction ds as [|v ds IH]; intros [|x es] Hno; try reflexivity.
  cbn [bin_sum]. destruct v as [s|z|q| |d|]; cbn [date_of];
    try (apply IH; intros d' Hd'; apply Hno; right; exact Hd').
  destruct (Z.eqb_spec (week_end d) b) as [Heq|_].
  - destruct (Hno d (or_introl eq_refl) Heq).
  - apply IH. intros d' Hd'. apply Hno. right. exact Hd'.
Qed.

Lemma week_bins_shape (ds : list Z) :
  exists (lo : Z) (n : nat),
    week_bins ds = List.map (fun k => lo + 7 * Z.of_nat k) (seq 0 n)
    /\ weekday lo = 6.
Proof.
  destruct ds as [|d ds].
  - exists 3, O. split; reflexivity.
  - eexists _, _. split; [reflexivity|apply week_end_is_sunday].
Qed.

(** X8.  For every table whose date column holds dates only and whose
    earnings are numeric, the weekly trend exists; its points are dated on
    Sundays, each one seven days after the one before it; and a week in
    which no row falls is a point with total 0. *)
Theorem X8_weekly_trend_shape (df : DataFrame) (ds es : Series) :
  getitem df "date" = Ok (ISeries ds) ->
  Forall (fun v => exists d, v = VDate d) ds ->
  getitem df "earnings" = Ok (ISeries es) ->
  is_numeric es = true ->
  exists points : list (Z * Q),
    weekly_trend df = Ok points
    /\ (forall b q, In (b, q) points -> weekday b = 6)
    /\ (forall (i : nat) p p', points !! i = Some p -> points !! S i = Some p' ->
          fst p' = fst p + 7)
    /\ (forall b q, In (b, q) points ->
          (forall d, In (VDate d) ds -> week_end d <> b) -> q = 0%Q).
Proof.
  intros Hd Hall He Hnum.
  rewrite (weekly_trend_points df ds es Hd Hall He Hnum).
  destruct (week_bins_shape (valid_dates ds)) as (lo & n & Hbins & Hlo).
  rewrite Hbins. eexists. split; [reflexivity|].
  split; [|split].
  - intros b q Hin. apply List.in_combine_l, List.in_map_iff in Hin.
    destruct Hin as (k & <- & _). unfold weekday in *.
    replace (lo + 7 * Z.of_nat k + 3) with (lo + 3 + Z.of_nat k * 7) by lia.
    rewrite Z.mod_add by lia. exact Hlo.
  - intros i p p' Hp Hp'.
    assert (Hfst : forall (j : nat) x,
              combine (List.map (fun k => lo + 7 * Z.of_nat k) (seq 0 n))
                (List.map (fun b => bin_sum b ds es)
                   (List.map (fun k => lo + 7 * Z.of_nat k) (seq 0 n))) !! j = Some x ->
              fst x = lo + 7 * Z.of_nat j).
    { intros j x Hx.
      assert (Hj : List.map fst
                (combine (List.map (fun k => lo + 7 * Z.of_nat k) (seq 0 n))
                   (List.map (fun b => bin_sum b ds es)
                      (List.map (fun k => lo + 7 * Z.of_nat k) (seq 0 n)))) !! j
              = Some (fst x)).
      { change (List.map fst ?l) with (fst <$> l). rewrite list_lookup_fmap, Hx.
        reflexivity. }
      rewrite combine_map_fst in Hj.
      change (List.map ?f ?l) with (f <$> l) in Hj.
      rewrite list_lookup_fmap in Hj.
      destruct (seq 0 n !! j) as [k|] eqn:Hk; [|discriminate].
      apply lookup_seq in Hk. destruct Hk as [-> _].
      cbn in Hj. injection Hj as <-. f_equal. }
    rewrite (Hfst _ _ Hp), (Hfst _ _ Hp'). lia.
  - intros b q Hin Hno.
    rewrite (combine_map_in _ _ _ _ Hin). apply bin_sum_no_rows, Hno.
Qed.

Lemma X8_weekly_trend_shape_witness :
  getitem breakdown_example "date"
  = Ok (ISeries [VDate 19358; VDate 19359; VDate 19360])
  /\ exists points, weekly_trend breakdown_example = Ok points
                    /\ forall b q, In (b, q) points -> weekday b = 6.
Proof.
  split; [reflexivity|].
  destruct (X8_weekly_trend_shape breakdown_example
              [VDate 19358; VDate 19359; VDate 19360]
              [VInt 10; VInt 20; VInt 5] eq_refl) as (points & Ht & Hs & _).
  - repeat constructor; eexists; reflexivity.
  - reflexivity.
  - reflexivity.
  - exists points. split; [exact Ht|exact Hs].
Defined.

(** X9.  The sample, which goes to the charts without passing the
    validator, has a weekly trend of 14 points, one for every Sunday from
    2023-01-01 to 2023-04-02, and the totals of the 14 points add up to the
    sum of the earnings column. *)
Theorem X9_weekly_trend_of_sample (w : world) :
  exists (r : ref) (w' : world) (df : DataFrame) (es : Series)
         (points : list (Z * Q)),
    load_sample_data w = (Ok r, w')
    /\ heap w' !! r = Some df
    /\ getitem df "earnings" = Ok (ISeries es)
    /\ weekly_trend df = Ok points
    /\ List.map fst points = List.map (fun k => 19358 + 7 * Z.of_nat k) (seq 0 14)
    /\ civil_from_days 19358 = (2023, 1, 1)
    /\ civil_from_days (19358 + 7 * 13) = (2023, 4, 2)
    /\ (total (List.map snd points) == series_sum es)%Q.
Proof.
  destruct (sample_frame_cells (rng w))
    as (ds & es & hs & ps & ms & Hdata & Hds & [Hle He] & _).
  destruct (int_column_sum _ _ _ He) as (Hne & _ & _).
  set (df := sample_frame (rng w)) in *.
  assert (Hcols : columns df = ["date"; "earnings"; "hours"; "platform"; "miles"])
    by reflexivity.
  assert (Hge : getitem df "earnings" = Ok (ISeries es))
    by (unfold getitem; rewrite Hcols, Hdata; reflexivity).
  assert (Hgd : getitem df "date" = Ok (ISeries ds))
    by (unfold getitem; rewrite Hcols, Hdata; reflexivity).
  assert (Hall : Forall (fun v => exists d, v = VDate d) ds).
  { rewrite Hds. apply List.Forall_forall. intros v Hv.
    apply List.in_map_iff in Hv. destruct Hv as (i & <- & _). eexists. reflexivity. }
  assert (Hbins : week_bins (valid_dates ds)
                  = List.map (fun k => 19358 + 7 * Z.of_nat k) (seq 0 14)).
  { rewrite Hds. vm_compute. reflexivity. }
  eexists _, _, df, es, _.
  split; [apply load_sample_data_eq|].
  split; [cbn [with_heap heap]; apply lookup_insert_eq|].
  split; [exact Hge|].
  split; [apply (weekly_trend_points df ds es Hgd Hall Hge Hne)|].
  rewrite combine_map_fst, combine_map_snd.
  split; [exact Hbins|]. split; [reflexivity|]. split; [reflexivity|].
  apply bin_sums_total; [apply week_bins_NoDup| |].
  - rewrite Hds, Hle, List.length_map, List.length_seq. reflexivity.
  - intros v Hv. destruct (proj1 (List.Forall_forall _ _) Hall v Hv) as [d ->].
    exists d. split; [reflexivity|]. apply week_bins_cover, valid_dates_in, Hv.
Qed.

(** ** Column labels *)

Lemma string_rev_app_twice (s acc acc' : string) :
  string_rev_app (string_rev_app s acc) acc' = string_rev_app acc (s ++ acc').
Proof.
  revert acc acc'. induction s as [|c s IH]; intros acc acc'; [reflexivity|].
  cbn [string_rev_app]. rewrite IH, app_String. reflexivity.
Qed.

Lemma string_rev_involutive (s : string) : string_rev (string_rev s) = s.
Proof.
  unfold string_rev. rewrite string_rev_app_twice. cbn [string_rev_app].
  apply string_app_nil_r.
Qed.

Lemma string_rev_app_spec (s acc : string) :
  string_rev_app s acc = string_rev s ++ acc.
Proof.
  unfold string_rev. revert acc. induction s as [|c s IH]; intros acc; [reflexivity|].
  cbn [string_rev_app]. rewrite IH, (IH (String c "")), string_app_assoc.
  reflexivity.
Qed.

Lemma string_rev_app_distr (s t : string) :
  string_rev (s ++ t) = string_rev t ++ string_rev s.
Proof.
  induction s as [|c s IH].
  - symmetry. apply string_app_nil_r.
  - rewrite app_String. unfold string_rev at 1 3. cbn [string_rev_app].
    rewrite !(string_rev_app_spec _ (String c "")), IH. apply string_app_assoc.
Qed.

Lemma string_map_rev_app (f : ascii -> ascii) (s acc : string) :
  string_map f (string_rev_app s acc)
  = string_rev_app (string_map f s) (string_map f acc).
Proof.
  revert acc. induction s as [|c s IH]; intros acc; [reflexivity|].
  cbn [string_rev_app string_map]. apply IH.
Qed.

Lemma string_map_rev (f : ascii -> ascii) (s : string) :
  string_map f (string_rev s) = string_rev (string_map f s).
Proof. apply string_map_rev_app. Qed.

Lemma lstrip_fixed (s : string) :
  lstrip s = s <-> head_kept s.
Proof.
  destruct s as [|c s]; [split; [intros _; exact I|reflexivity]|].
  cbn [lstrip head_kept]. destruct (is_space c) eqn:Hc.
  - split; [|discriminate]. intros H.
    assert (Hlen : (String.length (lstrip s) <= String.length s)%nat).
    { clear. induction s as [|c s IH]; [reflexivity|].
      cbn [lstrip]. destruct (is_space c); cbn [String.length]; lia. }
    rewrite H in Hlen. cbn [String.length] in Hlen. lia.
  - split; reflexivity.
Qed.

Lemma lstrip_head_kept (s : string) : head_kept (lstrip s).
Proof.
  induction s as [|c s IH]; [exact I|].
  cbn [lstrip]. destruct (is_space c) eqn:Hc; [exact IH|exact Hc].
Qed.

Lemma lstrip_split (s : string) : exists x, s = x ++ lstrip s.
Proof.
  induction s as [|c s [x IH]]; [exists ""; reflexivity|].
  cbn [lstrip]. destruct (is_space c).
  - exists (String c x). rewrite app_String, <- IH. reflexivity.
  - exists "". reflexivity.
Qed.

Lemma head_kept_app (a b : string) : head_kept (a ++ b) -> head_kept a.
Proof. destruct a as [|c a]; [intros _; exact I|]. rewrite app_String. exact id. Qed.

Lemma trimmed_fixed (s : string) : trimmed s -> strip s = s.
Proof.
  intros [Hl Hr]. unfold strip, rstrip.
  rewrite (proj2 (lstrip_fixed s) Hl), (proj2 (lstrip_fixed _) Hr).
  apply string_rev_involutive.
Qed.

Lemma strip_trimmed (s : string) : trimmed (strip s).
Proof.
  unfold strip, rstrip, trimmed.
  set (t := lstrip s).
  assert (Ht : head_kept t) by apply lstrip_head_kept.
  destruct (lstrip_split (string_rev t)) as [x Hx].
  set (u := lstrip (string_rev t)) in *.
  split.
  - apply (head_kept_app _ (string_rev x)).
    rewrite <- string_rev_app_distr, <- Hx, string_rev_involutive. exact Ht.
  - rewrite string_rev_involutive. apply lstrip_head_kept.
Qed.

Lemma trimmed_map (f : ascii -> ascii) (s : string) :
  (forall c, is_space c = false -> is_space (f c) = false) ->
  trimmed s -> trimmed (string_map f s).
Proof.
  intros Hf.
  assert (Hh : forall t, head_kept t -> head_kept (string_map f t)).
  { intros [|c t]; [exact id|]. cbn [head_kept string_map]. apply Hf. }
  intros [Hl Hr]. split; [apply Hh, Hl|].
  rewrite <- string_map_rev. apply Hh, Hr.
Qed.

Lemma replace_from_char (fuel : nat) (c : ascii) (new s : string) :
  (String.length s <= fuel)%nat ->
  replace_from fuel (String c "") new s
  = concat_all (List.map (fun x => if Ascii.eqb c x then new else String x "")
                         (list_ascii_of_string s)).
Proof.
  revert s. induction fuel as [|fuel IH]; intros [|x s] Hlen;
    cbn [String.length] in Hlen; try reflexivity; try lia.
  cbn [replace_from list_ascii_of_string List.map concat_all String.prefix
       String.length skip].
  destruct (Ascii.eqb_spec c x) as [->|Hne].
  - destruct (ascii_dec x x) as [_|[]]; [|reflexivity].
    assert (Hp : String.prefix "" s = true) by (destruct s; reflexivity).
    rewrite Hp, IH by lia. reflexivity.
  - destruct (ascii_dec c x) as [->|_]; [destruct Hne; reflexivity|].
    rewrite IH by lia. rewrite app_String. reflexivity.
Qed.

Lemma underscore_for_space (s : string) :
  replace " " "_" s = string_map underscore s.
Proof.
  unfold replace. rewrite replace_from_char by reflexivity.
  induction s as [|x s IH]; [reflexivity|].
  cbn [list_ascii_of_string List.map concat_all string_map]. rewrite IH.
  unfold underscore at 2. destruct (Ascii.eqb " " x) eqn:Hx.
  - apply Ascii.eqb_eq in Hx. subst x. reflexivity.
  - rewrite Ascii.eqb_sym, Hx. reflexivity.
Qed.

Lemma every_char (P : ascii -> Prop) :
  (forall b0 b1 b2 b3 b4 b5 b6 b7 : bool, P (Ascii b0 b1 b2 b3 b4 b5 b6 b7)) ->
  forall c, P c.
Proof. intros H [b0 b1 b2 b3 b4 b5 b6 b7]. apply H. Qed.

Lemma label_char_facts (c : ascii) :
  underscore (lower_char (underscore (lower_char c))) = underscore (lower_char c)
  /\ (is_space c = false -> is_space (lower_char c) = false)
  /\ (is_space c = false -> is_space (underscore c) = false)
  /\ is_upper (underscore (lower_char c)) = false
  /\ Ascii.eqb (underscore (lower_char c)) " " = false.
Proof.
  revert c. apply every_char.
  intros [] [] [] [] [] [] [] []; vm_compute; repeat split; intros; congruence.
Qed.

Lemma normalize_column_eq (col : string) :
  normalize_column col = string_map underscore (string_map lower_char (strip col)).
Proof. unfold normalize_column, lower. apply underscore_for_space. Qed.

Lemma normalize_column_trimmed (col : string) : trimmed (normalize_column col).
Proof.
  rewrite normalize_column_eq.
  apply trimmed_map; [intros c; apply label_char_facts|].
  apply trimmed_map; [intros c; apply label_char_facts|].
  apply strip_trimmed.
Qed.

Lemma normalize_column_twice (col : string) :
  normalize_column (normalize_column col) = normalize_column col.
Proof.
  rewrite (normalize_column_eq (normalize_column col)).
  rewrite (trimmed_fixed _ (normalize_column_trimmed col)).
  rewrite normalize_column_eq.
  induction (strip col) as [|c s IH]; [reflexivity|].
  cbn [string_map]. rewrite IH.
  rewrite (proj1 (label_char_facts c)). reflexivity.
Qed.

Lemma normalize_header_twice (cols : list string) :
  List.map normalize_column (List.map normalize_column cols)
  = List.map normalize_column cols.
Proof.
  rewrite List.map_map. apply List.map_ext. intros col.
  apply normalize_column_twice.
Qed.

(** X10.  Normalising a column label twice gives what normalising it once
    gives, for every label; hence the same holds for a whole header. *)
Theorem X10_normalize_column_idempotent :
  (forall col : string,
     normalize_column (normalize_column col) = normalize_column col)
  /\ (forall cols : list string,
        List.map normalize_column (List.map normalize_column cols)
        = List.map normalize_column cols).
Proof.
  split; [exact normalize_column_twice|exact normalize_header_twice].
Qed.

(** X11.  A label that is ASCII text, once normalised, has no white space
    at either end and holds no space and no upper-case letter. *)
Theorem X11_normalized_label_shape (col : string) :
  strip (normalize_column col) = normalize_column col
  /\ any_char (fun c => Ascii.eqb c " " || is_upper c) (normalize_column col) = false.
Proof.
  split; [apply trimmed_fixed, normalize_column_trimmed|].
  rewrite normalize_column_eq.
  induction (strip col) as [|c s IH]; [reflexivity|].
  cbn [string_map any_char].
  destruct (label_char_facts c) as (_ & _ & _ & Hu & Hs).
  rewrite Hs, Hu, IH. reflexivity.
Qed.

(** ** Validating a table that was accepted before *)

Lemma assign_twice name s cols cs :
  assign name s cols (assign name s cols cs) = assign name s cols cs.
Proof.
  revert cs. induction cols as [|c cols IH]; intros [|old cs]; try reflexivity.
  cbn [assign]. rewrite IH. destruct (String.eqb c name); reflexivity.
Qed.

Lemma frame_eta (df : DataFrame) : Frame (columns df) (data df) = df.
Proof. destruct df; reflexivity. Qed.

Lemma accepted_is_chartable co df df' :
  verdict_of co df = Accepted df' -> chartable df'.
Proof.
  unfold verdict_of, verdict_of_with. fold relabelled missing_fields.
  destruct (decide (missing_fields df = ∅)) as [Hm|]; [|discriminate].
  destruct (getitem (relabelled df) "date") as [[col|fr]|e] eqn:Hd;
    try discriminate.
  destruct (existsb isnull (to_datetime_series co col)) eqn:Hn; [discriminate|].
  intros [= <-]. split.
  - intros f Hf. rewrite (proj1 (setitem_date_effect _ _ _ Hd)).
    apply (proj1 (missing_fields_empty df) Hm f Hf).
  - exists (to_datetime_series co col).
    split; [apply (getitem_setitem _ _ _ _ Hd)|apply no_null_all_dates, Hn].
Qed.

Lemma accepted_fixed co co' df df' :
  verdict_of co df = Accepted df' -> verdict_of co' df' = Accepted df'.
Proof.
  intros H. unfold verdict_of, verdict_of_with in H.
  fold relabelled missing_fields in H.
  destruct (decide (missing_fields df = ∅)) as [Hm|]; [|discriminate].
  destruct (getitem (relabelled df) "date") as [[col|fr]|e] eqn:Hd;
    try discriminate.
  destruct (existsb isnull (to_datetime_series co col)) eqn:Hn; [discriminate|].
  injection H as <-.
  set (s := to_datetime_series co col) in *.
  set (df' := setitem (relabelled df) "date" s).
  assert (Hcols : columns df' = List.map normalize_column (columns df))
    by apply (setitem_date_effect _ _ _ Hd).
  assert (Hrel : relabelled df' = df').
  { unfold relabelled, relabelled_with. rewrite Hcols, normalize_header_twice, <- Hcols.
    apply frame_eta. }
  assert (Hmiss : missing_fields df' = ∅).
  { unfold missing_fields, missing_fields_with. fold relabelled.
    rewrite Hrel, Hcols. exact Hm. }
  assert (Hget : getitem df' "date" = Ok (ISeries s))
    by apply (getitem_setitem _ _ _ _ Hd).
  assert (Hts : to_datetime_series co' s = s).
  { unfold to_datetime_series.
    rewrite (all_dates_timestamps s (no_null_all_dates _ _ Hn)). reflexivity. }
  assert (Hset : setitem df' "date" s = df').
  { unfold getitem in Hd.
    destruct (select "date" (columns (relabelled df)) (data (relabelled df)))
      as [|c0 cs0] eqn:Hsel; [discriminate|].
    pose proof (select_nonempty _ _ _ _ _ Hsel) as Hex.
    unfold df', setitem. rewrite Hex. cbn [columns data]. rewrite Hex.
    rewrite assign_twice. reflexivity. }
  unfold verdict_of, verdict_of_with. fold relabelled missing_fields.
  rewrite Hrel.
  destruct (decide (missing_fields df' = ∅)) as [_|Hne]; [|destruct (Hne Hmiss)].
  rewrite Hget, Hts, Hn, Hset. reflexivity.
Qed.

(** X12.  Validating again a table that the validator has accepted accepts
    it again and changes nothing, neither in the table nor on the page,
    whatever the library does with date columns it cannot read as ISO
    text. *)
Theorem X12_validation_is_idempotent
  (co co' : Series -> nat -> option Z) (r : ref) (df : DataFrame) (w w1 : world) :
  heap w !! r = Some df ->
  validate_data co r w = (Ok (Some r), w1) ->
  validate_data co' r w1 = (Ok (Some r), w1).
Proof.
  intros Hr Hrun. rewrite (validate_data_run co r df w Hr) in Hrun.
  destruct (verdict_of co df) as [df'|df' msg] eqn:Hv; [|discriminate].
  injection Hrun as <-. cbn [world_after].
  rewrite (validate_data_run co' r df'); [|apply lookup_insert_eq].
  rewrite (accepted_fixed _ co' _ _ Hv).
  cbn [returned world_after with_heap heap page messages rng session_data].
  rewrite insert_insert_eq. reflexivity.
Qed.

Lemma X12_validation_is_idempotent_witness :
  exists w1,
    validate_data iso_only 1%positive (world_with good_upload)
    = (Ok (Some 1%positive), w1)
    /\ validate_data (fun _ _ => Some 0) 1%positive w1 = (Ok (Some 1%positive), w1).
Proof.
  eexists. split.
  - apply (validate_data_run iso_only 1%positive good_upload
             (world_with good_upload) eq_refl).
  - apply (X12_validation_is_idempotent iso_only (fun _ _ => Some 0) 1%positive
             good_upload (world_with good_upload) _ eq_refl).
    apply (validate_data_run iso_only 1%positive good_upload
             (world_with good_upload) eq_refl).
Defined.

(** ** The handler of "Load Data" *)

Lemma sample_frame_chartable (g : RandomState) : chartable (sample_frame g).
Proof.
  destruct (sample_frame_cells g) as (ds & es & hs & ps & ms & Hdata & Hds & _).
  split.
  - intros f Hf. unfold required in Hf.
    rewrite !elem_of_union, !elem_of_singleton in Hf.
    destruct Hf as [[[->| ->]| ->]| ->]; cbn; auto.
  - exists ds. split.
    + unfold getitem.
      change (columns (sample_frame g))
        with ["date"; "earnings"; "hours"; "platform"; "miles"].
      rewrite Hdata. reflexivity.
    + rewrite Hds. apply List.Forall_forall. intros v Hv.
      apply List.in_map_iff in Hv. destruct Hv as (i & <- & _).
      eexists. reflexivity.
Qed.

(** Every way a press of "Load Data" can go. *)
Lemma on_load_data_run co (use_sample : bool) (uploaded_file : option string)
  (w : world) :
  exists w',
    on_load_data co use_sample uploaded_file w = (Ok tt, w')
    /\ messages w' = messages w
    /\ (forall r df, heap w !! r = Some df -> heap w' !! r = Some df)
    /\ ((exists r df msg,
           heap w !! r = None /\ heap w' !! r = Some df /\ chartable df
           /\ session_data w' = Some r
           /\ page w' = app (page w) [st_success msg])
        \/ (session_data w' = session_data w
            /\ exists msg, page w' = app (page w) [st_error msg]
                           \/ page w' = app (page w) [st_warning msg]))
    /\ (use_sample = true ->
        exists r, session_data w' = Some r
                  /\ page w' = app (page w) [st_success "Sample data loaded!"])
    /\ (use_sample = false -> uploaded_file = None ->
        heap w' = heap w
        /\ page w' = app (page w) [st_warning "Please upload a file or use sample data"]).
Proof.
  destruct use_sample.
  - pose proof (load_sample_data_eq w) as Hload.
    pose proof (fresh_is_unused (heap w)) as Hfresh.
    set (r0 := fresh (dom (heap w))) in *.
    set (w1 := with_heap (<[r0 := sample_frame (rng w)]> (heap w))
                 (with_rng (Rng (raw (rng w)) (consumed (rng w) + 360)) w)) in *.
    assert (H1 : heap w1 = <[r0 := sample_frame (rng w)]> (heap w)) by reflexivity.
    assert (H2 : page w1 = page w) by reflexivity.
    assert (H3 : messages w1 = messages w) by reflexivity.
    clearbody w1 r0.
    exists (with_page (page w1 ++ [st_success "Sample data loaded!"])
              (with_session_data (Some r0) w1)).
    split.
    { unfold on_load_data, try_except.
      rewrite (bind_ok _ _ _ _ _ Hload). reflexivity. }
    cbn [with_page with_session_data heap page messages session_data].
    rewrite H1, H2, H3.
    split; [reflexivity|]. split.
    { intros r df Hr. rewrite lookup_insert_ne; [exact Hr|]. congruence. }
    split.
    { left. exists r0, (sample_frame (rng w)), "Sample data loaded!".
      split; [exact Hfresh|]. split; [apply lookup_insert_eq|].
      split; [apply sample_frame_chartable|]. split; reflexivity. }
    split; [intros _; exists r0; split; reflexivity|discriminate].
  - destruct uploaded_file as [text|].
    + destruct (read_csv text) as [table|e] eqn:Hread.
      * pose proof (fresh_is_unused (heap w)) as Hfresh.
        set (r' := fresh (dom (heap w))) in *.
        set (w2 := with_heap (<[r' := table]> (heap w)) w).
        assert (Hr' : heap w2 !! r' = Some table) by apply lookup_insert_eq.
        pose proof (validate_data_run co r' table w2 Hr') as Hcheck.
        destruct (verdict_of co table) as [df'|df' msg] eqn:Hv.
        -- exists (with_page (page w ++ [st_success "Data loaded successfully!"])
                     (with_session_data (Some r')
                        (with_heap (<[r' := df']> (heap w2)) w2))).
           split.
           { unfold on_load_data, try_except.
             rewrite Hread, lift_bind, alloc_bind. fold r'. fold w2.
             rewrite (bind_ok _ _ _ _ _ Hcheck). reflexivity. }
           cbn [with_page with_session_data with_heap heap page messages
                session_data w2].
           split; [reflexivity|]. split.
           { intros r df Hr. rewrite !lookup_insert_ne; [exact Hr|congruence..]. }
           split.
           { left. exists r', df', "Data loaded successfully!".
             split; [exact Hfresh|]. split; [apply lookup_insert_eq|].
             split; [apply (accepted_is_chartable _ _ _ Hv)|]. split; reflexivity. }
           split; discriminate.
        -- exists (with_page (page w ++ [st_error ("Data validation error: " ++ msg)])
                     (with_heap (<[r' := df']> (heap w2)) w2)).
           split.
           { unfold on_load_data, try_except.
             rewrite Hread, lift_bind, alloc_bind. fold r'. fold w2.
             rewrite (bind_ok _ _ _ _ _ Hcheck). reflexivity. }
           cbn [with_page with_session_data with_heap heap page messages
                session_data w2].
           split; [reflexivity|]. split.
           { intros r df Hr. rewrite !lookup_insert_ne; [exact Hr|congruence..]. }
           split.
           { right. split; [reflexivity|]. eexists. left. reflexivity. }
           split; discriminate.
      * exists (with_page (page w ++ [st_error ("Error loading data: " ++ str e)]) w).
        split.
        { unfold on_load_data, try_except. rewrite Hread. reflexivity. }
        cbn [with_page heap page messages session_data].
        split; [reflexivity|]. split; [intros r df Hr; exact Hr|].
        split.
        { right. split; [reflexivity|]. eexists. left. reflexivity. }
        split; discriminate.
    + exists (with_page (page w ++ [st_warning "Please upload a file or use sample data"]) w).
      split; [reflexivity|].
      cbn [with_page heap page messages session_data].
      split; [reflexivity|]. split; [intros r df Hr; exact Hr|].
      split.
      { right. split; [reflexivity|]. eexists. right. reflexivity. }
      split; [discriminate|]. intros _ _. split; reflexivity.
Qed.

(** X13.  A press of "Load Data" never lets an exception out and adds
    exactly one message to the page.  Either the message is a success and
    the session then holds a table that did not exist before, with the
    required columns and a date column of dates; or the message is an error
    or a warning and the session data is what it was.  The chat and every
    table that existed before are left alone.  With the box ticked the
    sample is loaded whatever was uploaded; with nothing ticked and nothing
    uploaded the only effect is the warning. *)
Theorem X13_load_data_outcomes (co : Series -> nat -> option Z)
  (use_sample : bool) (uploaded_file : option string) (w : world) :
  exists w',
    on_load_data co use_sample uploaded_file w = (Ok tt, w')
    /\ messages w' = messages w
    /\ (forall r df, heap w !! r = Some df -> heap w' !! r = Some df)
    /\ ((exists r df msg,
           heap w !! r = None /\ heap w' !! r = Some df /\ chartable df
           /\ session_data w' = Some r
           /\ page w' = app (page w) [st_success msg])
        \/ (session_data w' = session_data w
            /\ exists msg, page w' = app (page w) [st_error msg]
                           \/ page w' = app (page w) [st_warning msg]))
    /\ (use_sample = true ->
        exists r, session_data w' = Some r
                  /\ page w' = app (page w) [st_success "Sample data loaded!"])
    /\ (use_sample = false -> uploaded_file = None ->
        heap w' = heap w
        /\ page w' = app (page w) [st_warning "Please upload a file or use sample data"]).
Proof. exact (on_load_data_run co use_sample uploaded_file w). Qed.

(** X14.  If the session data is nothing or a table the charts can take
    (required columns, dates only in the date column), it is so again after
    any press of "Load Data", successful or not. *)
Theorem X14_session_stays_chartable (co : Series -> nat -> option Z)
  (use_sample : bool) (uploaded_file : option string) (w : world) :
  session_ok w ->
  exists w', on_load_data co use_sample uploaded_file w = (Ok tt, w')
             /\ session_ok w'.
Proof.
  intros Hok.
  destruct (on_load_data_run co use_sample uploaded_file w)
    as (w' & Hrun & _ & Hkeep & Hcases & _).
  exists w'. split; [exact Hrun|]. unfold session_ok in *.
  destruct Hcases as [(r & df & msg & _ & Hr & Hc & -> & _)|[-> _]].
  - exists df. split; assumption.
  - destruct (session_data w) as [r|]; [|exact I].
    destruct Hok as (df & Hr & Hc). exists df. split; [apply Hkeep, Hr|exact Hc].
Qed.

Lemma X14_session_stays_chartable_witness :
  session_data (with_session_data (Some 1%positive) (world_with breakdown_example))
  = Some 1%positive
  /\ session_ok (with_session_data (Some 1%positive) (world_with breakdown_example))
  /\ exists w',
       on_load_data iso_only false
         (Some ("date,platform,hours,earnings" ++ newline
                ++ "2023-01-09,Lyft,4,40" ++ newline))
         (with_session_data (Some 1%positive) (world_with breakdown_example))
       = (Ok tt, w')
       /\ session_ok w'
       /\ session_data w' = Some 2%positive
       /\ page w' = [st_success "Data loaded successfully!"].
Proof.
  assert (Hok : session_ok (with_session_data (Some 1%positive)
                              (world_with breakdown_example))).
  { exists breakdown_example. split; [reflexivity|]. split.
    - intros f Hf. unfold required in Hf.
      rewrite !elem_of_union, !elem_of_singleton in Hf.
      destruct Hf as [[[->| ->]| ->]| ->]; cbn; auto.
    - exists [VDate 19358; VDate 19359; VDate 19360]. split; [reflexivity|].
      repeat constructor; eexists; reflexivity. }
  split; [reflexivity|]. split; [exact Hok|].
  destruct (X14_session_stays_chartable iso_only false
              (Some ("date,platform,hours,earnings" ++ newline
                     ++ "2023-01-09,Lyft,4,40" ++ newline))
              (with_session_data (Some 1%positive) (world_with breakdown_example))
              Hok) as (w' & Hrun & Hok').
  exists w'. split; [exact Hrun|]. split; [exact Hok'|].
  assert (Hsnd : snd (on_load_data iso_only false
                        (Some ("date,platform,hours,earnings" ++ newline
                               ++ "2023-01-09,Lyft,4,40" ++ newline))
                        (with_session_data (Some 1%positive)
                           (world_with breakdown_example))) = w')
    by (rewrite Hrun; reflexivity).
  rewrite <- Hsnd. split; vm_compute; reflexivity.
Defined.

(** ** What [display_recommendations] puts on the page *)

Lemma chars_app (a b : string) :
  list_ascii_of_string (a ++ b)
  = (list_ascii_of_string a ++ list_ascii_of_string b)%list.
Proof.
  induction a as [|c a IH]; [reflexivity|].
  rewrite app_String. cbn [list_ascii_of_string]. rewrite IH. reflexivity.
Qed.

Lemma concat_all_app (l1 l2 : list string) :
  concat_all (l1 ++ l2) = concat_all l1 ++ concat_all l2.
Proof.
  induction l1 as [|s l1 IH]; [reflexivity|].
  cbn [concat_all app]. rewrite IH, string_app_assoc. reflexivity.
Qed.

Lemma concat_all_chars (s : string) :
  concat_all (List.map (fun c => String c "") (list_ascii_of_string s)) = s.
Proof.
  induction s as [|c s IH]; [reflexivity|].
  cbn [list_ascii_of_string List.map concat_all]. rewrite IH. reflexivity.
Qed.

Lemma skip_chars (n : nat) (s : string) (c : ascii) :
  In c (list_ascii_of_string (skip n s)) -> In c (list_ascii_of_string s).
Proof.
  revert s. induction n as [|n IH]; intros [|x s] H; try exact H.
  right. apply IH, H.
Qed.

(** [replace] puts [new] in some places and keeps characters of the text
    in the others. *)
Lemma replace_from_pieces (fuel : nat) (old new s : string) :
  exists pieces,
    replace_from fuel old new s = concat_all pieces
    /\ Forall (fun p => p = new
                        \/ exists c, p = String c ""
                                     /\ In c (list_ascii_of_string s)) pieces.
Proof.
  revert s. induction fuel as [|fuel IH]; intros s.
  - exists (List.map (fun c => String c "") (list_ascii_of_string s)).
    split; [destruct s; symmetry; apply concat_all_chars|].
    apply List.Forall_forall. intros p Hp. apply List.in_map_iff in Hp.
    destruct Hp as (c & <- & Hc). right. exists c. split; [reflexivity|exact Hc].
  - destruct s as [|x s]; [exists []; split; [reflexivity|constructor]|].
    cbn [replace_from]. destruct (String.prefix old (String x s)).
    + destruct (IH (skip (String.length old) (String x s))) as (ps & -> & Hps).
      exists (new :: ps). split; [reflexivity|]. constructor; [left; reflexivity|].
      eapply List.Forall_impl; [|exact Hps].
      intros p [->|(c & -> & Hc)]; [left; reflexivity|].
      right. exists c. split; [reflexivity|]. apply (skip_chars _ _ _ Hc).
    + destruct (IH s) as (ps & -> & Hps).
      exists (String x "" :: ps). split; [reflexivity|].
      constructor; [right; exists x; split; [reflexivity|left; reflexivity]|].
      eapply List.Forall_impl; [|exact Hps].
      intros p [->|(c & -> & Hc)]; [left; reflexivity|].
      right. exists c. split; [reflexivity|right; exact Hc].
Qed.

Lemma html_escape_chars (s : string) :
  Forall (fun c => inert c = true \/ c = ascii_of_nat 10)
         (list_ascii_of_string (html_escape s)).
Proof.
  induction s as [|c s IH]; [constructor|].
  cbn [html_escape]. rewrite chars_app. apply List.Forall_app. split; [|exact IH].
  destruct (Ascii.eqb c "&") eqn:H1;
    [repeat constructor; left; reflexivity|].
  destruct (Ascii.eqb c "<") eqn:H2;
    [repeat constructor; left; reflexivity|].
  destruct (Ascii.eqb c ">") eqn:H3;
    [repeat constructor; left; reflexivity|].
  destruct (Ascii.eqb c (ascii_of_nat 34)) eqn:H4;
    [repeat constructor; left; reflexivity|].
  destruct (Ascii.eqb c "'") eqn:H5;
    [repeat constructor; left; reflexivity|].
  constructor; [|constructor].
  unfold inert. rewrite H2, H3, H4, H5. cbn [orb].
  destruct (Ascii.eqb_spec c (ascii_of_nat 10)) as [->|_];
    [right; reflexivity|left; reflexivity].
Qed.

Lemma breaks_for_line_feeds (pieces : list string) :
  Forall (fun p => p = "<br>• "
                   \/ exists c, p = String c ""
                                /\ (inert c = true \/ c = ascii_of_nat 10)) pieces ->
  exists pieces',
    replace newline "<br>" (concat_all pieces) = concat_all pieces'
    /\ Forall break_or_inert pieces'.
Proof.
  intros Hall. unfold replace, newline.
  rewrite replace_from_char by reflexivity.
  induction Hall as [|p ps Hp _ (ps' & IH & Hps')]; [exists []; split; [reflexivity|constructor]|].
  cbn [concat_all]. rewrite chars_app, List.map_app, concat_all_app, IH.
  destruct Hp as [->|(c & -> & Hc)].
  - exists ("<br>• " :: ps'). split; [reflexivity|].
    constructor; [right; left; reflexivity|exact Hps'].
  - cbn [list_ascii_of_string List.map concat_all].
    destruct (Ascii.eqb_spec (ascii_of_nat 10) c) as [<-|Hne].
    + exists ("<br>" :: ps'). split; [reflexivity|].
      constructor; [left; reflexivity|exact Hps'].
    + exists (String c "" :: ps'). split; [reflexivity|].
      constructor; [|exact Hps']. right. right. exists c. split; [reflexivity|].
      destruct Hc as [Hc| ->]; [exact Hc|destruct Hne; reflexivity].
Qed.

(** The advice as it goes into the page. *)
Lemma formatted_advice_pieces (advice : string) :
  exists pieces,
    replace newline "<br>"
      (replace (newline ++ "- ") "<br>• " (html_escape advice))
    = concat_all pieces
    /\ Forall break_or_inert pieces.
Proof.
  unfold replace at 2.
  destruct (replace_from_pieces (String.length (html_escape advice))
              (newline ++ "- ") "<br>• " (html_escape advice))
    as (ps & -> & Hps).
  apply breaks_for_line_feeds.
  eapply List.Forall_impl; [|exact Hps].
  intros p [->|(c & -> & Hc)]; [left; reflexivity|].
  right. exists c. split; [reflexivity|].
  apply (proj1 (List.Forall_forall _ _) (html_escape_chars advice) c Hc).
Qed.

(** X15.  Advice that does not start with "Error" is put on the page as
    one markdown element, in which the advice itself has become a sequence
    of line breaks ([<br>] or [<br>] with a bullet) and of single characters
    none of which is [<], [>], a quote or a line feed: whatever the model
    wrote, it adds no tag of its own to the page.  Nothing else changes. *)
Theorem X15_advice_adds_no_markup (advice : string) (w : world) :
  startswith advice "Error" = false ->
  exists pieces,
    display_recommendations advice w
    = (Ok tt,
       with_page
         (app (page w)
            [st_markdown
               ("<div class='recommendation-box'>" ++
                "<h3 class='recommendation-header'>📊 Your Personalized Recommendations</h3>" ++
                "<div class='recommendation-content'>" ++ concat_all pieces ++ "</div>" ++
                "</div>")]) w)
    /\ Forall break_or_inert pieces.
Proof.
  intros Hs. destruct (formatted_advice_pieces advice) as (ps & Heq & Hps).
  exists ps. split; [|exact Hps].
  unfold display_recommendations. rewrite Hs, Heq. reflexivity.
Qed.

Lemma X15_advice_adds_no_markup_witness :
  exists pieces,
    display_recommendations "<b>Drive</b>" (empty_world stride_rng)
    = (Ok tt,
       with_page
         (app (page (empty_world stride_rng))
            [st_markdown
               ("<div class='recommendation-box'>" ++
                "<h3 class='recommendation-header'>📊 Your Personalized Recommendations</h3>" ++
                "<div class='recommendation-content'>" ++ concat_all pieces ++ "</div>" ++
                "</div>")]) (empty_world stride_rng))
    /\ Forall break_or_inert pieces.
Proof.
  apply (X15_advice_adds_no_markup "<b>Drive</b>" (empty_world stride_rng)).
  reflexivity.
Defined.

(** ** The breakdown of the sample *)

Lemma rows_with_key_in {A} (k : group_key) (keys : Series) (rows : list A) x :
  In x (rows_with_key k keys rows) ->
  In x rows /\ exists key, In key keys /\ key_of key = Some k.
Proof.
  unfold rows_with_key. intros H. apply List.in_map_iff in H.
  destruct H as ([key y] & Hy & Hin). cbn [snd] in Hy. subst y.
  apply List.filter_In in Hin. destruct Hin as [Hin Hk].
  apply bool_decide_eq_true in Hk. cbn [fst] in Hk.
  split; [apply (List.in_combine_r _ _ _ _ Hin)|].
  exists key. split; [apply (List.in_combine_l _ _ _ _ Hin)|exact Hk].
Qed.

Lemma int_column_count lo hi (s : Series) :
  Forall (is_int_in lo hi) s -> series_count s = List.length s.
Proof.
  unfold series_count. induction 1 as [|v s (z & -> & _) _ IH]; [reflexivity|].
  cbn [List.filter isnull negb List.length]. rewrite IH. reflexivity.
Qed.

Lemma int_column_mean lo hi (s : Series) :
  s <> [] -> Forall (is_int_in lo hi) s ->
  exists q, series_mean s = Some q
            /\ (inject_Z lo <= q)%Q /\ (q <= inject_Z hi)%Q.
Proof.
  intros Hne Hall. unfold series_mean.
  rewrite (int_column_count _ _ _ Hall).
  destruct (int_column_sum _ _ _ Hall) as (_ & Hlo & Hhi).
  destruct s as [|v s]; [destruct (Hne eq_refl)|].
  cbn [List.length] in *. eexists. split; [reflexivity|].
  set (n := Z.of_nat (S (List.length s))) in *.
  assert (Hn : (0 < inject_Z n)%Q).
  { unfold n, Qlt, inject_Z. cbn [Qnum Qden]. lia. }
  clearbody n.
  rewrite inject_Z_mult in Hlo, Hhi. split.
  - apply Qle_shift_div_l; assumption.
  - apply Qle_shift_div_r; assumption.
Qed.

(** X16.  The per-platform breakdown of every generated sample is
    computed without an error and is not empty; it has entries for Uber,
    DoorDash and Lyft only, and in every entry the mean of the earnings
    lies between 50 and 199 and the mean of the hours between 2 and 7. *)
Theorem X16_breakdown_of_sample (w : world) :
  exists (r : ref) (w' : world) (df : DataFrame) (m : gmap group_key stats),
    load_sample_data w = (Ok r, w')
    /\ heap w' !! r = Some df
    /\ platform_stats df = Ok m
    /\ m <> ∅
    /\ forall (k : group_key) (st : stats),
         m !! k = Some st ->
         (exists label, k = inl (inl label) /\ In label platforms)
         /\ (exists q, earnings_mean st = Some q /\ (50 <= q)%Q /\ (q <= 199)%Q)
         /\ (exists q, hours_mean st = Some q /\ (2 <= q)%Q /\ (q <= 7)%Q).
Proof.
  destruct (sample_frame_cells (rng w))
    as (ds & es & hs & ps & ms & Hdata & _ & [Hle He] & [Hlh Hh] & [Hlp Hp] & _).
  destruct (int_column_sum _ _ _ He) as (Hne & _).
  destruct (int_column_sum _ _ _ Hh) as (Hnh & _).
  set (df := sample_frame (rng w)) in *.
  assert (Hcols : columns df = ["date"; "earnings"; "hours"; "platform"; "miles"])
    by reflexivity.
  assert (Hstats : platform_stats df = Ok (agg <$> groupby ps (combine es hs))).
  { unfold platform_stats, numeric_column, getitem. rewrite Hcols, Hdata.
    cbn [select String.eqb Ascii.eqb Bool.eqb mbind result_mbind result_bind].
    rewrite Hne, Hnh. reflexivity. }
  assert (Hdf : df = sample_frame (rng w)) by reflexivity.
  clearbody df.
  assert (Hgroup : forall k rows, groupby ps (combine es hs) !! k = Some rows ->
            rows <> []
            /\ Forall (is_int_in 50 199) (List.map fst rows)
            /\ Forall (is_int_in 2 7) (List.map snd rows)
            /\ exists label, k = inl (inl label) /\ In label platforms).
  { intros k rows Hk. rewrite groupby_lookup in Hk.
    destruct (rows_with_key k ps (combine es hs)) as [|x l] eqn:Hrows;
      [discriminate|].
    injection Hk as <-. split; [discriminate|].
    assert (Hin : forall y, In y (x :: l) ->
              In y (combine es hs) /\ exists key, In key ps /\ key_of key = Some k).
    { intros y Hy. apply (rows_with_key_in k ps). rewrite Hrows. exact Hy. }
    split; [|split].
    - apply List.Forall_forall. intros v Hv. apply List.in_map_iff in Hv.
      destruct Hv as ([e h] & <- & Hy). destruct (Hin _ Hy) as [Hc _].
      apply (proj1 (List.Forall_forall _ _) He), (List.in_combine_l _ _ _ _ Hc).
    - apply List.Forall_forall. intros v Hv. apply List.in_map_iff in Hv.
      destruct Hv as ([e h] & <- & Hy). destruct (Hin _ Hy) as [Hc _].
      apply (proj1 (List.Forall_forall _ _) Hh), (List.in_combine_r _ _ _ _ Hc).
    - destruct (Hin x (or_introl eq_refl)) as (_ & key & Hkey & Hkk).
      destruct (proj1 (List.Forall_forall _ _) Hp key Hkey) as (label & -> & Hl).
      exists label. cbn [key_of] in Hkk. injection Hkk as <-.
      split; [reflexivity|exact Hl]. }
  eexists _, _, (sample_frame (rng w)), _.
  split; [apply load_sample_data_eq|].
  split; [cbn [with_heap heap]; apply lookup_insert_eq|].
  rewrite <- Hdf. split; [exact Hstats|]. split.
  - destruct ps as [|p ps']; [discriminate|].
    destruct es as [|e es']; [discriminate|].
    destruct hs as [|h hs']; [discriminate|].
    inversion Hp as [|? ? (label & -> & _) _]; subst.
    intros Hempty.
    assert (Hl : (agg <$> groupby (VStr label :: ps') (combine (e :: es') (h :: hs')))
                 !! (inl (inl label) : group_key) = None)
      by (rewrite Hempty; apply lookup_empty).
    rewrite lookup_fmap in Hl. cbn [combine groupby key_of] in Hl.
    rewrite lookup_insert_eq in Hl. discriminate.
  - intros k st Hk. rewrite lookup_fmap in Hk.
    destruct (groupby ps (combine es hs) !! k) as [rows|] eqn:Hrows;
      [|discriminate].
    injection Hk as <-.
    destruct (Hgroup k rows Hrows) as (Hnil & Hes & Hhs & Hlabel).
    split; [exact Hlabel|]. cbn [agg earnings_mean hours_mean]. split.
    + apply (int_column_mean 50 199); [|exact Hes].
      destruct rows; [destruct (Hnil eq_refl)|discriminate].
    + apply (int_column_mean 2 7); [|exact Hhs].
      destruct rows; [destruct (Hnil eq_refl)|discriminate].
Qed.

(** ** The summary metrics of any table *)

Lemma guarded_ratio (e s : Q) :
  ((1 <= s)%Q -> (e / py_max 1 s == e / s)%Q)
  /\ ((s <= 1)%Q -> (e / py_max 1 s == e)%Q).
Proof.
  split; intros Hs.
  - unfold py_max. destruct (Qlt_le_dec 1 s) as [_|Hle]; [reflexivity|].
    assert (Heq : (s == 1)%Q) by (apply Qle_antisym; assumption).
    rewrite Heq. reflexivity.
  - rewrite (py_max_guard _ Hs). field.
Qed.

(** X17.  For every table, the summary metrics either are all computed or
    fail with the very exception of one of the column sums, and never with
    a division by zero.  When they are computed, each rate is the earnings
    divided by the total if the total is at least 1, and the earnings
    themselves if the total is at most 1, zero and negative totals
    included; the fourth metric is the number of rows exactly when the
    table has no miles column. *)
Theorem X17_summary_outcomes (df : DataFrame) :
  match performance_summary df with
  | Ok s =>
      column_sum df "earnings" = Ok (total_earnings s)
      /\ column_sum df "hours" = Ok (total_hours s)
      /\ ((1 <= total_hours s)%Q ->
          (avg_hourly_rate s == total_earnings s / total_hours s)%Q)
      /\ ((total_hours s <= 1)%Q -> (avg_hourly_rate s == total_earnings s)%Q)
      /\ match fourth_metric s with
         | inr jobs => has_column df "miles" = false /\ jobs = nrows df
         | inl rate =>
             has_column df "miles" = true
             /\ exists m, column_sum df "miles" = Ok m
                          /\ ((1 <= m)%Q -> (rate == total_earnings s / m)%Q)
                          /\ ((m <= 1)%Q -> (rate == total_earnings s)%Q)
         end
  | Raise x =>
      exn_cls x <> ZeroDivisionError
      /\ (column_sum df "earnings" = Raise x
          \/ column_sum df "hours" = Raise x
          \/ (has_column df "miles" = true /\ column_sum df "miles" = Raise x))
  end.
Proof.
  unfold performance_summary.
  destruct (column_sum df "earnings") as [e|x] eqn:He;
    cbn [mbind result_mbind result_bind];
    [|split; [apply (column_sum_raises _ _ _ He)|left; reflexivity]].
  destruct (column_sum df "hours") as [h|x] eqn:Hh;
    cbn [mbind result_mbind result_bind];
    [|split; [apply (column_sum_raises _ _ _ Hh)|right; left; reflexivity]].
  rewrite (hourly_rate_value _ _ _ He Hh). cbn [mbind result_mbind result_bind].
  destruct (has_column df "miles") eqn:Hmiles.
  - destruct (column_sum df "miles") as [m|x] eqn:Hm.
    + rewrite (mile_rate_value _ _ _ He Hm).
      cbn [mbind result_mbind result_bind total_earnings total_hours
           avg_hourly_rate fourth_metric].
      split; [reflexivity|]. split; [reflexivity|].
      split; [apply guarded_ratio|]. split; [apply guarded_ratio|].
      split; [reflexivity|]. exists m. split; [reflexivity|].
      split; apply guarded_ratio.
    + unfold mile_rate. rewrite He, Hm. cbn [mbind result_mbind result_bind].
      split; [apply (column_sum_raises _ _ _ Hm)|].
      right; right. split; reflexivity.
  - cbn [total_earnings total_hours avg_hourly_rate fourth_metric].
    split; [reflexivity|]. split; [reflexivity|].
    split; [apply guarded_ratio|]. split; [apply guarded_ratio|].
    split; reflexivity.
Qed.

(** ** The sample and the validator *)

(** X18.  "Load Data" takes the sample without validating it; had it
    been validated, nothing would differ: the validator accepts every
    generated sample, returns the same object, sends nothing to the page
    and leaves the table, labels and cells, exactly as generated. *)
Theorem X18_sample_passes_validation (co : Series -> nat -> option Z) (w : world) :
  exists (r : ref) (w1 : world),
    load_sample_data w = (Ok r, w1)
    /\ validate_data co r w1 = (Ok (Some r), w1).
Proof.
  pose proof (load_sample_data_eq w) as Hload.
  set (r0 := fresh (dom (heap w))) in *.
  set (w1 := with_heap (<[r0 := sample_frame (rng w)]> (heap w))
               (with_rng (Rng (raw (rng w)) (consumed (rng w) + 360)) w)) in *.
  assert (Hheap : heap w1 = <[r0 := sample_frame (rng w)]> (heap w)) by reflexivity.
  assert (Heta : with_heap (heap w1) w1 = w1) by reflexivity.
  clearbody w1 r0.
  exists r0, w1. split; [exact Hload|].
  assert (Hr : heap w1 !! r0 = Some (sample_frame (rng w)))
    by (rewrite Hheap; apply lookup_insert_eq).
  rewrite (validate_data_run co r0 _ w1 Hr).
  assert (Hv : verdict_of co (sample_frame (rng w)) = Accepted (sample_frame (rng w))).
  { destruct (sample_frame_cells (rng w))
      as (ds & es & hs & ps & ms & Hdata & Hds & _).
    rewrite <- (frame_eta (sample_frame (rng w))), Hdata, Hds.
    change (columns (sample_frame (rng w)))
      with ["date"; "earnings"; "hours"; "platform"; "miles"].
    clear. vm_compute. reflexivity. }
  rewrite Hv. cbn [returned world_after].
  rewrite insert_id by exact Hr. rewrite Heta. reflexivity.
Qed.

(** ** Nothing is lost in the breakdown *)

Lemma total_perm (l l' : list Q) : l ≡ₚ l' -> (total l == total l')%Q.
Proof.
  induction 1 as [|x l l' _ IH|x y l|l l' l'' _ IH1 _ IH2]; cbn [total fold_right].
  - reflexivity.
  - fold (total l). fold (total l'). rewrite IH. reflexivity.
  - fold (total l). ring.
  - etransitivity; eassumption.
Qed.

Lemma over_groups_insert {S : Type} (f : S -> Q) (m : gmap group_key S)
  (k : group_key) (v : S) :
  (over_groups f (<[k := v]> m)
   == f v + over_groups f m - match m !! k with Some old => f old | None => 0 end)%Q.
Proof.
  unfold over_groups. set (F := fun p : group_key * S => f (snd p)).
  destruct (m !! k) as [old|] eqn:Hk.
  - assert (E1 : (total (List.map F (map_to_list m))
                  == f old + total (List.map F (map_to_list (delete k m))))%Q).
    { symmetry.
      apply (total_perm (List.map F ((k, old) :: map_to_list (delete k m)))).
      apply (fmap_Permutation F), (map_to_list_delete m k old Hk). }
    assert (E2 : (total (List.map F (map_to_list (<[k := v]> m)))
                  == f v + total (List.map F (map_to_list (delete k m))))%Q).
    { rewrite <- (insert_delete_eq m k v).
      apply (total_perm _ (List.map F ((k, v) :: map_to_list (delete k m)))).
      apply (fmap_Permutation F), map_to_list_insert, lookup_delete_eq. }
    rewrite E1, E2. ring.
  - assert (E2 : (total (List.map F (map_to_list (<[k := v]> m)))
                  == f v + total (List.map F (map_to_list m)))%Q).
    { apply (total_perm _ (List.map F ((k, v) :: map_to_list m))).
      apply (fmap_Permutation F), map_to_list_insert, Hk. }
    rewrite E2. ring.
Qed.

Lemma groupby_conserves {A} (f : A -> value) (keys : Series) (rows : list A) :
  (over_groups (fun l => series_sum (List.map f l)) (groupby keys rows)
   == series_sum (List.map f (keyed_rows keys rows)))%Q.
Proof.
  revert rows. induction keys as [|key keys IH]; intros [|x rows];
    try reflexivity.
  cbn [groupby]. unfold keyed_rows. cbn [combine List.filter fst].
  specialize (IH rows). unfold keyed_rows in IH.
  destruct (key_of key) as [k|] eqn:Hk.
  - rewrite bool_decide_eq_true_2 by (eexists; reflexivity).
    cbn [List.map snd]. rewrite over_groups_insert, IH.
    change (series_sum (f x :: ?l)) with (number (f x) + series_sum l)%Q.
    destruct (groupby keys rows !! k) as [old|]; cbn [default from_option List.map];
      unfold id;
      change (series_sum (f x :: ?l)) with (number (f x) + series_sum l)%Q;
      change (series_sum []) with 0%Q; ring.
  - rewrite bool_decide_eq_false_2 by (intros [? ?]; discriminate).
    exact IH.
Qed.

Lemma over_groups_agg (f : stats -> Q) (g : list (value * value) -> Q)
  (m : gmap group_key (list (value * value))) :
  (forall l, f (agg l) = g l) ->
  (over_groups f (agg <$> m) == over_groups g m)%Q.
Proof.
  intros Hfg. unfold over_groups.
  rewrite (map_to_list_fmap agg m).
  change (List.map ?h ?l) with (h <$> l). rewrite <- list_fmap_compose.
  assert (Heq : (fun p : group_key * stats => f (snd p)) ∘ prod_map id agg
                <$> map_to_list m
                = (fun p : group_key * list (value * value) => g (snd p))
                <$> map_to_list m).
  { apply list_fmap_ext. intros _ [k l] _. cbn. apply Hfg. }
  rewrite Heq. reflexivity.
Qed.

Lemma keyed_rows_all {A} (keys : Series) (rows : list A) :
  List.length keys = List.length rows ->
  Forall (fun v => isnull v = false) keys ->
  keyed_rows keys rows = rows.
Proof.
  intros Hlen Hall. revert rows Hlen.
  induction Hall as [|key keys Hkey _ IH]; intros [|x rows] Hlen;
    try discriminate; [reflexivity|].
  unfold keyed_rows. cbn [combine List.filter fst].
  rewrite bool_decide_eq_true_2 by (destruct key; try discriminate; eexists; reflexivity).
  cbn [List.map snd]. f_equal. apply IH. injection Hlen as ->. reflexivity.
Qed.

(** X19.  On a table whose earnings and hours are whole numbers (int64
    columns), the breakdown loses and repeats nothing except that it leaves
    out the rows whose platform is missing: added up over the groups, the
    sums of the earnings (of the hours) are the sum of the earnings (of the
    hours) of the rows that have a platform; when no platform cell is
    missing, they are the sums of the whole columns. *)
Theorem X19_breakdown_totals (df : DataFrame) (keys es hs : Series) :
  getitem df "platform" = Ok (ISeries keys) ->
  getitem df "earnings" = Ok (ISeries es) ->
  getitem df "hours" = Ok (ISeries hs) ->
  int64_column es ->
  int64_column hs ->
  List.length es = List.length keys ->
  List.length hs = List.length keys ->
  exists m : gmap group_key stats,
    platform_stats df = Ok m
    /\ (over_groups earnings_sum m
        == series_sum (List.map fst (keyed_rows keys (combine es hs))))%Q
    /\ (over_groups hours_sum m
        == series_sum (List.map snd (keyed_rows keys (combine es hs))))%Q
    /\ (Forall (fun v => isnull v = false) keys ->
        (over_groups earnings_sum m == series_sum es)%Q
        /\ (over_groups hours_sum m == series_sum hs)%Q).
Proof.
  intros Hk Hge Hgh Hie Hih Hle Hlh.
  assert (He : numeric_column df "earnings" = Ok es).
  { unfold numeric_column. rewrite Hge. cbn.
    rewrite (int64_is_numeric _ Hie). reflexivity. }
  assert (Hh : numeric_column df "hours" = Ok hs).
  { unfold numeric_column. rewrite Hgh. cbn.
    rewrite (int64_is_numeric _ Hih). reflexivity. }
  eexists. split.
  { unfold platform_stats. rewrite Hk. cbn. rewrite He. cbn. rewrite Hh.
    reflexivity. }
  assert (H1 : (over_groups earnings_sum (agg <$> groupby keys (combine es hs))
                == series_sum (List.map fst (keyed_rows keys (combine es hs))))%Q).
  { rewrite (over_groups_agg earnings_sum
               (fun l => series_sum (List.map fst l))) by reflexivity.
    apply groupby_conserves. }
  assert (H2 : (over_groups hours_sum (agg <$> groupby keys (combine es hs))
                == series_sum (List.map snd (keyed_rows keys (combine es hs))))%Q).
  { rewrite (over_groups_agg hours_sum
               (fun l => series_sum (List.map snd l))) by reflexivity.
    apply groupby_conserves. }
  split; [exact H1|]. split; [exact H2|].
  intros Hall.
  assert (Hlen : List.length keys = List.length (combine es hs)).
  { rewrite List.length_combine. lia. }
  rewrite (keyed_rows_all _ _ Hlen Hall) in H1, H2.
  assert (Hfst : List.map fst (combine es hs) = es).
  { clear -Hle Hlh. rewrite <- Hlh in Hle. clear Hlh. revert hs Hle.
    induction es as [|e es IH]; intros [|h hs] Hlen; try discriminate;
      [reflexivity|]. cbn. f_equal. apply IH. injection Hlen as ->. reflexivity. }
  assert (Hsnd : List.map snd (combine es hs) = hs).
  { clear -Hle Hlh. rewrite <- Hlh in Hle. clear Hlh. revert hs Hle.
    induction es as [|e es IH]; intros [|h hs] Hlen; try discriminate;
      [reflexivity|]. cbn. f_equal. apply IH. injection Hlen as ->. reflexivity. }
  rewrite Hfst in H1. rewrite Hsnd in H2. split; assumption.
Qed.

Lemma X19_breakdown_totals_witness :
  exists m : gmap group_key stats,
    platform_stats breakdown_example = Ok m
    /\ (over_groups earnings_sum m == 35)%Q
    /\ (over_groups hours_sum m == 6)%Q.
Proof.
  destruct (X19_breakdown_totals breakdown_example
              [VStr "A"; VStr "A"; VStr "B"]
              [VInt 10; VInt 20; VInt 5] [VInt 1; VInt 2; VInt 3]
              eq_refl eq_refl eq_refl
              ltac:(repeat constructor; eexists; reflexivity)
              ltac:(repeat constructor; eexists; reflexivity)
              eq_refl eq_refl)
    as (m & Hm & _ & _ & Hall).
  exists m. split; [exact Hm|].
  destruct Hall as [H1 H2]; [repeat constructor|].
  split; [rewrite H1|rewrite H2]; reflexivity.
Defined.
